(** * EdenFM Radio Buddy: the show-schedule matcher

    A shallow embedding of [isShowOnAir] (the two copies in the registration
    and request analytics views) and of [normaliseDaysForSelector] (the
    day-descriptor expansion of the data table), together with the parts of
    the JavaScript runtime they call: strings, [Number], IEEE-754 doubles,
    [Set] and the three [Date] getters.

    Around the matcher it embeds what the views do with it and next to it:
    the day checkboxes of the show editor and the payload saved for a row of
    the TimeSlots sheet, the row filters of the data table, the timestamps
    and the matched show of the two analytics views, the request priorities
    of the requests view, the request analytics and the overview, and the
    session memory of the agent tester; and the matcher once more on
    arguments that may be [null] or [undefined], where it can throw. *)

From Stdlib Require Import ZArith Bool List Ascii String Lia.
From Stdlib Require Import Floats.SpecFloat.
Import ListNotations.

Local Open Scope string_scope.
Local Open Scope Z_scope.

(* ================================================================== *)
(** * The JavaScript runtime used by the matcher *)
(* ================================================================== *)

Module JS.

(** ** Strings

    A JavaScript string is a sequence of UTF-16 code units.  The embedding
    uses [string]; each [ascii] stands for the code unit of the same number,
    so the strings covered are those over U+0000..U+00FF. *)

Definition code (c : ascii) : Z := Z.of_nat (nat_of_ascii c).

(** WhiteSpace and LineTerminator code units below U+0100: TAB, LF, VT, FF,
    CR, SP and NBSP.  [trim] and [Number] strip the same set. *)
Definition isWhiteSpace (c : ascii) : bool :=
  let n := code c in
  ((9 <=? n) && (n <=? 13)) || (n =? 32) || (n =? 160).

Fixpoint trimStart (s : string) : string :=
  match s with
  | String c r => if isWhiteSpace c then trimStart r else s
  | EmptyString => EmptyString
  end.

Fixpoint trimEnd (s : string) : string :=
  match s with
  | EmptyString => EmptyString
  | String c r =>
      match trimEnd r with
      | EmptyString => if isWhiteSpace c then EmptyString else String c EmptyString
      | r' => String c r'
      end
  end.

(** [s.trim()] *)
Definition trim (s : string) : string := trimEnd (trimStart s).

(** [s.includes(c)] for a one-character pattern. *)
Fixpoint includes (c : ascii) (s : string) : bool :=
  match s with
  | EmptyString => false
  | String d r => Ascii.eqb d c || includes c r
  end.

(** [s.replace(c, d)] with string patterns of length one: only the first
    occurrence is replaced. *)
Fixpoint replace (c d : ascii) (s : string) : string :=
  match s with
  | EmptyString => EmptyString
  | String x r => if Ascii.eqb x c then String d r else String x (replace c d r)
  end.

(** [s.split(c)] for a one-character separator.  The result is never empty:
    [''.split(',')] is [['']]. *)
Fixpoint split (c : ascii) (s : string) : list string :=
  match s with
  | EmptyString => [EmptyString]
  | String x r =>
      if Ascii.eqb x c then EmptyString :: split c r
      else match split c r with
           | h :: t => String x h :: t
           | [] => [String x EmptyString]
           end
  end.

(** [/p/i.test(s)] for a pattern [p] of ASCII letters and punctuation:
    some substring of [s] equals [p] up to the case of ASCII letters. *)
Definition lower (c : ascii) : ascii :=
  let n := code c in
  if (65 <=? n) && (n <=? 90) then ascii_of_nat (Z.to_nat (n + 32)) else c.

Fixpoint prefixCI (p s : string) : bool :=
  match p, s with
  | EmptyString, _ => true
  | String a p', String b s' => Ascii.eqb (lower a) (lower b) && prefixCI p' s'
  | String _ _, EmptyString => false
  end.

Fixpoint testCI (p s : string) : bool :=
  prefixCI p s ||
  match s with
  | EmptyString => false
  | String _ s' => testCI p s'
  end.

(** Truthiness of a string: [Boolean(s)], [!s]. *)
Definition truthy (s : string) : bool :=
  match s with EmptyString => false | _ => true end.

(** [arr.join(sep)] *)
Fixpoint join (sep : string) (l : list string) : string :=
  match l with
  | [] => EmptyString
  | [x] => x
  | x :: r => x ++ sep ++ join sep r
  end.

(** [arr.indexOf(x)] on an array of strings, with [-1] when [x] is not an
    element; [x] may be [undefined] ([None]), which no element equals. *)
Fixpoint indexOf (l : list string) (x : option string) : Z :=
  match l, x with
  | y :: r, Some s =>
      if String.eqb y s then 0
      else let k := indexOf r x in if k <? 0 then -1 else k + 1
  | _, _ => -1
  end.

(** [arr.includes(x)] *)
Definition arrIncludes (l : list string) (x : string) : bool :=
  existsb (fun y => String.eqb y x) l.

(** [arr[i]]: [None] is [undefined]. *)
Definition at_ {A} (l : list A) (i : Z) : option A :=
  if i <? 0 then None else nth_error l (Z.to_nat i).

(** The integers [lo, lo+1, ..., hi] visited by
    [for (let i = lo; i <= hi; i++)]. *)
Definition upto (lo hi : Z) : list Z :=
  map (fun k => lo + Z.of_nat k) (seq 0 (Z.to_nat (hi + 1 - lo))).

(** ** Numbers: IEEE-754 binary64 *)

Definition number := spec_float.
Definition prec := 53.
Definition emax := 1024.

Definition NaN : number := S754_nan.
Definition ofZ (n : Z) : number := binary_normalize prec emax n 0 false.
Definition add (x y : number) : number := SFadd prec emax x y.
Definition mul (x y : number) : number := SFmul prec emax x y.
Definition lt (x y : number) : bool := SFltb x y.
Definition ge (x y : number) : bool := SFleb y x.
Definition strictEq (x y : number) : bool := SFeqb x y.

(** [x % y]: the remainder has the sign of the dividend and is exact. *)
Definition rem (x y : number) : number :=
  match x, y with
  | S754_nan, _ | _, S754_nan => S754_nan
  | S754_infinity _, _ => S754_nan
  | _, S754_zero _ => S754_nan
  | S754_zero _, _ => x
  | S754_finite _ _ _, S754_infinity _ => x
  | S754_finite sx mx ex, S754_finite _ my ey =>
      let ez := Z.min ex ey in
      let X := Zpos (fst (shl_align mx ex ez)) in
      let Y := Zpos (fst (shl_align my ey ez)) in
      binary_normalize prec emax (cond_Zopp sx (Z.rem X Y)) ez sx
  end.

(** [isNaN(x)] where [x] may be [undefined] ([None]): [undefined] converts
    to NaN. *)
Definition isNaN (x : option number) : bool :=
  match x with
  | None => true
  | Some S754_nan => true
  | Some _ => false
  end.

(** An operand of [*] or [+] that may be [undefined]: ToNumber. *)
Definition toNumber (x : option number) : number :=
  match x with Some n => n | None => NaN end.

(** ** [Number(s)]: StringToNumber

    The argument is trimmed; the empty string is [+0]; a signed decimal
    literal (with optional fraction and exponent, or [Infinity]) or an
    unsigned [0x]/[0o]/[0b] integer literal is rounded to the nearest double
    (ties to even); anything else is NaN. *)

Definition digitOf (base : Z) (c : ascii) : option Z :=
  let n := code c in
  let v := if (48 <=? n) && (n <=? 57) then n - 48
           else if (97 <=? n) && (n <=? 102) then n - 87
           else if (65 <=? n) && (n <=? 70) then n - 55
           else 16 in
  if v <? base then Some v else None.

(** Reads the longest prefix of digits of [s] in [base], accumulating onto
    [acc]; returns the number of digits read, the value and the rest. *)
Fixpoint readDigits (base : Z) (cnt acc : Z) (s : string) : Z * Z * string :=
  match s with
  | EmptyString => (cnt, acc, s)
  | String c r =>
      match digitOf base c with
      | Some d => readDigits base (cnt + 1) (acc * base + d) r
      | None => (cnt, acc, s)
      end
  end.

(** The double nearest to [(-1)^neg * m * 10^e], for [m >= 0]. *)
Definition roundDecimal (neg : bool) (m e : Z) : number :=
  if m =? 0 then S754_zero neg
  else if 0 <=? e then binary_normalize prec emax (cond_Zopp neg (m * 10 ^ e)) 0 false
  else let '(q, e', l) := SFdiv_core_binary prec emax m 0 (10 ^ (- e)) 0 in
       binary_round_aux prec emax neg q e' l.

(** ExponentPart_opt followed by the end of the string: [None] when the
    rest is not of that form. *)
Definition exponentPart (s : string) : option Z :=
  match s with
  | EmptyString => Some 0
  | String c r =>
      if Ascii.eqb c "e" || Ascii.eqb c "E" then
        let '(neg, r') :=
          match r with
          | String "+" t => (false, t)
          | String "-" t => (true, t)
          | _ => (false, r)
          end in
        match readDigits 10 0 0 r' with
        | (n, x, EmptyString) => if 0 <? n then Some (cond_Zopp neg x) else None
        | _ => None
        end
      else None
  end.

(** StrUnsignedDecimalLiteral with the sign already read. *)
Definition unsignedDecimal (neg : bool) (s : string) : number :=
  if String.eqb s "Infinity" then S754_infinity neg
  else
    let '(n1, m1, r1) := readDigits 10 0 0 s in
    let '(n2, m2, r2) :=
      match r1 with
      | String "." t => readDigits 10 0 m1 t
      | _ => (0, m1, r1)
      end in
    if 0 <? n1 + n2 then
      match exponentPart r2 with
      | Some x => roundDecimal neg m2 (x - n2)
      | None => NaN
      end
    else NaN.

(** NonDecimalIntegerLiteral: the digits after the two-character prefix. *)
Definition nonDecimal (base : Z) (s : string) : number :=
  match readDigits base 0 0 s with
  | (n, v, EmptyString) => if 0 <? n then ofZ v else NaN
  | _ => NaN
  end.

Definition Number (s : string) : number :=
  match trim s with
  | EmptyString => S754_zero false
  | String "+" r => unsignedDecimal false r
  | String "-" r => unsignedDecimal true r
  | String "0" (String c r) as t =>
      if Ascii.eqb c "x" || Ascii.eqb c "X" then nonDecimal 16 r
      else if Ascii.eqb c "o" || Ascii.eqb c "O" then nonDecimal 8 r
      else if Ascii.eqb c "b" || Ascii.eqb c "B" then nonDecimal 2 r
      else unsignedDecimal false t
  | t => unsignedDecimal false t
  end.

(** ** Values held by the day tables and the day [Set]

    [undefined], a string, or a member that a plain object literal inherits
    from [Object.prototype] (a function, or the prototype itself for
    [__proto__]), identified by its property name. *)

Inductive value :=
  | VUndefined
  | VString (s : string)
  | VInherited (key : string).

Definition value_eqb (a b : value) : bool :=
  match a, b with
  | VUndefined, VUndefined => true
  | VString x, VString y => String.eqb x y
  | VInherited x, VInherited y => String.eqb x y
  | _, _ => false
  end.

Definition truthyValue (v : value) : bool :=
  match v with
  | VUndefined => false
  | VString s => truthy s
  | VInherited _ => true
  end.

Definition objectPrototypeKeys : list string :=
  ["constructor"; "hasOwnProperty"; "isPrototypeOf"; "propertyIsEnumerable";
   "toLocaleString"; "toString"; "valueOf"; "__proto__";
   "__defineGetter__"; "__defineSetter__"; "__lookupGetter__";
   "__lookupSetter__"].

(** [obj[key]] on an object literal with string values; an [undefined] key
    is the property name ["undefined"]. *)
Definition getProp (own : list (string * string)) (key : option string) : value :=
  let k := match key with Some k => k | None => "undefined" end in
  match find (fun kv => String.eqb (fst kv) k) own with
  | Some kv => VString (snd kv)
  | None => if arrIncludes objectPrototypeKeys k then VInherited k else VUndefined
  end.

(** [obj[n]] on an object literal whose own keys are the integers [own]:
    the key is the decimal string of [n], which names an own property
    exactly when [n] is that integer, and never an inherited one. *)
Definition getIndex (own : list (Z * string)) (n : number) : value :=
  match find (fun kv => strictEq n (ofZ (fst kv))) own with
  | Some kv => VString (snd kv)
  | None => VUndefined
  end.

(** ** [Set]: insertion-ordered, without duplicates *)

Definition has (s : list value) (x : value) : bool := existsb (value_eqb x) s.

Definition setAdd (s : list value) (x : value) : list value :=
  if has s x then s else s ++ [x].

(** ** [Date]: the local-time fields read by the matcher

    An invalid date answers NaN to every getter. *)

Inductive Date :=
  | InvalidDate
  | LocalTime (day hours minutes : Z).

Definition getDay (d : Date) : number :=
  match d with InvalidDate => NaN | LocalTime w _ _ => ofZ w end.
Definition getHours (d : Date) : number :=
  match d with InvalidDate => NaN | LocalTime _ h _ => ofZ h end.
Definition getMinutes (d : Date) : number :=
  match d with InvalidDate => NaN | LocalTime _ _ m => ofZ m end.

(** A valid date: weekday 0 (Sunday) to 6 (Saturday), 24-hour clock. *)
Definition validDate (d : Date) : Prop :=
  match d with
  | InvalidDate => False
  | LocalTime w h m => 0 <= w <= 6 /\ 0 <= h <= 23 /\ 0 <= m <= 59
  end.

End JS.

Import JS.

(* ================================================================== *)
(** * types.ts *)
(* ================================================================== *)

(** [RadioShow]: the fields the matcher reads, and [Show].  [None] is a
    property that is absent, [undefined] or [null]. *)
Record RadioShow := {
  Day_s_of_Week : option string;   (* 'Day(s) of Week' *)
  Day : option string;
  Show : string;
  Start : option string;
  End' : option string             (* 'End' *)
}.

(** [a ?? b] *)
Definition nullish (a : option string) (b : option string) : option string :=
  match a with Some _ => a | None => b end.

(** [String(v)] *)
Definition String_ (v : option string) : string :=
  match v with Some s => s | None => "undefined" end.

(** [!v] is [negb (truthyField v)] *)
Definition truthyField (v : option string) : bool :=
  match v with Some s => truthy s | None => false end.

(* ================================================================== *)
(** * RegistrationDashboard: registration analytics *)
(* ================================================================== *)

Module RegistrationDashboard.

Definition shortDayToFull : list (string * string) :=
  [("Mon", "Monday"); ("Tue", "Tuesday"); ("Wed", "Wednesday");
   ("Thu", "Thursday"); ("Fri", "Friday"); ("Sat", "Saturday");
   ("Sun", "Sunday")].
Definition dayOrderArray : list string :=
  ["Mon"; "Tue"; "Wed"; "Thu"; "Fri"; "Sat"; "Sun"].
Definition fullDaysOfWeek : list string :=
  ["Monday"; "Tuesday"; "Wednesday"; "Thursday"; "Friday"; "Saturday"; "Sunday"].
(** Maps [getDay()] to a full day name. *)
Definition dayFullNameMap : list (Z * string) :=
  [(0, "Sunday"); (1, "Monday"); (2, "Tuesday"); (3, "Wednesday");
   (4, "Thursday"); (5, "Friday"); (6, "Saturday")].

(** The locals of [isShowOnAir], in the order the source computes them. *)

Definition formattedDayString (show : RadioShow) : string :=
  String_ (nullish (Day show) (nullish (Day_s_of_Week show) (Some ""))).

(** The body of [for (const part of parts)]: the set after the iteration,
    from the set before it. *)
Definition addPart (scheduledDays : list value) (part : string) : list value :=
  if includes "-" part then
    let pieces := split "-" part in
    let startShort := nth_error pieces 0 in
    let endShort := nth_error pieces 1 in
    let startIndex := indexOf dayOrderArray startShort in
    let endIndex := indexOf dayOrderArray endShort in
    if (startIndex >? -1) && (endIndex >? -1) && (startIndex <=? endIndex) then
      fold_left
        (fun days i =>
           let dayName := getProp shortDayToFull (at_ dayOrderArray i) in
           if truthyValue dayName then setAdd days dayName else days)
        (upto startIndex endIndex) scheduledDays
    else scheduledDays
  else
    let dayName := getProp shortDayToFull (Some part) in
    if truthyValue dayName then setAdd scheduledDays dayName
    else if arrIncludes fullDaysOfWeek part then setAdd scheduledDays (VString part)
    else scheduledDays.

(** [scheduledDays] when the loop over [parts] has run. *)
Definition scheduledDaysOf (formattedDayString : string) : list value :=
  let parts := filter truthy (map trim (split "," formattedDayString)) in
  fold_left addPart parts [].

Definition currentDayName (date : Date) : value :=
  getIndex dayFullNameMap (getDay date).
Definition previousDayName (date : Date) : value :=
  getIndex dayFullNameMap (rem (add (getDay date) (ofZ 6)) (ofZ 7)).

(** The four lines the source writes once for [Start] and once for [End];
    [None] is the early [return false]. *)
Definition minutesOf (timeValue : option string) : option number :=
  let timeStr := replace "h" ":" (String_ timeValue) in
  let comps := map Number (split ":" timeStr) in
  let H := nth_error comps 0 in
  let M := nth_error comps 1 in
  if isNaN H || isNaN M then None
  else Some (add (mul (toNumber H) (ofZ 60)) (toNumber M)).

Definition currentTime (date : Date) : number :=
  add (mul (getHours date) (ofZ 60)) (getMinutes date).

(** Whether the show is on air at the date and time of a registration. *)
Definition isShowOnAir (show : RadioShow) (date : Date) : bool :=
  let startTimeValue := Start show in
  let endTimeValue := End' show in
  if negb (truthy (formattedDayString show)) || negb (truthyField startTimeValue)
     || negb (truthyField endTimeValue)
  then false
  else
    let scheduledDays := scheduledDaysOf (formattedDayString show) in
    match minutesOf startTimeValue with
    | None => false
    | Some startTime =>
        match minutesOf endTimeValue with
        | None => false
        | Some endTime =>
            let crossesMidnight := lt endTime startTime in
            if crossesMidnight then
              let isAfterStartTimeOnStartDay :=
                has scheduledDays (currentDayName date)
                && ge (currentTime date) startTime in
              let isBeforeEndTimeOnNextDay :=
                has scheduledDays (previousDayName date)
                && lt (currentTime date) endTime in
              isAfterStartTimeOnStartDay || isBeforeEndTimeOnNextDay
            else
              has scheduledDays (currentDayName date)
              && ge (currentTime date) startTime
              && lt (currentTime date) endTime
        end
    end.

End RegistrationDashboard.

(* ================================================================== *)
(** * RequestAnalytics: request analytics *)
(* ================================================================== *)

Module RequestAnalytics.

Definition shortDayToFull : list (string * string) :=
  [("Mon", "Monday"); ("Tue", "Tuesday"); ("Wed", "Wednesday");
   ("Thu", "Thursday"); ("Fri", "Friday"); ("Sat", "Saturday");
   ("Sun", "Sunday")].
Definition dayOrderArray : list string :=
  ["Mon"; "Tue"; "Wed"; "Thu"; "Fri"; "Sat"; "Sun"].
Definition fullDaysOfWeek : list string :=
  ["Monday"; "Tuesday"; "Wednesday"; "Thursday"; "Friday"; "Saturday"; "Sunday"].
(** Maps [getDay()] to a full day name. *)
Definition dayFullNameMap : list (Z * string) :=
  [(0, "Sunday"); (1, "Monday"); (2, "Tuesday"); (3, "Wednesday");
   (4, "Thursday"); (5, "Friday"); (6, "Saturday")].

(** The locals of [isShowOnAir], in the order the source computes them. *)

Definition formattedDayString (show : RadioShow) : string :=
  String_ (nullish (Day show) (nullish (Day_s_of_Week show) (Some ""))).

(** The body of [for (const part of parts)]: the set after the iteration,
    from the set before it. *)
Definition addPart (scheduledDays : list value) (part : string) : list value :=
  if includes "-" part then
    let pieces := split "-" part in
    let startShort := nth_error pieces 0 in
    let endShort := nth_error pieces 1 in
    let startIndex := indexOf dayOrderArray startShort in
    let endIndex := indexOf dayOrderArray endShort in
    if (startIndex >? -1) && (endIndex >? -1) && (startIndex <=? endIndex) then
      fold_left
        (fun days i =>
           let dayName := getProp shortDayToFull (at_ dayOrderArray i) in
           if truthyValue dayName then setAdd days dayName else days)
        (upto startIndex endIndex) scheduledDays
    else scheduledDays
  else
    let dayName := getProp shortDayToFull (Some part) in
    if truthyValue dayName then setAdd scheduledDays dayName
    else if arrIncludes fullDaysOfWeek part then setAdd scheduledDays (VString part)
    else scheduledDays.

(** [scheduledDays] when the loop over [parts] has run. *)
Definition scheduledDaysOf (formattedDayString : string) : list value :=
  let parts := filter truthy (map trim (split "," formattedDayString)) in
  fold_left addPart parts [].

Definition currentDayName (date : Date) : value :=
  getIndex dayFullNameMap (getDay date).
Definition previousDayName (date : Date) : value :=
  getIndex dayFullNameMap (rem (add (getDay date) (ofZ 6)) (ofZ 7)).

(** The four lines the source writes once for [Start] and once for [End];
    [None] is the early [return false]. *)
Definition minutesOf (timeValue : option string) : option number :=
  let timeStr := replace "h" ":" (String_ timeValue) in
  let comps := map Number (split ":" timeStr) in
  let H := nth_error comps 0 in
  let M := nth_error comps 1 in
  if isNaN H || isNaN M then None
  else Some (add (mul (toNumber H) (ofZ 60)) (toNumber M)).

Definition currentTime (date : Date) : number :=
  add (mul (getHours date) (ofZ 60)) (getMinutes date).

(** Whether the show is on air at the date and time of a song request. *)
Definition isShowOnAir (show : RadioShow) (date : Date) : bool :=
  let startTimeValue := Start show in
  let endTimeValue := End' show in
  if negb (truthy (formattedDayString show)) || negb (truthyField startTimeValue)
     || negb (truthyField endTimeValue)
  then false
  else
    let scheduledDays := scheduledDaysOf (formattedDayString show) in
    match minutesOf startTimeValue with
    | None => false
    | Some startTime =>
        match minutesOf endTimeValue with
        | None => false
        | Some endTime =>
            let crossesMidnight := lt endTime startTime in
            if crossesMidnight then
              let isAfterStartTimeOnStartDay :=
                has scheduledDays (currentDayName date)
                && ge (currentTime date) startTime in
              let isBeforeEndTimeOnNextDay :=
                has scheduledDays (previousDayName date)
                && lt (currentTime date) endTime in
              isAfterStartTimeOnStartDay || isBeforeEndTimeOnNextDay
            else
              has scheduledDays (currentDayName date)
              && ge (currentTime date) startTime
              && lt (currentTime date) endTime
        end
    end.

End RequestAnalytics.

(* ================================================================== *)
(** * DataTable: the day selector of the show editor *)
(* ================================================================== *)

Module DataTable.

Definition shortDayToFull : list (string * string) :=
  [("Mon", "Monday"); ("Tue", "Tuesday"); ("Wed", "Wednesday");
   ("Thu", "Thursday"); ("Fri", "Friday"); ("Sat", "Saturday");
   ("Sun", "Sunday")].
Definition dayOrderArray : list string :=
  ["Mon"; "Tue"; "Wed"; "Thu"; "Fri"; "Sat"; "Sun"].
Definition fullDaysOfWeek : list string :=
  ["Monday"; "Tuesday"; "Wednesday"; "Thursday"; "Friday"; "Saturday"; "Sunday"].

(** [/(Mon|Tue|Wed|Thu|Fri|Sat|Sun|-)/i.test(s)] *)
Definition looksCompressed (s : string) : bool :=
  existsb (fun p => testCI p s)
          ["Mon"; "Tue"; "Wed"; "Thu"; "Fri"; "Sat"; "Sun"; "-"].

(** The body of [for (const part of parts)]. *)
Definition addPart (fullDays : list value) (part : string) : list value :=
  if includes "-" part then
    let pieces := split "-" part in
    let startShort := nth_error pieces 0 in
    let endShort := nth_error pieces 1 in
    let startIndex := indexOf dayOrderArray startShort in
    let endIndex := indexOf dayOrderArray endShort in
    if (startIndex >? -1) && (endIndex >? -1) && (startIndex <=? endIndex) then
      fold_left
        (fun days i =>
           let dayName := getProp shortDayToFull (at_ dayOrderArray i) in
           if truthyValue dayName then setAdd days dayName else days)
        (upto startIndex endIndex) fullDays
    else fullDays
  else
    let dayName := getProp shortDayToFull (Some part) in
    if truthyValue dayName then setAdd fullDays dayName
    else if arrIncludes fullDaysOfWeek part then setAdd fullDays (VString part)
    else fullDays.

Definition normaliseDaysForSelector (raw : string) : string :=
  if negb (truthy raw) then ""
  else
    let trimmed := trim raw in
    if negb (truthy trimmed) then ""
    else if negb (looksCompressed trimmed) then trimmed
    else
      let parts := filter truthy (map trim (split "," trimmed)) in
      let fullDays := fold_left addPart parts [] in
      let sortedFullDays :=
        filter (fun day => has fullDays (VString day)) fullDaysOfWeek in
      join ", " sortedFullDays.

End DataTable.

(* ================================================================== *)
(** * The registration analytics copy with its store made explicit *)
(* ================================================================== *)

(** The objects [isShowOnAir] can reach: the four module-level tables, the
    show records and dates it is handed by reference, and the [Set] objects
    allocated so far. *)
Module Imperative.

Record Store := {
  shortDayToFull : list (string * string);
  dayOrderArray : list string;
  fullDaysOfWeek : list string;
  dayFullNameMap : list (Z * string);
  shows : list RadioShow;
  dates : list Date;
  sets : list (list value)
}.

Definition withSets (h : Store) (ss : list (list value)) : Store :=
  {| shortDayToFull := shortDayToFull h; dayOrderArray := dayOrderArray h;
     fullDaysOfWeek := fullDaysOfWeek h; dayFullNameMap := dayFullNameMap h;
     shows := shows h; dates := dates h; sets := ss |}.

(** The store as the module leaves it once loaded. *)
Definition initialised (h : Store) : Prop :=
  shortDayToFull h = RegistrationDashboard.shortDayToFull
  /\ dayOrderArray h = RegistrationDashboard.dayOrderArray
  /\ fullDaysOfWeek h = RegistrationDashboard.fullDaysOfWeek
  /\ dayFullNameMap h = RegistrationDashboard.dayFullNameMap.

(** Computations that read and write the store. *)
Definition M (A : Type) : Type := Store -> A * Store.

Definition ret {A} (a : A) : M A := fun h => (a, h).
Definition bind {A B} (c : M A) (k : A -> M B) : M B :=
  fun h => let (a, h') := c h in k a h'.

Notation "x <- c ;; k" := (bind c (fun x => k))
  (at level 61, c at next level, right associativity).
Notation "c ;; k" := (bind c (fun _ => k))
  (at level 61, right associativity).

Definition read {A} (f : Store -> A) : M A := fun h => (f h, h).

Definition emptyShow : RadioShow :=
  {| Day_s_of_Week := None; Day := None; Show := ""; Start := None; End' := None |}.

(** Dereferencing [show] and [date]. *)
Definition theShow (show : nat) (h : Store) : RadioShow := nth show (shows h) emptyShow.
Definition theDate (date : nat) (h : Store) : Date := nth date (dates h) InvalidDate.

(** [l] with [f] applied to its element [r]. *)
Fixpoint updateNth {A} (r : nat) (f : A -> A) (l : list A) : list A :=
  match l, r with
  | [], _ => []
  | x :: t, O => f x :: t
  | x :: t, S r' => x :: updateNth r' f t
  end.

(** [new Set()] *)
Definition newSet : M nat :=
  fun h => (List.length (sets h), withSets h (sets h ++ [[]])%list).

(** [s.add(v)] *)
Definition setAddM (s : nat) (v : value) : M unit :=
  fun h => (tt, withSets h (updateNth s (fun l => setAdd l v) (sets h))).

(** [s.has(v)] *)
Definition setHas (s : nat) (v : value) : M bool :=
  read (fun h => has (nth s (sets h) []) v).

(** [for (const x of l) body] *)
Fixpoint forEach {A} (l : list A) (body : A -> M unit) : M unit :=
  match l with
  | [] => ret tt
  | x :: t => body x ;; forEach t body
  end.

(** The body of [for (const part of parts)]. *)
Definition addPart (scheduledDays : nat) (part : string) : M unit :=
  if includes "-" part then
    let pieces := split "-" part in
    let startShort := nth_error pieces 0 in
    let endShort := nth_error pieces 1 in
    order <- read dayOrderArray ;;
    let startIndex := indexOf order startShort in
    order <- read dayOrderArray ;;
    let endIndex := indexOf order endShort in
    if (startIndex >? -1) && (endIndex >? -1) && (startIndex <=? endIndex) then
      forEach (upto startIndex endIndex) (fun i =>
        table <- read shortDayToFull ;;
        order <- read dayOrderArray ;;
        let dayName := getProp table (at_ order i) in
        if truthyValue dayName then setAddM scheduledDays dayName else ret tt)
    else ret tt
  else
    table <- read shortDayToFull ;;
    let dayName := getProp table (Some part) in
    if truthyValue dayName then setAddM scheduledDays dayName
    else
      full <- read fullDaysOfWeek ;;
      if arrIncludes full part then setAddM scheduledDays (VString part)
      else ret tt.

Definition isShowOnAir (show date : nat) : M bool :=
  Day <- read (fun h => Day (theShow show h)) ;;
  dayValue <- match Day with
              | Some _ => ret Day
              | None =>
                  Days_of_Week <- read (fun h => Day_s_of_Week (theShow show h)) ;;
                  ret (nullish Days_of_Week (Some ""))
              end ;;
  let formattedDayString := String_ dayValue in
  startTimeValue <- read (fun h => Start (theShow show h)) ;;
  endTimeValue <- read (fun h => End' (theShow show h)) ;;
  if negb (truthy formattedDayString) || negb (truthyField startTimeValue)
     || negb (truthyField endTimeValue)
  then ret false
  else
    scheduledDays <- newSet ;;
    let parts := filter truthy (map trim (split "," formattedDayString)) in
    forEach parts (addPart scheduledDays) ;;
    names <- read dayFullNameMap ;;
    day <- read (fun h => getDay (theDate date h)) ;;
    let currentDayName := getIndex names day in
    names <- read dayFullNameMap ;;
    day <- read (fun h => getDay (theDate date h)) ;;
    let previousDayName := getIndex names (rem (add day (ofZ 6)) (ofZ 7)) in
    match RegistrationDashboard.minutesOf startTimeValue with
    | None => ret false
    | Some startTime =>
        match RegistrationDashboard.minutesOf endTimeValue with
        | None => ret false
        | Some endTime =>
            hours <- read (fun h => getHours (theDate date h)) ;;
            minutes <- read (fun h => getMinutes (theDate date h)) ;;
            let currentTime := add (mul hours (ofZ 60)) minutes in
            let crossesMidnight := lt endTime startTime in
            if crossesMidnight then
              onDay <- setHas scheduledDays currentDayName ;;
              let isAfterStartTimeOnStartDay :=
                onDay && ge currentTime startTime in
              onPrevious <- setHas scheduledDays previousDayName ;;
              let isBeforeEndTimeOnNextDay :=
                onPrevious && lt currentTime endTime in
              ret (isAfterStartTimeOnStartDay || isBeforeEndTimeOnNextDay)
            else
              onDay <- setHas scheduledDays currentDayName ;;
              ret (onDay && ge currentTime startTime && lt currentTime endTime)
        end
    end.

(** While the loops run, the set under construction is the last [Set] of the
    store. *)
Definition building (h : Store) (old : list (list value)) (cur : list value) : Prop :=
  initialised h /\ sets h = (old ++ [cur])%list.

End Imperative.

(* ================================================================== *)
(** * The matcher on arguments the types do not vouch for *)
(* ================================================================== *)

(** The type annotations of [isShowOnAir] are erased when the program is
    compiled: the function that runs takes any JavaScript value.  This is
    the same function body, statement by statement, on a [show] and a [date]
    that may also be [null] or [undefined], with the exception that reading
    a property of such a value raises.  (The two copies of the function have
    the same statements.) *)

Module Unchecked.

Inductive Error := TypeError.

(** How a call ends: it returns a value or it throws. *)
Inductive Completion (A : Type) := Normal (a : A) | Throw (e : Error).
Arguments Normal {A} a.
Arguments Throw {A} e.

Definition bind {A B : Type} (c : Completion A) (k : A -> Completion B)
  : Completion B :=
  match c with
  | Normal a => k a
  | Throw e => Throw e
  end.

Notation "'let*' x ':=' c 'in' k" := (bind c (fun x => k))
  (at level 10, x name, c at level 100, k at level 200).

(** The argument [show]: [null], [undefined], or an object with the fields
    of a show record. *)
Inductive ShowArg := ShowNull | ShowUndefined | ShowObject (show : RadioShow).

(** The argument [date]: [null], [undefined], or a [Date]. *)
Inductive DateArg := DateNull | DateUndefined | DateObject (date : Date).

(** [show.Day], [show['Start']], ...: a property of [null] or [undefined]
    cannot be read. *)
Definition field (show : ShowArg) (key : RadioShow -> option string)
  : Completion (option string) :=
  match show with
  | ShowObject record => Normal (key record)
  | ShowNull | ShowUndefined => Throw TypeError
  end.

(** [date.getDay()], [date.getHours()], [date.getMinutes()] *)
Definition call (date : DateArg) (getter : Date -> number)
  : Completion number :=
  match date with
  | DateObject d => Normal (getter d)
  | DateNull | DateUndefined => Throw TypeError
  end.

Definition isShowOnAir (show : ShowArg) (date : DateArg) : Completion bool :=
  let* day := field show Day in
  let* dayOrRaw :=
    match day with
    | Some _ => Normal day
    | None =>
        let* raw := field show Day_s_of_Week in
        Normal (nullish raw (Some ""))
    end in
  let formattedDayString := String_ dayOrRaw in
  let* startTimeValue := field show Start in
  let* endTimeValue := field show End' in
  if negb (truthy formattedDayString) || negb (truthyField startTimeValue)
     || negb (truthyField endTimeValue)
  then Normal false
  else
    let scheduledDays := RegistrationDashboard.scheduledDaysOf formattedDayString in
    let* today := call date getDay in
    let currentDayName := getIndex RegistrationDashboard.dayFullNameMap today in
    let* todayAgain := call date getDay in
    let previousDayName :=
      getIndex RegistrationDashboard.dayFullNameMap
        (rem (add todayAgain (ofZ 6)) (ofZ 7)) in
    match RegistrationDashboard.minutesOf startTimeValue with
    | None => Normal false
    | Some startTime =>
        match RegistrationDashboard.minutesOf endTimeValue with
        | None => Normal false
        | Some endTime =>
            let* hours := call date getHours in
            let* minutes := call date getMinutes in
            let currentTime := add (mul hours (ofZ 60)) minutes in
            let crossesMidnight := lt endTime startTime in
            if crossesMidnight then
              let isAfterStartTimeOnStartDay :=
                has scheduledDays currentDayName
                && ge currentTime startTime in
              let isBeforeEndTimeOnNextDay :=
                has scheduledDays previousDayName
                && lt currentTime endTime in
              Normal (isAfterStartTimeOnStartDay || isBeforeEndTimeOnNextDay)
            else
              Normal (has scheduledDays currentDayName
                      && ge currentTime startTime
                      && lt currentTime endTime)
        end
    end.

End Unchecked.

(* ================================================================== *)
(** * More of the JavaScript runtime *)
(* ================================================================== *)

Module JSMore.

(** [s.delete(v)] on a [Set] *)
Definition setDelete (s : list value) (x : value) : list value :=
  filter (fun y => negb (value_eqb x y)) s.

(** [new Set(arr)] *)
Definition setOf (arr : list value) : list value := fold_left setAdd arr [].

(** [s.toLowerCase()] on code units below U+0100: the letters A-Z and
    U+00C0-U+00DE (but not the multiplication sign U+00D7) move up by 32. *)
Definition lowerChar (c : ascii) : ascii :=
  let n := code c in
  if ((65 <=? n) && (n <=? 90))
     || ((192 <=? n) && (n <=? 222) && negb (n =? 215))
  then ascii_of_nat (Z.to_nat (n + 32)) else c.

Fixpoint toLowerCase (s : string) : string :=
  match s with
  | EmptyString => EmptyString
  | String c r => String (lowerChar c) (toLowerCase r)
  end.

(** [s.startsWith(p)] and [s.includes(p)] *)
Fixpoint startsWith (p s : string) : bool :=
  match p, s with
  | EmptyString, _ => true
  | String a p', String b s' => Ascii.eqb a b && startsWith p' s'
  | String _ _, EmptyString => false
  end.

Fixpoint includesStr (p s : string) : bool :=
  startsWith p s ||
  match s with
  | EmptyString => false
  | String _ r => includesStr p r
  end.

(** [s.slice(0, n)] *)
Fixpoint slice0 (n : nat) (s : string) : string :=
  match n, s with
  | S k, String c r => String c (slice0 k r)
  | _, _ => EmptyString
  end.

(** ** [Map] with string keys: insertion-ordered, one entry per key *)

Fixpoint mapGet {V : Type} (m : list (string * V)) (k : string) : option V :=
  match m with
  | [] => None
  | (k', v) :: r => if String.eqb k' k then Some v else mapGet r k
  end.

(** [m.set(k, v)]: an existing key keeps its place. *)
Fixpoint mapSet {V : Type} (m : list (string * V)) (k : string) (v : V)
  : list (string * V) :=
  match m with
  | [] => [(k, v)]
  | (k', v') :: r =>
      if String.eqb k' k then (k', v) :: r else (k', v') :: mapSet r k v
  end.

Fixpoint mapDelete {V : Type} (m : list (string * V)) (k : string)
  : list (string * V) :=
  match m with
  | [] => []
  | (k', v') :: r =>
      if String.eqb k' k then r else (k', v') :: mapDelete r k
  end.

End JSMore.
Import JSMore.

(* ================================================================== *)
(** * DaysOfWeekSelector: the day checkboxes of the show editor *)
(* ================================================================== *)

Module DaysOfWeekSelector.

Definition daysOfWeek : list string :=
  ["Monday"; "Tuesday"; "Wednesday"; "Thursday"; "Friday"; "Saturday"; "Sunday"].

(** The days derived from the [value] prop. *)
Definition selectedDays (value : string) : list JS.value :=
  setOf (map VString
           (if truthy value then filter truthy (map trim (split "," value))
            else [])).

(** [checked={selectedDays.has(day)}] *)
Definition checked (value day : string) : bool :=
  has (selectedDays value) (VString day).

(** The string [handleDayChange(day)] hands to [onChange]. *)
Definition handleDayChange (value day : string) : string :=
  let copy := setOf (selectedDays value) in
  let newSelectedDays :=
    if has copy (VString day) then setDelete copy (VString day)
    else setAdd copy (VString day) in
  let orderedSelection :=
    filter (fun d => has newSelectedDays (VString d)) daysOfWeek in
  join ", " orderedSelection.

End DaysOfWeekSelector.

(* ================================================================== *)
(** * DataTable: editing and saving a row of the TimeSlots sheet *)
(* ================================================================== *)

Module ShowEditor.

(** The [value] the modal gives the day selector. *)
Definition selectorValue (currentRow : RadioShow) : string :=
  DataTable.normaliseDaysForSelector
    (String_ (nullish (Day currentRow)
                (nullish (Day_s_of_Week currentRow) (Some "")))).

(** [handleModalInputChange(value, 'Day')]: the day column of the show
    table has the key ['Day']. *)
Definition handleModalInputChange (value : string) (currentRow : RadioShow)
  : RadioShow :=
  {| Day_s_of_Week := Day_s_of_Week currentRow; Day := Some value;
     Show := Show currentRow; Start := Start currentRow;
     End' := End' currentRow |}.

(** The [payload] that [handleSave] sends for [currentRow]. *)
Definition savePayload (sheetName : string) (currentRow : RadioShow) : RadioShow :=
  if String.eqb sheetName "TimeSlots" then
    let rawDay :=
      String_ (nullish (Day currentRow)
                 (nullish (Day_s_of_Week currentRow) (Some ""))) in
    {| Day_s_of_Week := None;
       Day := if truthy rawDay
              then Some (DataTable.normaliseDaysForSelector rawDay)
              else Day currentRow;
       Show := Show currentRow; Start := Start currentRow;
       End' := End' currentRow |}
  else currentRow.

End ShowEditor.

(* ================================================================== *)
(** * The analytics memos: which show a record is counted for *)
(* ================================================================== *)

Module RegistrationMemo.

(** [schedule.find(show => isShowOnAir(show, regDate))] *)
Definition matchedShow (schedule : list RadioShow) (regDate : Date)
  : option RadioShow :=
  find (fun show => RegistrationDashboard.isShowOnAir show regDate) schedule.

End RegistrationMemo.

Module RequestMemo.

(** [schedule.find(show => isShowOnAir(show, reqDate))] *)
Definition matchedShow (schedule : list RadioShow) (reqDate : Date)
  : option RadioShow :=
  find (fun show => RequestAnalytics.isShowOnAir show reqDate) schedule.

End RequestMemo.

(* ================================================================== *)
(** * types.ts: song requests and registrations *)
(* ================================================================== *)

(** The columns the analytics read; [None] is a cell that is absent,
    [undefined] or [null]. *)
Module SongRequest.
Record t := {
  Date : option string;
  Time : option string;
  Song_requested : option string;     (* 'Song requested' *)
  Dedication_to : option string;      (* 'Dedication to' *)
  Occasion : option string
}.
End SongRequest.

Module Registration.
Record t := {
  Registration_Date : option string;  (* 'Registration Date' *)
  Registration_Time : option string;  (* 'Registration Time' *)
  Area : option string;
  ReferredByCode : option string
}.
End Registration.

(* ================================================================== *)
(** * The analytics memos: the timestamp of a record *)
(* ================================================================== *)

Module RegistrationTimestamp.

(** The string given to [new Date] for a registration; [None] when
    [regDate] stays [null] and the record is skipped. *)
Definition regDateString (reg : Registration.t) : option string :=
  if truthyField (Registration.Registration_Date reg) then
    let rawDate := String_ (Registration.Registration_Date reg) in
    let datePart :=
      if includes "T" rawDate
      then match split "T" rawDate with h :: _ => h | [] => "undefined" end
      else rawDate in
    let timePart :=
      if truthyField (Registration.Registration_Time reg) then
        let rawTime := String_ (Registration.Registration_Time reg) in
        slice0 8 (match split " " rawTime with h :: _ => h | [] => "" end)
      else "00:00:00" in
    Some (datePart ++ "T" ++ timePart)
  else None.

End RegistrationTimestamp.

Module RequestTimestamp.

(** The string given to [new Date] for a song request; [None] when the
    record is skipped before a date is built. *)
Definition reqDateString (req : SongRequest.t) : option string :=
  if negb (truthyField (SongRequest.Date req))
     || negb (truthyField (SongRequest.Time req))
  then None
  else
    let rawDate := String_ (SongRequest.Date req) in
    let rawTime := String_ (SongRequest.Time req) in
    let datePart :=
      if includes "T" rawDate
      then match split "T" rawDate with h :: _ => h | [] => "undefined" end
      else rawDate in
    let timePart :=
      if includes "T" rawTime then
        (* [split('T')[1]] of [undefined] would raise, and the row be
           ignored by the [catch] *)
        option_map (slice0 8) (nth_error (split "T" rawTime) 1)
      else
        Some (slice0 8 (match split " " rawTime with h :: _ => h | [] => "" end)) in
    option_map (fun t => datePart ++ "T" ++ t) timePart.

End RequestTimestamp.

(* ================================================================== *)
(** * Request priorities *)
(* ================================================================== *)

Inductive Priority := High | Medium | Low.

(** The counters [{ high: 0, medium: 0, low: 0 }].  They count the elements
    of an array, so they stay far below 2^53 and [++] is exact on them. *)
Record Priorities := { high : Z; medium : Z; low : Z }.

(** [v?.toLowerCase() || ''] *)
Definition lowerOrEmpty (v : option string) : string :=
  match v with
  | Some s => toLowerCase s
  | None => ""
  end.

(** Truthiness of [v?.trim()] *)
Definition trimmedTruthy (v : option string) : bool :=
  match v with
  | Some s => truthy (trim s)
  | None => false
  end.

Module RequestsView.

Definition getPriority (req : SongRequest.t) : Priority :=
  let occasion := lowerOrEmpty (SongRequest.Occasion req) in
  if includesStr "birthday" occasion || includesStr "anniversary" occasion
  then High
  else if trimmedTruthy (SongRequest.Dedication_to req) then Medium
  else Low.

End RequestsView.

Module RequestPriorities.

(** One turn of [requests.forEach(req => ...)], as far as [priorities] is
    concerned. *)
Definition count (priorities : Priorities) (req : SongRequest.t) : Priorities :=
  let occasion := lowerOrEmpty (SongRequest.Occasion req) in
  if includesStr "birthday" occasion || includesStr "anniversary" occasion
  then {| high := high priorities + 1; medium := medium priorities;
          low := low priorities |}
  else if trimmedTruthy (SongRequest.Dedication_to req)
  then {| high := high priorities; medium := medium priorities + 1;
          low := low priorities |}
  else {| high := high priorities; medium := medium priorities;
          low := low priorities + 1 |}.

(** [total] and [priorities] of the request analytics. *)
Definition total (requests : list SongRequest.t) : Z :=
  Z.of_nat (List.length requests).

Definition priorities (requests : list SongRequest.t) : Priorities :=
  fold_left count requests {| high := 0; medium := 0; low := 0 |}.

End RequestPriorities.

Module Overview.

(** The same loop in the overview. *)
Definition count (priorities : Priorities) (req : SongRequest.t) : Priorities :=
  let occasion := lowerOrEmpty (SongRequest.Occasion req) in
  if includesStr "birthday" occasion || includesStr "anniversary" occasion
  then {| high := high priorities + 1; medium := medium priorities;
          low := low priorities |}
  else if trimmedTruthy (SongRequest.Dedication_to req)
  then {| high := high priorities; medium := medium priorities + 1;
          low := low priorities |}
  else {| high := high priorities; medium := medium priorities;
          low := low priorities + 1 |}.

Definition priorities (requests : list SongRequest.t) : Priorities :=
  fold_left count requests {| high := 0; medium := 0; low := 0 |}.

End Overview.

(* ================================================================== *)
(** * WhatsAppAgent: the sessions of the agent tester *)
(* ================================================================== *)

Module WhatsAppAgent.

Definition SESSION_TIMEOUT_MS : Z := 15 * 60 * 1000.
Definition MAX_HISTORY_TURNS : nat := 10.

Inductive Role := user | model.

(** [{ role, parts: [{ text }] }] *)
Record GeminiChatTurn := { role : Role; text : string }.

(** [lastActive] is a [Date.now()]: integer milliseconds, on which the
    subtraction and comparison of doubles are exact. *)
Record AgentSession := { history : list GeminiChatTurn; lastActive : Z }.

Definition SessionMemory := list (string * AgentSession).

(** The updater of the cleanup interval, at time [now]. *)
Definition cleanup (now : Z) (prev : SessionMemory) : SessionMemory :=
  let '(newMemory, changed) :=
    fold_left
      (fun (state : SessionMemory * bool) (entry : string * AgentSession) =>
         let '(newMemory, changed) := state in
         let '(userId, session) := entry in
         if now - lastActive session >? SESSION_TIMEOUT_MS
         then (mapDelete newMemory userId, true)
         else (newMemory, changed))
      prev (prev, false) in
  if changed then newMemory else prev.

(** [updatedHistory] of [handleSendMessage], from the session memory the
    handler sees. *)
Definition updatedHistory (sessionMemory : SessionMemory)
    (activeTestUserId testUserInput : string) : list GeminiChatTurn :=
  let userTurn := {| role := user; text := testUserInput |} in
  let currentSession :=
    match mapGet sessionMemory activeTestUserId with
    | Some s => s
    | None => {| history := []; lastActive := 0 |}
    end in
  let updatedHistory := (history currentSession ++ [userTurn])%list in
  if (MAX_HISTORY_TURNS <? List.length updatedHistory)%nat
  then skipn (List.length updatedHistory - MAX_HISTORY_TURNS) updatedHistory
  else updatedHistory.

(** The first part of [handleSendMessage]: [None] when it returns at once;
    otherwise the history sent to the agent and the updater applied to the
    memory [prev] at time [now]. *)
Definition handleSendMessage (sessionMemory : SessionMemory)
    (isThinking : bool) (activeTestUserId testUserInput : string) (now : Z)
  : option (list GeminiChatTurn * (SessionMemory -> SessionMemory)) :=
  if negb (truthy (trim testUserInput)) || isThinking then None
  else
    let sent := updatedHistory sessionMemory activeTestUserId testUserInput in
    let updatedSession := {| history := sent; lastActive := now |} in
    Some (sent, fun prev => mapSet prev activeTestUserId updatedSession).

(** The updater that stores the agent's answer (or the error text) at time
    [now]. *)
Definition storeModelTurn (activeTestUserId agentResponseText : string)
    (now : Z) (prev : SessionMemory) : SessionMemory :=
  let modelTurn := {| role := model; text := agentResponseText |} in
  match mapGet prev activeTestUserId with
  | Some finalSession =>
      mapSet prev activeTestUserId
        {| history := (history finalSession ++ [modelTurn])%list;
           lastActive := now |}
  | None => prev
  end.

Definition handleExpireSession (userId : string) (prev : SessionMemory)
  : SessionMemory :=
  mapDelete prev userId.

End WhatsAppAgent.

(* ================================================================== *)
(** * DataTable: the row filters *)
(* ================================================================== *)

Module DataTableFilter.

(** What [filteredData] observes of a cell [row[key]]: that it is [null] or
    [undefined], or else the string [String(row[key])]. *)
Inductive Cell := Nullish | Text (s : string).

(** A row, as the lookup [row[key]]. *)
Definition Row := string -> Cell.

(** [Object.entries(filterValues)] *)
Definition FilterValues := list (string * string).

(** The callback of [every]. *)
Definition passes (row : Row) (entry : string * string) : bool :=
  let '(key, value) := entry in
  if negb (truthy value) || String.eqb value "all" then true
  else
    let rowValue := row key in
    if String.eqb value "has_value" then
      match rowValue with
      | Nullish => false
      | Text s => negb (String.eqb (trim s) "")
      end
    else if String.eqb value "no_value" then
      match rowValue with
      | Nullish => true
      | Text s => String.eqb (trim s) ""
      end
    else
      match rowValue with
      | Nullish => false
      | Text s => includesStr (toLowerCase value) (toLowerCase s)
      end.

Definition filteredData (data : list Row) (filterValues : FilterValues)
  : list Row :=
  let isFilterActive := existsb truthy (map snd filterValues) in
  if negb isFilterActive then data
  else filter (fun row => forallb (passes row) filterValues) data.

End DataTableFilter.

(* ================================================================== *)
(** * Auxiliary definitions for the statements *)
(* ================================================================== *)

(** The same double, bit for bit. *)
Definition sameNumber (x y : number) : bool :=
  match x, y with
  | S754_zero a, S754_zero b => Bool.eqb a b
  | S754_infinity a, S754_infinity b => Bool.eqb a b
  | S754_nan, S754_nan => true
  | S754_finite a m e, S754_finite b n f => Bool.eqb a b && Pos.eqb m n && Z.eqb e f
  | _, _ => false
  end.

(** The day before [name] in the canonical cycle Monday, ..., Sunday. *)
Definition dayBefore (name : string) : option string :=
  let i := indexOf RegistrationDashboard.fullDaysOfWeek (Some name) in
  if i <? 0 then None
  else at_ RegistrationDashboard.fullDaysOfWeek ((i + 6) mod 7).

(** Example records. *)
Definition fridayNight : RadioShow :=
  {| Day_s_of_Week := Some "Fri-Sat"; Day := None; Show := "Night Shift";
     Start := Some "22:00"; End' := Some "02:00" |}.
Definition mondayMorning : RadioShow :=
  {| Day_s_of_Week := None; Day := Some "Monday"; Show := "Breakfast";
     Start := Some "09h00"; End' := Some "12h00" |}.

(** The abbreviation with Monday-first index [i], and the canonical full
    names with indices [i], ..., [j]. *)
Definition abbreviation (i : Z) : string :=
  match at_ RegistrationDashboard.dayOrderArray i with
  | Some a => a
  | None => ""
  end.

Definition daysBetween (i j : Z) : list string :=
  flat_map
    (fun k => match at_ RegistrationDashboard.fullDaysOfWeek k with
              | Some name => [name]
              | None => []
              end)
    (upto i j).

(** The tokens of a descriptor: split at commas, trimmed, empty ones
    removed. *)
Definition tokens (descriptor : string) : list string :=
  filter truthy (map trim (split "," descriptor)).

(** A store after the module has loaded, with two shows, two dates and a
    [Set] left by an earlier computation. *)
Definition studio : Imperative.Store :=
  {| Imperative.shortDayToFull := RegistrationDashboard.shortDayToFull;
     Imperative.dayOrderArray := RegistrationDashboard.dayOrderArray;
     Imperative.fullDaysOfWeek := RegistrationDashboard.fullDaysOfWeek;
     Imperative.dayFullNameMap := RegistrationDashboard.dayFullNameMap;
     Imperative.shows := [fridayNight; mondayMorning];
     Imperative.dates := [LocalTime 6 1 30; LocalTime 1 9 0];
     Imperative.sets := [[VString "Sunday"]] |}.

(** Whether a slot with the scheduled [days] from [startTime] to [endTime]
    (minutes of the day) covers the point [date]. *)
Definition slotCovers (days : list value) (startTime endTime : number)
    (date : Date) : bool :=
  if lt endTime startTime then
    (has days (RegistrationDashboard.currentDayName date)
     && ge (RegistrationDashboard.currentTime date) startTime)
    || (has days (RegistrationDashboard.previousDayName date)
        && lt (RegistrationDashboard.currentTime date) endTime)
  else
    has days (RegistrationDashboard.currentDayName date)
    && ge (RegistrationDashboard.currentTime date) startTime
    && lt (RegistrationDashboard.currentTime date) endTime.

(** A morning show from 09:00 to 12:00 with the given day fields. *)
Definition morningShow (day raw : option string) : RadioShow :=
  {| Day_s_of_Week := raw; Day := day; Show := "Breakfast";
     Start := Some "09:00"; End' := Some "12:00" |}.

Definition halfPastNine : RadioShow :=
  {| Day_s_of_Week := None; Day := Some "Monday"; Show := "Late Breakfast";
     Start := Some "9.5:00"; End' := Some "10:00" |}.

(** [n] in two decimal digits, for [0 <= n <= 99]. *)
Definition twoDigits (n : Z) : string :=
  String (ascii_of_nat (Z.to_nat (48 + n / 10)))
    (String (ascii_of_nat (Z.to_nat (48 + n mod 10))) "").

(** The reading of the specification, to compare with the code. *)
Module Spec.

(** An integer: decimal digits, with an optional sign and surrounding
    white space. *)
Fixpoint allDigits (s : string) : bool :=
  match s with
  | EmptyString => true
  | String c r => (48 <=? code c) && (code c <=? 57) && allDigits r
  end.

Definition isInteger (s : string) : bool :=
  match trim s with
  | EmptyString => false
  | String "+" r | String "-" r => truthy r && allDigits r
  | t => allDigits t
  end.

(** "Parses as two integers": the time string, with [:] or [h] as the
    separator, starts with two components that are integers. *)
Definition parsesAsTwoIntegers (v : option string) : bool :=
  match v with
  | None => false
  | Some t =>
      match split ":" (replace "h" ":" t) with
      | a :: b :: _ => isInteger a && isInteger b
      | _ => false
      end
  end.

End Spec.

(** The elements of [l] at the positions where [mask] is [true]. *)
Fixpoint pick (mask : list bool) (l : list string) : list string :=
  match mask, l with
  | b :: m, x :: t => if b then x :: pick m t else pick m t
  | _, _ => []
  end.

(** All masks of length [n]. *)
Fixpoint masks (n : nat) : list (list bool) :=
  match n with
  | O => [[]]
  | S k => flat_map (fun m => [true :: m; false :: m]) (masks k)
  end.

(** Equality of lists, element by element. *)
Fixpoint sameList {A} (eqb : A -> A -> bool) (a b : list A) : bool :=
  match a, b with
  | [], [] => true
  | x :: a', y :: b' => eqb x y && sameList eqb a' b'
  | _, _ => false
  end.

(** The canonical form of a selection of days: its canonical names, in the
    order Monday, ..., Sunday, joined by a comma and a space. *)
Definition canonical (selected : string -> bool) : string :=
  join ", " (filter selected RegistrationDashboard.fullDaysOfWeek).

(** The selection after a click on [day]. *)
Definition toggled (value day : string) (d : string) : bool :=
  if String.eqb d day then negb (DaysOfWeekSelector.checked value day)
  else DaysOfWeekSelector.checked value d.

(** The number of requests with a given priority in the requests view. *)
Definition isPriority (p q : Priority) : bool :=
  match p, q with
  | High, High | Medium, Medium | Low, Low => true
  | _, _ => false
  end.

Definition countWith (p : Priority) (requests : list SongRequest.t) : Z :=
  Z.of_nat
    (List.length
       (filter (fun req => isPriority (RequestsView.getPriority req) p)
               requests)).

(** All code units below U+0100, and the strings of letters a-z. *)
Definition allChars : list ascii := map ascii_of_nat (seq 0 256).

Fixpoint lowerLetters (p : string) : bool :=
  match p with
  | EmptyString => true
  | String a r => (97 <=? code a)%Z && (code a <=? 122)%Z && lowerLetters r
  end.

(** A session is expired at [now] when it has been idle for more than the
    timeout. *)
Definition expired (now : Z) (session : WhatsAppAgent.AgentSession) : bool :=
  (now - WhatsAppAgent.lastActive session >? WhatsAppAgent.SESSION_TIMEOUT_MS)%Z.

(** [f] on the first, respectively the last, piece. *)
Definition mapFirst {A} (f : A -> A) (l : list A) : list A :=
  match l with
  | [] => []
  | x :: t => f x :: t
  end.

Fixpoint mapLast {A} (f : A -> A) (l : list A) : list A :=
  match l with
  | [] => []
  | [x] => [f x]
  | x :: t => x :: mapLast f t
  end.

(** A session memory with two users. *)
Definition twoSessions : WhatsAppAgent.SessionMemory :=
  [("user-123", {| WhatsAppAgent.history := [{| WhatsAppAgent.role := WhatsAppAgent.user; WhatsAppAgent.text := "Hi" |}];
                   WhatsAppAgent.lastActive := 1000 |});
   ("user-456", {| WhatsAppAgent.history := []; WhatsAppAgent.lastActive := 600000 |})].

(* ================================================================== *)
(** * Properties *)
(* ================================================================== *)

(** ** Order on doubles *)

Lemma SFcompare_antisym (x y : number) :
  SFcompare y x = option_map CompOpp (SFcompare x y).
Proof.
  destruct x as [sx | sx | | sx mx ex], y as [sy | sy | | sy my ey];
    try (destruct sx); try (destruct sy); try reflexivity; simpl;
    assert (A : Pos.compare_cont Eq my mx = CompOpp (Pos.compare_cont Eq mx my))
      by (rewrite Pos.compare_cont_antisym; reflexivity);
    rewrite (Z.compare_antisym ex ey), A;
    destruct (ex ?= ey); simpl; try reflexivity;
    destruct (Pos.compare_cont Eq mx my); reflexivity.
Qed.

(** Numbers that compare equal are the same double, or two zeros. *)
Lemma SFcompare_Eq_inv (x y : number) :
  SFcompare x y = Some Eq ->
  x = y \/ exists sx sy, x = S754_zero sx /\ y = S754_zero sy.
Proof.
  destruct x as [sx | sx | | sx mx ex], y as [sy | sy | | sy my ey];
    try (destruct sx); try (destruct sy); simpl; try discriminate;
    try (left; reflexivity); try (right; eauto; fail);
    destruct (ex ?= ey) eqn:E; try discriminate;
    apply Z.compare_eq_iff in E; subst ey; intros H;
    left; f_equal; apply Pos.compare_eq.
  - injection H as H. destruct (Pos.compare_cont Eq mx my) eqn:C;
      try discriminate. exact C.
  - injection H as H. exact H.
Qed.

Lemma SFcompare_zero_l (s1 s2 : bool) (z : number) :
  SFcompare (S754_zero s1) z = SFcompare (S754_zero s2) z.
Proof. destruct z; reflexivity. Qed.

Lemma SFcompare_Eq_l (x y z : number) :
  SFcompare x y = Some Eq -> SFcompare x z = SFcompare y z.
Proof.
  intros H. destruct (SFcompare_Eq_inv _ _ H) as [-> | (sx & sy & -> & ->)].
  - reflexivity.
  - apply SFcompare_zero_l.
Qed.

Lemma SFcompare_Eq_r (x y z : number) :
  SFcompare x y = Some Eq -> SFcompare z x = SFcompare z y.
Proof.
  intros H. rewrite (SFcompare_antisym x z), (SFcompare_antisym y z).
  f_equal. now apply SFcompare_Eq_l.
Qed.

(** [a === b] lets [b] replace [a] on either side of [<] and [>=]. *)
Lemma lt_strictEq_l a b z : strictEq a b = true -> lt a z = lt b z.
Proof.
  unfold strictEq, SFeqb, lt, SFltb. intros H.
  destruct (SFcompare a b) as [[]|] eqn:E; try discriminate.
  now rewrite (SFcompare_Eq_l _ _ z E).
Qed.

Lemma lt_strictEq_r a b z : strictEq a b = true -> lt z a = lt z b.
Proof.
  unfold strictEq, SFeqb, lt, SFltb. intros H.
  destruct (SFcompare a b) as [[]|] eqn:E; try discriminate.
  now rewrite (SFcompare_Eq_r _ _ z E).
Qed.

Lemma ge_strictEq_l a b z : strictEq a b = true -> ge a z = ge b z.
Proof.
  unfold strictEq, SFeqb, ge, SFleb. intros H.
  destruct (SFcompare a b) as [[]|] eqn:E; try discriminate.
  now rewrite (SFcompare_Eq_r _ _ z E).
Qed.

Lemma strictEq_ge a b : strictEq a b = true -> ge a b = true.
Proof.
  unfold strictEq, SFeqb, ge, SFleb. rewrite (SFcompare_antisym a b).
  destruct (SFcompare a b) as [[]|]; simpl; congruence.
Qed.

Lemma strictEq_not_lt a b : strictEq a b = true -> lt a b = false.
Proof.
  unfold strictEq, SFeqb, lt, SFltb.
  destruct (SFcompare a b) as [[]|]; congruence.
Qed.

Lemma strictEq_not_gt a b : strictEq a b = true -> lt b a = false.
Proof.
  unfold strictEq, SFeqb, lt, SFltb. rewrite (SFcompare_antisym a b).
  destruct (SFcompare a b) as [[]|]; simpl; congruence.
Qed.

(** [a < b] excludes [a >= b]. *)
Lemma lt_not_ge a b : lt a b = true -> ge a b = false.
Proof.
  unfold ge, SFleb, lt, SFltb. rewrite (SFcompare_antisym a b).
  destruct (SFcompare a b) as [[]|]; simpl; congruence.
Qed.



Lemma lt_irrefl a : lt a a = false.
Proof.
  unfold lt, SFltb. pose proof (SFcompare_antisym a a) as H.
  destruct (SFcompare a a) as [[]|]; simpl in H; congruence.
Qed.

Lemma lt_asym a b : lt a b = true -> lt b a = false.
Proof.
  unfold lt, SFltb. rewrite (SFcompare_antisym a b).
  destruct (SFcompare a b) as [[]|]; simpl; congruence.
Qed.

Lemma ge_not_lt a b : ge a b = true -> lt a b = false.
Proof.
  intros H. destruct (lt a b) eqn:E; [|reflexivity].
  apply lt_not_ge in E. congruence.
Qed.


(** ** Loops and minutes of the day *)

Lemma In_upto (lo hi k : Z) : lo <= k <= hi -> In k (upto lo hi).
Proof.
  intros H. unfold upto. apply in_map_iff.
  exists (Z.to_nat (k - lo)). split; [lia|].
  apply in_seq. lia.
Qed.

Lemma sameNumber_eq (x y : number) : sameNumber x y = true -> x = y.
Proof.
  destruct x as [a | a | | a m e], y as [b | b | | b n f]; simpl;
    try discriminate; try reflexivity; intros H.
  - apply Bool.eqb_prop in H. now subst.
  - apply Bool.eqb_prop in H. now subst.
  - apply andb_prop in H as [H He]. apply andb_prop in H as [Hs Hm].
    apply Bool.eqb_prop in Hs. apply Pos.eqb_eq in Hm. apply Z.eqb_eq in He.
    now subst.
Qed.

(** Every hour and minute of the 24-hour clock gives the minute of the day
    exactly. *)
Lemma clockExact :
  forallb (fun h =>
    forallb (fun m =>
      sameNumber (RegistrationDashboard.currentTime (LocalTime 0 h m))
                 (ofZ (h * 60 + m)))
      (upto 0 59))
    (upto 0 23) = true.
Proof. vm_compute. reflexivity. Qed.

(** Adding one minute to a minute of the day is exact and strictly larger. *)
Lemma minuteSteps :
  forallb (fun k => sameNumber (add (ofZ k) (ofZ 1)) (ofZ (k + 1))
                    && lt (ofZ k) (ofZ (k + 1)))
          (upto 0 1439) = true.
Proof. vm_compute. reflexivity. Qed.

Lemma currentTime_LocalTime (w h m : Z) :
  0 <= h <= 23 -> 0 <= m <= 59 ->
  RegistrationDashboard.currentTime (LocalTime w h m) = ofZ (h * 60 + m).
Proof.
  intros Hh Hm.
  pose proof (proj1 (forallb_forall _ _) clockExact h (In_upto _ _ _ Hh)) as C.
  pose proof (proj1 (forallb_forall _ _) C m (In_upto _ _ _ Hm)) as D.
  apply sameNumber_eq in D. exact D.
Qed.

Lemma minute_step (k : Z) :
  0 <= k <= 1439 ->
  add (ofZ k) (ofZ 1) = ofZ (k + 1) /\ lt (ofZ k) (ofZ (k + 1)) = true.
Proof.
  intros Hk.
  pose proof (proj1 (forallb_forall _ _) minuteSteps k (In_upto _ _ _ Hk)) as C.
  apply andb_prop in C as [C1 C2]. apply sameNumber_eq in C1. now split.
Qed.

(** ** The matcher, once both times have parsed *)

Import RegistrationDashboard.

Lemma minutesOf_falsy (v : option string) :
  truthyField v = false -> minutesOf v = None.
Proof.
  destruct v as [[|c r]|]; simpl; try discriminate; intros _; reflexivity.
Qed.

Lemma scheduledDaysOf_empty : scheduledDaysOf "" = [].
Proof. reflexivity. Qed.

Lemma isShowOnAir_parsed (show : RadioShow) (date : Date) (startTime endTime : number) :
  minutesOf (Start show) = Some startTime ->
  minutesOf (End' show) = Some endTime ->
  isShowOnAir show date =
  let days := scheduledDaysOf (formattedDayString show) in
  if lt endTime startTime then
    (has days (currentDayName date) && ge (currentTime date) startTime)
    || (has days (previousDayName date) && lt (currentTime date) endTime)
  else
    has days (currentDayName date) && ge (currentTime date) startTime
    && lt (currentTime date) endTime.
Proof.
  intros Hs He. unfold isShowOnAir.
  destruct (truthyField (Start show)) eqn:Ts;
    [|rewrite (minutesOf_falsy _ Ts) in Hs; discriminate].
  destruct (truthyField (End' show)) eqn:Te;
    [|rewrite (minutesOf_falsy _ Te) in He; discriminate].
  rewrite Hs, He.
  destruct (truthy (formattedDayString show)) eqn:Td; simpl; [reflexivity|].
  destruct (formattedDayString show); [|discriminate].
  rewrite scheduledDaysOf_empty. simpl. now destruct (lt endTime startTime).
Qed.

Lemma weekday_names (date : Date) :
  validDate date ->
  exists cur prev,
    currentDayName date = VString cur /\ previousDayName date = VString prev
    /\ dayBefore cur = Some prev.
Proof.
  destruct date as [|w h m]; simpl; [tauto|]. intros [Hw _].
  assert (E : w = 0 \/ w = 1 \/ w = 2 \/ w = 3 \/ w = 4 \/ w = 5 \/ w = 6) by lia.
  destruct E as [-> | [-> | [-> | [-> | [-> | [-> | ->]]]]]];
    [ exists "Sunday", "Saturday" | exists "Monday", "Sunday"
    | exists "Tuesday", "Monday" | exists "Wednesday", "Tuesday"
    | exists "Thursday", "Wednesday" | exists "Friday", "Thursday"
    | exists "Saturday", "Friday" ];
    (split; [|split]); vm_compute; reflexivity.
Qed.

(** ** Overnight, same-day and zero-length slots *)

(** C1.  When the end time is strictly less than the start time,
    [isShowOnAir] is true exactly when the weekday of the point is scheduled
    and its minute of the day is at least the start, or the weekday before it
    (Saturday before Sunday) is scheduled and its minute of the day is less
    than the end.  One minute before the end on the day after a scheduled day
    matches; exactly at the end nothing matches. *)
Theorem C1_overnight_slot
    (show : RadioShow) (date : Date) (startTime endTime : number) :
  minutesOf (Start show) = Some startTime ->
  minutesOf (End' show) = Some endTime ->
  lt endTime startTime = true ->
  let days := scheduledDaysOf (formattedDayString show) in
  (isShowOnAir show date = true <->
     (has days (currentDayName date) = true
      /\ ge (currentTime date) startTime = true)
     \/ (has days (previousDayName date) = true
         /\ lt (currentTime date) endTime = true))
  /\ (validDate date ->
      exists cur prev,
        currentDayName date = VString cur /\ previousDayName date = VString prev
        /\ dayBefore cur = Some prev)
  /\ previousDayName (LocalTime 0 0 0) = VString "Saturday"
  /\ (validDate date ->
      has days (previousDayName date) = true ->
      strictEq (add (currentTime date) (ofZ 1)) endTime = true ->
      isShowOnAir show date = true)
  /\ (strictEq (currentTime date) endTime = true ->
      isShowOnAir show date = false).
Proof.
  intros Hs He Hlt days.
  pose proof (isShowOnAir_parsed show date _ _ Hs He) as P.
  cbv zeta in P. fold days in P. rewrite Hlt in P.
  split; [|split; [|split; [|split]]].
  - rewrite P, orb_true_iff, !andb_true_iff. tauto.
  - apply weekday_names.
  - reflexivity.
  - intros V Hprev Heq. rewrite P, Hprev. simpl.
    destruct date as [|w h m]; simpl in V; [tauto|].
    destruct V as (_ & Hh & Hm).
    rewrite (currentTime_LocalTime w h m Hh Hm) in *.
    destruct (minute_step (h * 60 + m)) as [Hadd Hstep]; [lia|].
    rewrite Hadd in Heq.
    rewrite <- (lt_strictEq_r _ _ _ Heq), Hstep. apply orb_true_r.
  - intros Heq. rewrite P.
    rewrite (strictEq_not_lt _ _ Heq), andb_false_r, orb_false_r.
    rewrite (ge_strictEq_l _ _ _ Heq), (lt_not_ge _ _ Hlt). apply andb_false_r.
Qed.

Lemma C1_overnight_slot_witness :
  isShowOnAir fridayNight (LocalTime 6 1 59) = true
  /\ isShowOnAir fridayNight (LocalTime 6 2 0) = false.
Proof.
  split.
  - apply (C1_overnight_slot fridayNight (LocalTime 6 1 59) (ofZ 1320) (ofZ 120));
      try reflexivity. simpl. lia.
  - apply (C1_overnight_slot fridayNight (LocalTime 6 2 0) (ofZ 1320) (ofZ 120));
      reflexivity.
Defined.

(** C2.  When the start time is strictly less than the end time and the
    weekday of the point is scheduled, [isShowOnAir] is true exactly when
    start <= minute of the day < end: the start minute matches, the end
    minute does not. *)
Theorem C2_same_day_slot
    (show : RadioShow) (date : Date) (startTime endTime : number) :
  minutesOf (Start show) = Some startTime ->
  minutesOf (End' show) = Some endTime ->
  lt startTime endTime = true ->
  has (scheduledDaysOf (formattedDayString show)) (currentDayName date) = true ->
  (isShowOnAir show date = true <->
     ge (currentTime date) startTime = true
     /\ lt (currentTime date) endTime = true)
  /\ (strictEq (currentTime date) startTime = true ->
      isShowOnAir show date = true)
  /\ (strictEq (currentTime date) endTime = true ->
      isShowOnAir show date = false).
Proof.
  intros Hs He Hlt Hday.
  pose proof (isShowOnAir_parsed show date _ _ Hs He) as P.
  cbv zeta in P. rewrite (lt_asym _ _ Hlt), Hday in P. simpl in P.
  split; [|split].
  - rewrite P, andb_true_iff. tauto.
  - intros Heq. rewrite P, (strictEq_ge _ _ Heq), (lt_strictEq_l _ _ _ Heq), Hlt.
    reflexivity.
  - intros Heq. rewrite P, (strictEq_not_lt _ _ Heq). apply andb_false_r.
Qed.

Lemma C2_same_day_slot_witness :
  isShowOnAir mondayMorning (LocalTime 1 9 0) = true
  /\ isShowOnAir mondayMorning (LocalTime 1 12 0) = false.
Proof.
  split.
  - apply (C2_same_day_slot mondayMorning (LocalTime 1 9 0) (ofZ 540) (ofZ 720));
      reflexivity.
  - apply (C2_same_day_slot mondayMorning (LocalTime 1 12 0) (ofZ 540) (ofZ 720));
      reflexivity.
Defined.

(** C10.  When the start and end times are the same number of minutes,
    [isShowOnAir] is false at every point: the slot is taken as a same-day
    slot ([crossesMidnight] is false), whose window is empty, and not as a
    24-hour slot. *)
Theorem C10_zero_length_slot
    (show : RadioShow) (startTime endTime : number) :
  minutesOf (Start show) = Some startTime ->
  minutesOf (End' show) = Some endTime ->
  strictEq startTime endTime = true \/ startTime = endTime ->
  lt endTime startTime = false
  /\ forall date, isShowOnAir show date = false.
Proof.
  intros Hs He Heq.
  assert (L : lt endTime startTime = false).
  { destruct Heq as [Heq | <-]; [exact (strictEq_not_gt _ _ Heq)|].
    apply lt_irrefl. }
  split; [exact L|]. intros date.
  rewrite (isShowOnAir_parsed show date _ _ Hs He). cbv zeta. rewrite L.
  assert (R : lt (currentTime date) endTime = lt (currentTime date) startTime)
    by (destruct Heq as [Heq | <-];
        [symmetry; apply (lt_strictEq_r _ _ _ Heq)|reflexivity]).
  rewrite R.
  destruct (ge (currentTime date) startTime) eqn:G.
  - rewrite (ge_not_lt _ _ G). now rewrite !andb_false_r.
  - now rewrite andb_false_r.
Qed.

Lemma C10_zero_length_slot_witness :
  isShowOnAir
    {| Day_s_of_Week := None; Day := Some "Monday"; Show := "Noon";
       Start := Some "12:00"; End' := Some "12h00" |}
    (LocalTime 1 12 0) = false.
Proof.
  apply (C10_zero_length_slot _ (ofZ 720) (ofZ 720));
    [reflexivity|reflexivity|left; reflexivity].
Defined.

(** ** Missing and malformed fields *)

Lemma isShowOnAir_unparsed (show : RadioShow) (date : Date) :
  minutesOf (Start show) = None \/ minutesOf (End' show) = None ->
  isShowOnAir show date = false.
Proof.
  unfold isShowOnAir. intros [H | H]; rewrite H;
    destruct (negb _ || negb _ || negb _); try reflexivity.
  now destruct (minutesOf (Start show)).
Qed.

Lemma isShowOnAir_missing (show : RadioShow) (date : Date) :
  formattedDayString show = ""
  \/ Start show = None \/ Start show = Some ""
  \/ End' show = None \/ End' show = Some "" ->
  isShowOnAir show date = false.
Proof.
  unfold isShowOnAir.
  intros [H | [H | [H | [H | H]]]]; rewrite H; simpl;
    rewrite ?orb_true_r; reflexivity.
Qed.











(** ** Separators and components of a time string *)

Lemma replace_app (c d : ascii) (a b : string) :
  includes c a = false -> replace c d (a ++ b) = a ++ replace c d b.
Proof.
  induction a as [|x a IH]; simpl; [reflexivity|].
  intros H. apply orb_false_elim in H as [Hx Ha].
  rewrite Hx. f_equal. now apply IH.
Qed.

Lemma replace_absent (c d : ascii) (a : string) :
  includes c a = false -> replace c d a = a.
Proof.
  induction a as [|x a IH]; simpl; [reflexivity|].
  intros H. apply orb_false_elim in H as [Hx Ha].
  rewrite Hx. f_equal. now apply IH.
Qed.

Lemma replace_hit (c d : ascii) (b : string) :
  replace c d (String c b) = String d b.
Proof. simpl. now rewrite Ascii.eqb_refl. Qed.

Lemma split_app (c : ascii) (a b : string) :
  includes c a = false -> split c (a ++ String c b) = a :: split c b.
Proof.
  induction a as [|x a IH]; simpl.
  - intros _. now rewrite Ascii.eqb_refl.
  - intros H. apply orb_false_elim in H as [Hx Ha].
    rewrite Hx, (IH Ha). reflexivity.
Qed.

Lemma split_absent (c : ascii) (a : string) :
  includes c a = false -> split c a = [a].
Proof.
  induction a as [|x a IH]; simpl; [reflexivity|].
  intros H. apply orb_false_elim in H as [Hx Ha].
  rewrite Hx, (IH Ha). reflexivity.
Qed.

Lemma minutesOf_components (v : option string) :
  minutesOf v =
  match map Number (split ":" (replace "h" ":" (String_ v))) with
  | h :: m :: _ =>
      if isNaN (Some h) || isNaN (Some m) then None
      else Some (add (mul h (ofZ 60)) m)
  | _ => None
  end.
Proof.
  unfold minutesOf.
  destruct (map Number (split ":" (replace "h" ":" (String_ v)))) as [|h [|m r]];
    simpl; try reflexivity.
  now rewrite orb_true_r.
Qed.

Lemma minutesOf_two (a b : string) (rest : list string) :
  split ":" (replace "h" ":" a) = b :: rest ->
  forall c rest', rest = c :: rest' ->
  minutesOf (Some a) =
  if isNaN (Some (Number b)) || isNaN (Some (Number c)) then None
  else Some (add (mul (Number b) (ofZ 60)) (Number c)).
Proof.
  intros H c rest' ->. rewrite minutesOf_components. simpl String_.
  rewrite H. reflexivity.
Qed.

(** Every [HH:MM] of the 24-hour clock is read as [HH * 60 + MM]. *)
Lemma clockStrings :
  forallb (fun h =>
    forallb (fun m =>
      match minutesOf (Some (twoDigits h ++ ":" ++ twoDigits m)) with
      | Some x => sameNumber x (ofZ (h * 60 + m))
      | None => false
      end)
      (upto 0 59))
    (upto 0 23) = true.
Proof. vm_compute. reflexivity. Qed.

(** C6, as the code has it.  A time is hour * 60 + minute, from the first
    two components of the string once its first [h] is a [:] and it is split
    at [:]; [h] separates like [:], and a third component (seconds) is not
    read; [HH:MM] gives the minute of the day.  When a time string has fewer
    than two components, or one of the first two is NaN under [Number],
    [isShowOnAir] is false at every point.  ([Number] reads an empty
    component as 0 and accepts numbers that are not integers.) *)
Theorem C6_time_parsing (show : RadioShow) :
  (forall v,
     minutesOf v =
     match map Number (split ":" (replace "h" ":" (String_ v))) with
     | h :: m :: _ =>
         if isNaN (Some h) || isNaN (Some m) then None
         else Some (add (mul h (ofZ 60)) m)
     | _ => None
     end)
  /\ (forall a b,
        includes "h" a = false -> includes "h" b = false ->
        minutesOf (Some (a ++ "h" ++ b)) = minutesOf (Some (a ++ ":" ++ b)))
  /\ (forall a b c,
        includes ":" a = false -> includes "h" a = false ->
        includes ":" b = false -> includes "h" b = false ->
        minutesOf (Some (a ++ ":" ++ b ++ ":" ++ c))
        = minutesOf (Some (a ++ ":" ++ b)))
  /\ (forall h m,
        0 <= h <= 23 -> 0 <= m <= 59 ->
        minutesOf (Some (twoDigits h ++ ":" ++ twoDigits m))
        = Some (ofZ (h * 60 + m)))
  /\ (minutesOf (Start show) = None \/ minutesOf (End' show) = None ->
      forall date, isShowOnAir show date = false)
  /\ minutesOf (Some "9:") = Some (ofZ 540)
  /\ minutesOf (Some "9.5:00") = Some (ofZ 570).
Proof.
  split; [|split; [|split; [|split; [|split; [|split]]]]];
    [| | | | |reflexivity|reflexivity].
  - apply minutesOf_components.
  - intros a b Ha Hb. rewrite !minutesOf_components. simpl String_.
    change (a ++ "h" ++ b) with (a ++ String "h" b).
    change (a ++ ":" ++ b) with (a ++ String ":" b).
    rewrite !(replace_app _ _ a) by assumption.
    rewrite replace_hit. simpl (replace "h" ":" (String ":" b)).
    now rewrite (replace_absent _ _ b Hb).
  - intros a b c Ha1 Ha2 Hb1 Hb2.
    change (a ++ ":" ++ b ++ ":" ++ c) with (a ++ String ":" (b ++ String ":" c)).
    change (a ++ ":" ++ b) with (a ++ String ":" b).
    assert (E1 : split ":" (replace "h" ":" (a ++ String ":" (b ++ String ":" c)))
                 = a :: b :: split ":" (replace "h" ":" c)).
    { rewrite (replace_app _ _ a) by assumption. simpl replace.
      rewrite (replace_app _ _ b) by assumption. simpl replace.
      rewrite (split_app _ a) by assumption.
      now rewrite (split_app _ b) by assumption. }
    assert (E2 : split ":" (replace "h" ":" (a ++ String ":" b)) = [a; b]).
    { rewrite (replace_app _ _ a) by assumption. simpl replace.
      rewrite (replace_absent _ _ b) by assumption.
      rewrite (split_app _ a) by assumption.
      now rewrite (split_absent _ b) by assumption. }
    rewrite (minutesOf_two _ _ _ E1 _ _ eq_refl).
    now rewrite (minutesOf_two _ _ _ E2 _ _ eq_refl).
  - intros h m Hh Hm.
    pose proof (proj1 (forallb_forall _ _) clockStrings h (In_upto _ _ _ Hh)) as C.
    pose proof (proj1 (forallb_forall _ _) C m (In_upto _ _ _ Hm)) as D.
    cbv beta in D.
    destruct (minutesOf (Some (twoDigits h ++ ":" ++ twoDigits m)));
      [|discriminate].
    apply sameNumber_eq in D. now subst.
  - intros H date. now apply isShowOnAir_unparsed.
Qed.

Lemma C6_time_parsing_witness :
  minutesOf (Some "09h00") = minutesOf (Some "09:00")
  /\ minutesOf (Some "09:00:30") = minutesOf (Some "09:00")
  /\ minutesOf (Some "09:00") = Some (ofZ 540)
  /\ isShowOnAir
       {| Day_s_of_Week := None; Day := Some "Monday"; Show := "Breakfast";
          Start := Some "nine"; End' := Some "12:00" |}
       (LocalTime 1 10 0) = false.
Proof.
  pose proof (C6_time_parsing fridayNight) as (_ & Hsep & Hsec & Hclock & _).
  split; [|split; [|split]].
  - apply (Hsep "09" "00"); reflexivity.
  - apply (Hsec "09" "00" "30"); reflexivity.
  - apply (Hclock 9 0); lia.
  - apply (proj1 (proj2 (proj2 (proj2 (proj2 (C6_time_parsing
             {| Day_s_of_Week := None; Day := Some "Monday"; Show := "Breakfast";
                Start := Some "nine"; End' := Some "12:00" |})))))).
    left. reflexivity.
Defined.

(** The second half of C6 as the specification words it fails: 9.5 is not
    an integer, yet a show starting at "9.5:00" (570 minutes) is on air at
    09:45 on its day. *)
Lemma C6_counterexample :
  Spec.parsesAsTwoIntegers (Start halfPastNine) = false
  /\ isShowOnAir halfPastNine (LocalTime 1 9 45) = true.
Proof. split; reflexivity. Qed.

(** ** The two copies *)

(** C7.  The copy of [isShowOnAir] in the registration analytics and the
    copy in the request analytics return the same boolean on every show
    record and every point in time. *)
Theorem C7_copies_agree (show : RadioShow) (date : Date) :
  RegistrationDashboard.isShowOnAir show date
  = RequestAnalytics.isShowOnAir show date.
Proof.
  unfold RegistrationDashboard.isShowOnAir, RequestAnalytics.isShowOnAir.
  reflexivity.
Qed.

(** ** The day fields *)

(** The record matters only through its day descriptor and its two times. *)
Lemma isShowOnAir_fields (show show' : RadioShow) (date : Date) :
  formattedDayString show' = formattedDayString show ->
  Start show' = Start show -> End' show' = End' show ->
  isShowOnAir show' date = isShowOnAir show date.
Proof.
  intros Hd Hs He. unfold isShowOnAir. now rewrite Hd, Hs, He.
Qed.

(** The result, once both times have parsed, from the descriptor. *)
Lemma isShowOnAir_slotCovers (show : RadioShow) (date : Date)
    (startTime endTime : number) :
  minutesOf (Start show) = Some startTime ->
  minutesOf (End' show) = Some endTime ->
  isShowOnAir show date
  = slotCovers (scheduledDaysOf (formattedDayString show)) startTime endTime date.
Proof.
  intros Hs He. rewrite (isShowOnAir_parsed show date startTime endTime Hs He).
  reflexivity.
Qed.

(** C8.  The day descriptor is the expanded field [Day] when it is present
    and the raw compact field ['Day(s) of Week'] otherwise (the empty string
    when both are absent), and it is this descriptor that decides the
    result: once both times have parsed, the show is on air exactly when the
    slot of the days scheduled by [Day], if present, and by the raw field
    otherwise, covers the point; with both fields absent it never is.  So
    with [Day] absent the result is that of the raw compact field: two
    records that agree on it and on the two times agree at every point, and
    moving the raw field into [Day] changes nothing.  With [Day] present the
    raw field is not read: a show with [Day] "Monday" and raw field "Tue" is
    on air on Monday morning and not on Tuesday morning, the same show
    without [Day] is on air on Tuesday morning and not on Monday morning,
    and with an empty [Day] it is on air on neither. *)
Theorem C8_day_field_preference (show : RadioShow) :
  (forall d, Day show = Some d -> formattedDayString show = d)
  /\ (Day show = None ->
      forall raw, Day_s_of_Week show = Some raw -> formattedDayString show = raw)
  /\ (Day show = None -> Day_s_of_Week show = None -> formattedDayString show = "")
  /\ (Day show = None ->
      forall show',
        Day show' = None -> Day_s_of_Week show' = Day_s_of_Week show ->
        Start show' = Start show -> End' show' = End' show ->
        forall date, isShowOnAir show' date = isShowOnAir show date)
  /\ (Day show = None ->
      forall date,
        isShowOnAir show date
        = isShowOnAir {| Day_s_of_Week := None; Day := Day_s_of_Week show;
                         Show := Show show; Start := Start show;
                         End' := End' show |} date)
  /\ (forall d, Day show = Some d ->
      forall raw' date,
        isShowOnAir show date
        = isShowOnAir {| Day_s_of_Week := raw'; Day := Some d;
                         Show := Show show; Start := Start show;
                         End' := End' show |} date)
  /\ (forall startTime endTime,
        minutesOf (Start show) = Some startTime ->
        minutesOf (End' show) = Some endTime ->
        (forall d, Day show = Some d ->
           forall date,
             isShowOnAir show date
             = slotCovers (scheduledDaysOf d) startTime endTime date)
        /\ (Day show = None ->
            forall raw, Day_s_of_Week show = Some raw ->
            forall date,
              isShowOnAir show date
              = slotCovers (scheduledDaysOf raw) startTime endTime date))
  /\ (Day show = None -> Day_s_of_Week show = None ->
      forall date, isShowOnAir show date = false)
  /\ (isShowOnAir (morningShow (Some "Monday") (Some "Tue")) (LocalTime 1 10 0)
      = true
      /\ isShowOnAir (morningShow (Some "Monday") (Some "Tue")) (LocalTime 2 10 0)
         = false
      /\ isShowOnAir (morningShow None (Some "Tue")) (LocalTime 2 10 0) = true
      /\ isShowOnAir (morningShow None (Some "Tue")) (LocalTime 1 10 0) = false
      /\ isShowOnAir (morningShow (Some "") (Some "Tue")) (LocalTime 2 10 0)
         = false).
Proof.
  split; [|split; [|split; [|split; [|split; [|split; [|split; [|split]]]]]]].
  - unfold formattedDayString. intros d ->. reflexivity.
  - unfold formattedDayString. intros -> raw ->. reflexivity.
  - unfold formattedDayString. intros -> ->. reflexivity.
  - intros Hd show' Hd' Hw Hs He date.
    apply isShowOnAir_fields; try assumption.
    unfold formattedDayString. now rewrite Hd, Hd', Hw.
  - intros Hd date. symmetry. apply isShowOnAir_fields; try reflexivity.
    unfold formattedDayString. simpl. rewrite Hd.
    now destruct (Day_s_of_Week show).
  - intros d Hd raw' date. symmetry. apply isShowOnAir_fields; try reflexivity.
    unfold formattedDayString. simpl. now rewrite Hd.
  - intros startTime endTime Hs He. split.
    + intros d Hd date.
      rewrite (isShowOnAir_slotCovers show date startTime endTime Hs He).
      unfold formattedDayString. now rewrite Hd.
    + intros Hd raw Hw date.
      rewrite (isShowOnAir_slotCovers show date startTime endTime Hs He).
      unfold formattedDayString. now rewrite Hd, Hw.
  - intros Hd Hw date. apply isShowOnAir_missing. left.
    unfold formattedDayString. now rewrite Hd, Hw.
  - repeat split; vm_compute; reflexivity.
Qed.

Lemma C8_day_field_preference_witness :
  formattedDayString fridayNight = "Fri-Sat"
  /\ formattedDayString mondayMorning = "Monday"
  /\ isShowOnAir fridayNight (LocalTime 6 1 30)
     = isShowOnAir {| Day_s_of_Week := None; Day := Some "Fri-Sat";
                      Show := "Night Shift"; Start := Some "22:00";
                      End' := Some "02:00" |} (LocalTime 6 1 30)
  /\ isShowOnAir (morningShow (Some "Mon-Wed") (Some "Fri")) (LocalTime 3 9 0)
     = slotCovers [VString "Monday"; VString "Tuesday"; VString "Wednesday"]
         (ofZ 540) (ofZ 720) (LocalTime 3 9 0)
  /\ isShowOnAir (morningShow None (Some "Fri")) (LocalTime 5 9 0)
     = slotCovers [VString "Friday"] (ofZ 540) (ofZ 720) (LocalTime 5 9 0)
  /\ isShowOnAir (morningShow None None) (LocalTime 5 9 0) = false.
Proof.
  split; [|split; [|split; [|split; [|split]]]].
  - apply (proj1 (proj2 (C8_day_field_preference fridayNight))); reflexivity.
  - apply (proj1 (C8_day_field_preference mondayMorning)); reflexivity.
  - apply (proj1 (proj2 (proj2 (proj2 (proj2
             (C8_day_field_preference fridayNight)))))).
    reflexivity.
  - apply (proj1 (proj1 (proj2 (proj2 (proj2 (proj2 (proj2 (proj2
             (C8_day_field_preference
                (morningShow (Some "Mon-Wed") (Some "Fri")))))))))
             (ofZ 540) (ofZ 720) eq_refl eq_refl) "Mon-Wed" eq_refl).
  - apply (proj2 (proj1 (proj2 (proj2 (proj2 (proj2 (proj2 (proj2
             (C8_day_field_preference (morningShow None (Some "Fri")))))))))
             (ofZ 540) (ofZ 720) eq_refl eq_refl) eq_refl "Fri" eq_refl).
  - apply (proj1 (proj2 (proj2 (proj2 (proj2 (proj2 (proj2 (proj2
             (C8_day_field_preference (morningShow None None))))))))));
      reflexivity.
Defined.

(** ** Day descriptors *)

Lemma has_app (s t : list value) (v : value) :
  has (s ++ t) v = has s v || has t v.
Proof. unfold has. apply existsb_app. Qed.

Lemma value_eqb_eq (a b : value) : value_eqb a b = true -> a = b.
Proof.
  destruct a, b; simpl; try discriminate; try reflexivity;
    intros H; apply String.eqb_eq in H; now subst.
Qed.

Lemma has_setAdd (s : list value) (x v : value) :
  has (setAdd s x) v = has s v || value_eqb v x.
Proof.
  unfold setAdd. destruct (has s x) eqn:E.
  - destruct (value_eqb v x) eqn:F; [|now rewrite orb_false_r].
    apply value_eqb_eq in F. subst. now rewrite E.
  - rewrite has_app. simpl. now rewrite orb_false_r.
Qed.

(** The loop over a range adds the truthy table entries of its indices. *)
Lemma has_range_loop (f : Z -> value) (l : list Z) (s : list value) (v : value) :
  has (fold_left
         (fun days i =>
            let dayName := f i in
            if truthyValue dayName then setAdd days dayName else days)
         l s) v
  = has s v || existsb (fun i => truthyValue (f i) && value_eqb v (f i)) l.
Proof.
  revert s. induction l as [|i l IH]; intros s; simpl.
  - now rewrite orb_false_r.
  - rewrite IH. destruct (truthyValue (f i)); simpl.
    + rewrite has_setAdd. now rewrite orb_assoc.
    + reflexivity.
Qed.

(** What a token adds does not depend on the set it is added to. *)
Lemma has_addPart (s : list value) (part : string) (v : value) :
  has (addPart s part) v = has s v || has (addPart [] part) v.
Proof.
  unfold addPart.
  destruct (includes "-" part).
  - destruct ((_ >? -1) && (_ >? -1) && (_ <=? _)).
    + rewrite !has_range_loop. reflexivity.
    + simpl. now rewrite orb_false_r.
  - cbv zeta. destruct (truthyValue (getProp shortDayToFull (Some part))).
    + rewrite !has_setAdd. reflexivity.
    + destruct (arrIncludes fullDaysOfWeek part).
      * rewrite !has_setAdd. reflexivity.
      * simpl. now rewrite orb_false_r.
Qed.

Lemma has_fold_addPart (parts : list string) (s : list value) (v : value) :
  has (fold_left addPart parts s) v
  = has s v || existsb (fun part => has (addPart [] part) v) parts.
Proof.
  revert s. induction parts as [|p parts IH]; intros s; simpl.
  - now rewrite orb_false_r.
  - rewrite IH, has_addPart. now rewrite orb_assoc.
Qed.

Lemma has_scheduledDaysOf (descriptor : string) (v : value) :
  has (scheduledDaysOf descriptor) v
  = existsb (fun part => has (addPart [] part) v) (tokens descriptor).
Proof. unfold scheduledDaysOf. now rewrite has_fold_addPart. Qed.

(** A token without [-] names a day through the abbreviation table, or is
    itself a canonical full name. *)
Lemma has_addPart_single (part name : string) :
  includes "-" part = false ->
  has (addPart [] part) (VString name) = true
  <-> In (part, name) shortDayToFull
      \/ (part = name /\ In name fullDaysOfWeek).
Proof.
  intros Hdash. unfold addPart. rewrite Hdash. cbv zeta. split.
  - unfold getProp, shortDayToFull. cbn [find fst snd].
    repeat match goal with
           | |- context [String.eqb ?a ?b] =>
               is_var b; destruct (String.eqb_spec a b) as [<- | ?]
           end;
      cbn [truthyValue truthy setAdd has existsb value_eqb app orb fst snd];
      rewrite ?orb_false_r;
      try (intros H; apply String.eqb_eq in H; subst name; left; simpl; tauto).
    destruct (arrIncludes objectPrototypeKeys part);
      cbn [truthyValue truthy setAdd has existsb value_eqb app orb fst snd];
      [discriminate|].
    destruct (arrIncludes fullDaysOfWeek part) eqn:F;
      cbn [truthyValue truthy setAdd has existsb value_eqb app orb fst snd];
      [|discriminate].
    rewrite orb_false_r. intros H. apply String.eqb_eq in H. subst name.
    right. split; [reflexivity|].
    unfold arrIncludes in F. apply existsb_exists in F as (y & Hy & E).
    apply String.eqb_eq in E. now subst.
  - intros [H | [-> H]].
    + simpl in H.
      repeat (destruct H as [H | H]; [injection H as <- <-; reflexivity|]).
      contradiction.
    + simpl in H.
      repeat (destruct H as [<- | H]; [reflexivity|]).
      contradiction.
Qed.

Lemma range_cases (i : Z) :
  0 <= i <= 6 -> i = 0 \/ i = 1 \/ i = 2 \/ i = 3 \/ i = 4 \/ i = 5 \/ i = 6.
Proof. lia. Qed.

Ltac each_day i H :=
  destruct (range_cases i H) as [-> | [-> | [-> | [-> | [-> | [-> | ->]]]]]].

Lemma addPart_range_token (i j : Z) (days : list value) :
  0 <= i <= 6 -> 0 <= j <= 6 ->
  addPart days (abbreviation i ++ "-" ++ abbreviation j)
  = fold_left setAdd (map VString (daysBetween i j)) days.
Proof.
  intros Hi Hj. each_day i Hi; each_day j Hj; reflexivity.
Qed.

Lemma normalise_range_token (i j : Z) :
  0 <= i <= 6 -> 0 <= j <= 6 ->
  DataTable.normaliseDaysForSelector (abbreviation i ++ "-" ++ abbreviation j)
  = join ", " (daysBetween i j).
Proof.
  intros Hi Hj. each_day i Hi; each_day j Hj; reflexivity.
Qed.

Lemma daysBetween_empty (i j : Z) : j < i -> daysBetween i j = [].
Proof.
  intros H. unfold daysBetween, upto.
  replace (Z.to_nat (j + 1 - i)) with 0%nat by lia. reflexivity.
Qed.

(** C3.  A token of two abbreviations joined by [-] adds the canonical full
    names from the index of the first to the index of the second (Monday
    first, both included), and nothing when the first index is greater:
    "Mon-Wed" is Monday, Tuesday, Wednesday and "Wed-Mon" is empty.  The same
    holds of the expansion in the data table. *)
Theorem C3_range_tokens (i j : Z) :
  0 <= i <= 6 -> 0 <= j <= 6 ->
  let token := abbreviation i ++ "-" ++ abbreviation j in
  (forall days,
     addPart days token = fold_left setAdd (map VString (daysBetween i j)) days)
  /\ scheduledDaysOf token = map VString (daysBetween i j)
  /\ DataTable.normaliseDaysForSelector token = join ", " (daysBetween i j)
  /\ (j < i ->
      (forall days, addPart days token = days)
      /\ scheduledDaysOf token = []
      /\ DataTable.normaliseDaysForSelector token = "")
  /\ scheduledDaysOf "Mon-Wed"
     = [VString "Monday"; VString "Tuesday"; VString "Wednesday"]
  /\ scheduledDaysOf "Wed-Mon" = []
  /\ DataTable.normaliseDaysForSelector "Mon-Wed" = "Monday, Tuesday, Wednesday"
  /\ DataTable.normaliseDaysForSelector "Wed-Mon" = "".
Proof.
  intros Hi Hj token.
  assert (A : forall days,
             addPart days token
             = fold_left setAdd (map VString (daysBetween i j)) days)
    by (intros days; now apply addPart_range_token).
  assert (B : scheduledDaysOf token = map VString (daysBetween i j))
    by (unfold token; each_day i Hi; each_day j Hj; reflexivity).
  assert (C : DataTable.normaliseDaysForSelector token
              = join ", " (daysBetween i j))
    by (now apply normalise_range_token).
  split; [exact A|]. split; [exact B|]. split; [exact C|].
  split; [|repeat split].
  intros Hlt. rewrite B, C. split; [|now rewrite (daysBetween_empty i j Hlt)].
  intros days. rewrite A. now rewrite (daysBetween_empty i j Hlt).
Qed.

Lemma C3_range_tokens_witness :
  addPart [VString "Monday"] "Tue-Thu"
  = [VString "Monday"; VString "Tuesday"; VString "Wednesday";
     VString "Thursday"]
  /\ addPart [VString "Monday"] "Sat-Fri" = [VString "Monday"].
Proof.
  split.
  - apply (C3_range_tokens 1 3); lia.
  - apply (C3_range_tokens 5 4); lia.
Defined.



(** ** The store across a call *)

Import Imperative.

Lemma withSets_sets (h : Store) : withSets h (sets h) = h.
Proof. now destruct h. Qed.

Lemma updateNth_last {A} (f : A -> A) (l : list A) (x : A) :
  updateNth (List.length l) f (l ++ [x]) = (l ++ [f x])%list.
Proof. induction l as [|y l IH]; simpl; [reflexivity|]. now rewrite IH. Qed.

Lemma nth_last {A} (l : list A) (x d : A) : nth (List.length l) (l ++ [x]) d = x.
Proof. induction l as [|y l IH]; simpl; [reflexivity|]. exact IH. Qed.

Lemma building_withSets h old cur cur' :
  building h old cur -> building (withSets h (old ++ [cur'])) old cur'.
Proof. intros [I _]. split; [exact I|reflexivity]. Qed.

Lemma setAddM_building h old cur v :
  building h old cur ->
  setAddM (List.length old) v h = (tt, withSets h (old ++ [setAdd cur v])).
Proof.
  intros [_ E]. unfold setAddM. now rewrite E, updateNth_last.
Qed.

Lemma skip_building h old cur :
  building h old cur -> ret tt h = (tt, withSets h (old ++ [cur])).
Proof. intros [_ E]. unfold ret. now rewrite <- E, withSets_sets. Qed.

(** A loop whose body updates the set under construction by [step] updates
    it by the fold of [step]. *)
Lemma forEach_building {A} (body : A -> M unit)
    (step : list value -> A -> list value) (old : list (list value)) (l : list A) :
  (forall x h cur,
     building h old cur ->
     body x h = (tt, withSets h (old ++ [step cur x]))) ->
  forall h cur,
    building h old cur ->
    forEach l body h = (tt, withSets h (old ++ [fold_left step l cur])).
Proof.
  intros Hbody. induction l as [|x l IH]; intros h cur B; simpl.
  - now apply skip_building.
  - unfold bind. rewrite (Hbody x h cur B).
    rewrite (IH _ (step cur x) (building_withSets _ _ _ _ B)).
    reflexivity.
Qed.

Lemma addPart_building (old : list (list value)) (part : string) h cur :
  building h old cur ->
  addPart (List.length old) part h
  = (tt, withSets h (old ++ [RegistrationDashboard.addPart cur part])).
Proof.
  intros B. pose proof B as [(E1 & E2 & E3 & E4) _].
  unfold addPart, RegistrationDashboard.addPart, bind, read.
  destruct (includes "-" part).
  - cbv beta iota zeta. rewrite E2.
    destruct ((_ >? -1) && (_ >? -1) && (_ <=? _)).
    + apply (forEach_building _
               (fun days i =>
                  let dayName :=
                    getProp RegistrationDashboard.shortDayToFull
                            (at_ RegistrationDashboard.dayOrderArray i) in
                  if truthyValue dayName then setAdd days dayName else days));
        [|exact B].
      intros i h' cur' B'. pose proof B' as [(F1 & F2 & _) _].
      cbv beta iota zeta. rewrite F1, F2.
      destruct (truthyValue _).
      * now apply setAddM_building.
      * now apply skip_building.
    + now apply skip_building.
  - cbv beta iota zeta. rewrite E1.
    destruct (truthyValue _); [now apply setAddM_building|].
    cbv beta iota zeta. rewrite E3.
    destruct (arrIncludes _ _); [now apply setAddM_building|].
    now apply skip_building.
Qed.

(** A call returns what the function of the record and the date returns.
    It allocates at most one [Set], which no other object refers to, and
    writes nothing else. *)
Lemma isShowOnAir_run (h : Store) (show date : nat) :
  initialised h ->
  exists fresh,
    isShowOnAir show date h
    = (RegistrationDashboard.isShowOnAir (theShow show h) (theDate date h),
       withSets h (sets h ++ fresh)).
Proof.
  intros I. pose proof I as (E1 & E2 & E3 & E4).
  unfold isShowOnAir, RegistrationDashboard.isShowOnAir, bind, read.
  unfold RegistrationDashboard.formattedDayString.
  assert (D : (match Day (theShow show h) with
               | Some _ => ret (Day (theShow show h))
               | None =>
                   fun h0 =>
                     let (a, h') := (Day_s_of_Week (theShow show h0), h0) in
                     ret (nullish a (Some "")) h'
               end) h
              = (nullish (Day (theShow show h))
                   (nullish (Day_s_of_Week (theShow show h)) (Some "")), h))
    by (destruct (Day (theShow show h)); reflexivity).
  rewrite D. clear D.
  destruct (negb _ || negb _ || negb _).
  - exists []. unfold ret. now rewrite app_nil_r, withSets_sets.
  - cbv zeta. unfold newSet.
    set (d := String_ _).
    assert (B : building (withSets h (sets h ++ [[]])) (sets h) [])
      by (split; [exact I|reflexivity]).
    rewrite (forEach_building _ RegistrationDashboard.addPart (sets h) _
               (fun x h' cur => addPart_building (sets h) x h' cur) _ _ B).
    exists [RegistrationDashboard.scheduledDaysOf d].
    cbn [withSets dayFullNameMap dates shows sets theDate theShow].
    rewrite E4.
    destruct (RegistrationDashboard.minutesOf (Start (theShow show h)));
      [|reflexivity].
    destruct (RegistrationDashboard.minutesOf (End' (theShow show h)));
      [|reflexivity].
    unfold setHas, read, ret, RegistrationDashboard.scheduledDaysOf,
      RegistrationDashboard.currentDayName,
      RegistrationDashboard.previousDayName,
      RegistrationDashboard.currentTime, theDate.
    destruct (lt _ _); cbn [withSets dates sets]; now rewrite nth_last.
Qed.

(** C9.  In a store as the module initialises it, a call of [isShowOnAir]
    returns the value of a function of the show record and the date alone,
    leaves the module tables, the show records, the dates and every existing
    [Set] as they were (it only allocates), and a second call with the same
    arguments returns the same boolean. *)
Theorem C9_deterministic_and_pure (h : Store) (show date : nat) :
  initialised h ->
  let first := Imperative.isShowOnAir show date h in
  let second := Imperative.isShowOnAir show date (snd first) in
  fst second = fst first
  /\ fst first
     = RegistrationDashboard.isShowOnAir (theShow show h) (theDate date h)
  /\ shortDayToFull (snd first) = shortDayToFull h
  /\ dayOrderArray (snd first) = dayOrderArray h
  /\ fullDaysOfWeek (snd first) = fullDaysOfWeek h
  /\ dayFullNameMap (snd first) = dayFullNameMap h
  /\ shows (snd first) = shows h
  /\ dates (snd first) = dates h
  /\ exists fresh, sets (snd first) = (sets h ++ fresh)%list.
Proof.
  intros I first second.
  destruct (isShowOnAir_run h show date I) as [fresh E].
  assert (I' : initialised (snd first)) by (unfold first; rewrite E; exact I).
  destruct (isShowOnAir_run (snd first) show date I') as [fresh' E'].
  unfold second. rewrite E'. unfold first. rewrite E. cbn [fst snd].
  repeat split. now exists fresh.
Qed.

Lemma C9_deterministic_and_pure_witness :
  fst (Imperative.isShowOnAir 0 0 (snd (Imperative.isShowOnAir 0 0 studio)))
  = fst (Imperative.isShowOnAir 0 0 studio)
  /\ sets (snd (Imperative.isShowOnAir 0 0 studio))
     = [[VString "Sunday"]; [VString "Friday"; VString "Saturday"]].
Proof.
  split.
  - apply (C9_deterministic_and_pure studio 0 0). repeat split.
  - reflexivity.
Defined.

(** ** Trimming and splitting *)

Lemma trimStart_idem (s : string) : trimStart (trimStart s) = trimStart s.
Proof.
  induction s as [|c r IH]; simpl; [reflexivity|].
  destruct (isWhiteSpace c) eqn:W; [exact IH|]. simpl. now rewrite W.
Qed.

Lemma trimEnd_idem (s : string) : trimEnd (trimEnd s) = trimEnd s.
Proof.
  induction s as [|c r IH]; simpl; [reflexivity|].
  destruct (trimEnd r) as [|d r'] eqn:E.
  - destruct (isWhiteSpace c) eqn:W; simpl; [reflexivity|]. now rewrite W.
  - simpl in *. rewrite IH. reflexivity.
Qed.

Lemma trimStart_trimEnd (s : string) :
  trimStart (trimEnd s) = trimEnd (trimStart s).
Proof.
  induction s as [|c r IH]; simpl; [reflexivity|].
  destruct (isWhiteSpace c) eqn:W.
  - rewrite <- IH. destruct (trimEnd r); simpl; [reflexivity|]. now rewrite W.
  - simpl. destruct (trimEnd r); simpl; now rewrite W.
Qed.

Lemma trim_idem (s : string) : trim (trim s) = trim s.
Proof.
  unfold trim.
  now rewrite (trimStart_trimEnd (trimStart s)), trimEnd_idem, trimStart_idem.
Qed.

Lemma trim_trimStart (s : string) : trim (trimStart s) = trim s.
Proof. unfold trim. now rewrite trimStart_idem. Qed.

Lemma trim_trimEnd (s : string) : trim (trimEnd s) = trim s.
Proof. unfold trim. now rewrite trimStart_trimEnd, trimEnd_idem. Qed.

Lemma split_inv (c : ascii) (s : string) : exists h t, split c s = h :: t.
Proof.
  induction s as [|x r (h & t & E)]; simpl; [eauto|].
  destruct (Ascii.eqb x c); [eauto|]. rewrite E. eauto.
Qed.

Lemma split_single_empty (c : ascii) (s : string) :
  split c s = [""] -> s = "".
Proof.
  destruct s as [|x r]; simpl; [reflexivity|].
  destruct (Ascii.eqb x c).
  - destruct (split_inv c r) as (h & t & E). rewrite E. discriminate.
  - destruct (split c r) as [|h t]; discriminate.
Qed.

Lemma split_trimStart (c : ascii) (s : string) :
  isWhiteSpace c = false ->
  split c (trimStart s) = mapFirst trimStart (split c s).
Proof.
  intros Hc. induction s as [|x r IH]; [reflexivity|].
  destruct (split_inv c r) as (h & t & E).
  cbn [trimStart]. destruct (isWhiteSpace x) eqn:W.
  - rewrite IH. cbn [split].
    destruct (Ascii.eqb_spec x c) as [-> | Hx]; [congruence|].
    rewrite E. cbn [mapFirst trimStart]. now rewrite W.
  - cbn [split]. destruct (Ascii.eqb x c); [reflexivity|].
    rewrite E. cbn [mapFirst trimStart]. now rewrite W.
Qed.

Lemma mapLast_cons {A} (f : A -> A) (x y : A) (t : list A) :
  mapLast f (x :: y :: t) = x :: mapLast f (y :: t).
Proof. reflexivity. Qed.

Lemma split_trimEnd (c : ascii) (s : string) :
  isWhiteSpace c = false ->
  split c (trimEnd s) = mapLast trimEnd (split c s).
Proof.
  intros Hc. induction s as [|x r IH]; [reflexivity|].
  destruct (split_inv c r) as (h & t & E).
  assert (R : split c (String x r)
              = if Ascii.eqb x c then "" :: h :: t else String x h :: t)
    by (cbn [split]; now rewrite E).
  rewrite R. rewrite E in IH. clear R E.
  cbn [trimEnd].
  destruct (Ascii.eqb_spec x c) as [-> | Hx].
  - rewrite Hc, mapLast_cons, <- IH.
    destruct (trimEnd r); cbn [split]; now rewrite Ascii.eqb_refl.
  - assert (N : Ascii.eqb x c = false)
      by (destruct (Ascii.eqb_spec x c); [contradiction|reflexivity]).
    destruct (trimEnd r) as [|d r'] eqn:T.
    + destruct t as [|y t]; [|destruct t; discriminate].
      cbn [split mapLast] in IH. injection IH as IH.
      cbn [mapLast trimEnd]. rewrite <- IH.
      destruct (isWhiteSpace x); cbn [split]; [reflexivity|].
      now rewrite N.
    + cbn [split]. rewrite N. cbn [split] in IH. rewrite IH.
      destruct t as [|y t].
      * cbn [mapLast trimEnd].
        destruct (trimEnd h) eqn:Th; [|reflexivity].
        cbn [mapLast] in IH. rewrite Th in IH.
        change (split c (String d r') = [""]) in IH.
        apply split_single_empty in IH. discriminate.
      * rewrite !mapLast_cons. reflexivity.
Qed.

Lemma map_trim_mapFirst (l : list string) :
  map trim (mapFirst trimStart l) = map trim l.
Proof. destruct l; simpl; [reflexivity|]. now rewrite trim_trimStart. Qed.

Lemma map_trim_mapLast (l : list string) :
  map trim (mapLast trimEnd l) = map trim l.
Proof.
  induction l as [|x [|y t] IH]; simpl; [reflexivity| |].
  - now rewrite trim_trimEnd.
  - simpl in IH. now rewrite IH.
Qed.

(** Trimming a descriptor as a whole does not change its tokens. *)
Lemma tokens_trim (d : string) : tokens (trim d) = tokens d.
Proof.
  unfold tokens, trim.
  rewrite (split_trimEnd "," _ eq_refl), map_trim_mapLast.
  now rewrite (split_trimStart "," _ eq_refl), map_trim_mapFirst.
Qed.

(** ** What a descriptor schedules *)

Lemma range_entry_canonical (i : Z) (name : string) :
  value_eqb (VString name)
    (getProp RegistrationDashboard.shortDayToFull (at_ RegistrationDashboard.dayOrderArray i)) = true ->
  In name RegistrationDashboard.fullDaysOfWeek.
Proof.
  unfold at_. destruct (i <? 0); [discriminate|].
  destruct (nth_error RegistrationDashboard.dayOrderArray (Z.to_nat i)) as [a|] eqn:E;
    [|discriminate].
  apply nth_error_In in E. simpl in E.
  repeat (destruct E as [<- | E];
          [simpl; intros H; rewrite orb_false_r in H || idtac;
           apply String.eqb_eq in H; subst; simpl; tauto|]).
  contradiction.
Qed.

Lemma addPart_names_canonical (part name : string) :
  has (RegistrationDashboard.addPart [] part) (VString name) = true ->
  In name RegistrationDashboard.fullDaysOfWeek.
Proof.
  destruct (includes "-" part) eqn:D.
  - unfold RegistrationDashboard.addPart. rewrite D. cbv zeta.
    destruct ((_ >? -1) && (_ >? -1) && (_ <=? _)); [|discriminate].
    rewrite has_range_loop. simpl (has [] _). rewrite orb_false_l.
    intros H. apply existsb_exists in H as (i & _ & H).
    apply andb_prop in H as [_ H]. now apply (range_entry_canonical i).
  - intros H. apply (has_addPart_single _ _ D) in H as [H | [_ H]]; [|exact H].
    simpl in H.
    repeat (destruct H as [H | H]; [injection H as <- <-; simpl; tauto|]).
    contradiction.
Qed.

Lemma addPart_no_undefined (part : string) :
  has (RegistrationDashboard.addPart [] part) VUndefined = false.
Proof.
  unfold RegistrationDashboard.addPart. destruct (includes "-" part).
  - cbv zeta. destruct ((_ >? -1) && (_ >? -1) && (_ <=? _)); [|reflexivity].
    rewrite has_range_loop. simpl (has [] _). rewrite orb_false_l.
    apply not_true_is_false. intros H.
    apply existsb_exists in H as (i & _ & H).
    apply andb_prop in H as [T H].
    destruct (getProp _ _); simpl in *; discriminate.
  - cbv zeta.
    destruct (truthyValue (getProp RegistrationDashboard.shortDayToFull (Some part))) eqn:T.
    + destruct (getProp RegistrationDashboard.shortDayToFull (Some part));
        [discriminate|reflexivity|reflexivity].
    + now destruct (arrIncludes RegistrationDashboard.fullDaysOfWeek part).
Qed.

Lemma scheduled_names_canonical (d name : string) :
  has (RegistrationDashboard.scheduledDaysOf d) (VString name) = true ->
  In name RegistrationDashboard.fullDaysOfWeek.
Proof.
  rewrite has_scheduledDaysOf. intros H.
  apply existsb_exists in H as (part & _ & H).
  now apply (addPart_names_canonical part).
Qed.

Lemma scheduled_no_undefined (d : string) :
  has (RegistrationDashboard.scheduledDaysOf d) VUndefined = false.
Proof.
  rewrite has_scheduledDaysOf. apply not_true_is_false. intros H.
  apply existsb_exists in H as (part & _ & H).
  now rewrite addPart_no_undefined in H.
Qed.

(** The weekday names of a date are strings or [undefined]. *)
Lemma getIndex_cases (own : list (Z * string)) (n : number) :
  getIndex own n = VUndefined \/ exists name, getIndex own n = VString name.
Proof. unfold getIndex. destruct (find _ own); eauto. Qed.

(** The matcher reads a descriptor only through the day names it
    schedules. *)
Lemma isShowOnAir_same_days (show show' : RadioShow) :
  Start show' = Start show -> End' show' = End' show ->
  (forall name,
     has (RegistrationDashboard.scheduledDaysOf (RegistrationDashboard.formattedDayString show')) (VString name)
     = has (RegistrationDashboard.scheduledDaysOf (RegistrationDashboard.formattedDayString show)) (VString name)) ->
  forall date, RegistrationDashboard.isShowOnAir show' date = RegistrationDashboard.isShowOnAir show date.
Proof.
  intros Hs He Hd date.
  assert (A : forall v,
             v = VUndefined \/ (exists name, v = VString name) ->
             has (RegistrationDashboard.scheduledDaysOf (RegistrationDashboard.formattedDayString show')) v
             = has (RegistrationDashboard.scheduledDaysOf (RegistrationDashboard.formattedDayString show)) v).
  { intros v [-> | [name ->]]; [|apply Hd]. now rewrite !scheduled_no_undefined. }
  destruct (RegistrationDashboard.minutesOf (Start show)) as [s|] eqn:Ms.
  - destruct (RegistrationDashboard.minutesOf (End' show)) as [e|] eqn:Me.
    + rewrite (isShowOnAir_parsed show date s e Ms Me).
      rewrite <- Hs in Ms. rewrite <- He in Me.
      rewrite (isShowOnAir_parsed show' date s e Ms Me). cbv zeta.
      rewrite !(A (RegistrationDashboard.currentDayName date)), !(A (RegistrationDashboard.previousDayName date));
        try apply getIndex_cases. reflexivity.
    + rewrite !isShowOnAir_unparsed; auto. right. now rewrite He.
  - rewrite !isShowOnAir_unparsed; auto. left. now rewrite Hs.
Qed.

(** Two descriptors with the same tokens, in any order and with any
    repetition, schedule the same days. *)
Lemma scheduled_tokens_only (d d' : string) (v : value) :
  (forall t, In t (tokens d) <-> In t (tokens d')) ->
  has (RegistrationDashboard.scheduledDaysOf d) v = has (RegistrationDashboard.scheduledDaysOf d') v.
Proof.
  intros H. rewrite !has_scheduledDaysOf.
  apply eq_true_iff_eq. rewrite !existsb_exists.
  split; intros (t & I & P); exists t; (split; [apply H; exact I|exact P]).
Qed.

(** ** Substrings and the test for a compressed descriptor *)

Lemma prefixCI_app (p x y : string) :
  prefixCI p x = true -> prefixCI p (x ++ y) = true.
Proof.
  revert x. induction p as [|a p IH]; intros x; [reflexivity|].
  destruct x as [|b x]; simpl; [discriminate|].
  intros H. apply andb_prop in H as [H1 H2]. now rewrite H1, (IH x H2).
Qed.

Lemma testCI_cons (p : string) (c : ascii) (x : string) :
  testCI p x = true -> testCI p (String c x) = true.
Proof. intros H. cbn [testCI]. rewrite H. apply orb_true_r. Qed.

Lemma testCI_app_l (p x y : string) :
  testCI p y = true -> testCI p (x ++ y) = true.
Proof.
  intros H. induction x as [|c x IH]; [exact H|]. now apply testCI_cons.
Qed.

Lemma testCI_app_r (p x y : string) :
  testCI p x = true -> testCI p (x ++ y) = true.
Proof.
  induction x as [|c x IH].
  - cbn [testCI]. rewrite orb_false_r. intros H.
    destruct p; [|discriminate]. now destruct y.
  - cbn [testCI append]. intros H. apply orb_prop in H as [H | H].
    + change (String c (x ++ y)) with (String c x ++ y).
      now rewrite (prefixCI_app _ _ y H).
    + rewrite (IH H). apply orb_true_r.
Qed.

Lemma trimStart_suffix (s : string) : exists w, s = w ++ trimStart s.
Proof.
  induction s as [|c r (w & E)]; [now exists ""|]. simpl.
  destruct (isWhiteSpace c); [|now exists ""].
  exists (String c w). simpl. now rewrite <- E.
Qed.

Lemma trimEnd_prefix (s : string) : exists w, s = trimEnd s ++ w.
Proof.
  induction s as [|c r (w & E)]; [now exists ""|]. simpl.
  destruct (trimEnd r) as [|d r'].
  - destruct (isWhiteSpace c).
    + now exists (String c r).
    + exists w. simpl in *. now subst.
  - exists w. simpl in *. now rewrite <- E.
Qed.

Lemma testCI_trim (p s : string) : testCI p (trim s) = true -> testCI p s = true.
Proof.
  unfold trim. intros H.
  destruct (trimEnd_prefix (trimStart s)) as (w & E).
  destruct (trimStart_suffix s) as (v & F).
  rewrite F. apply testCI_app_l. rewrite E. now apply testCI_app_r.
Qed.

(** The pieces of a split are substrings, the first one a prefix. *)
Lemma split_pieces (c : ascii) (s : string) :
  forall h t,
    split c s = h :: t ->
    (exists b, s = h ++ b)
    /\ forall piece, In piece t -> exists a b, s = a ++ piece ++ b.
Proof.
  induction s as [|x r IH]; intros h t.
  - simpl. intros E. injection E as <- <-. split; [now exists ""|intros ? []].
  - cbn [split]. destruct (split_inv c r) as (h' & t' & E). rewrite E.
    destruct (IH h' t' E) as [(b' & Hb) Ht].
    destruct (Ascii.eqb x c); intros F; injection F as <- <-.
    + split; [now exists (String x r)|].
      intros piece [<- | H].
      * exists (String x ""), b'. simpl. now rewrite <- Hb.
      * destruct (Ht piece H) as (a & b & ->). now exists (String x a), b.
    + split; [exists b'; simpl; now rewrite <- Hb|].
      intros piece H. destruct (Ht piece H) as (a & b & ->).
      now exists (String x a), b.
Qed.

Lemma split_piece (c : ascii) (s piece : string) :
  In piece (split c s) -> exists a b, s = a ++ piece ++ b.
Proof.
  destruct (split_inv c s) as (h & t & E). rewrite E.
  destruct (split_pieces c s h t E) as [(b & Hb) Ht].
  intros [<- | H]; [now exists "", b|now apply Ht].
Qed.

Lemma testCI_token (p d t : string) :
  In t (tokens d) -> testCI p t = true -> testCI p d = true.
Proof.
  unfold tokens. intros H T. apply filter_In in H as [H _].
  apply in_map_iff in H as (piece & <- & H).
  apply testCI_trim in T.
  destruct (split_piece _ _ _ H) as (a & b & ->).
  now apply testCI_app_l, testCI_app_r.
Qed.

Lemma includes_testCI (c : ascii) (s : string) :
  includes c s = true -> testCI (String c "") s = true.
Proof.
  induction s as [|x r IH]; simpl; [discriminate|].
  destruct (Ascii.eqb_spec x c) as [-> | _]; simpl.
  - intros _. now rewrite Ascii.eqb_refl.
  - intros H. rewrite (IH H). apply orb_true_r.
Qed.

(** A token that schedules a day makes its descriptor look compressed. *)
Lemma scheduling_token_looks_compressed (part name : string) :
  has (RegistrationDashboard.addPart [] part) (VString name) = true ->
  DataTable.looksCompressed part = true.
Proof.
  destruct (includes "-" part) eqn:D.
  - intros _. unfold DataTable.looksCompressed.
    apply existsb_exists. exists "-". split; [simpl; tauto|].
    now apply includes_testCI.
  - intros H. apply (has_addPart_single _ _ D) in H as [H | [-> H]].
    + simpl in H.
      repeat (destruct H as [H | H]; [injection H as <- <-; reflexivity|]).
      contradiction.
    + simpl in H. repeat (destruct H as [<- | H]; [reflexivity|]).
      contradiction.
Qed.

Lemma not_compressed_schedules_nothing (d name : string) :
  DataTable.looksCompressed d = false ->
  has (RegistrationDashboard.scheduledDaysOf d) (VString name) = false.
Proof.
  intros N. apply not_true_is_false. rewrite has_scheduledDaysOf. intros H.
  apply existsb_exists in H as (part & I & H).
  apply scheduling_token_looks_compressed in H.
  unfold DataTable.looksCompressed in *.
  apply existsb_exists in H as (p & Ip & T).
  assert (C : existsb (fun p => testCI p d)
                ["Mon"; "Tue"; "Wed"; "Thu"; "Fri"; "Sat"; "Sun"; "-"] = true).
  { apply existsb_exists. exists p. split; [exact Ip|].
    now apply (testCI_token p d part). }
  congruence.
Qed.

(** ** Selections of days *)

Lemma filter_pick (p : string -> bool) (l : list string) :
  filter p l = pick (map p l) l.
Proof. induction l as [|x l IH]; simpl; [reflexivity|]. now rewrite IH. Qed.

Lemma In_masks (m : list bool) : In m (masks (List.length m)).
Proof.
  induction m as [|b m IH]; simpl; [tauto|].
  apply in_flat_map. exists m. split; [exact IH|]. destruct b; simpl; tauto.
Qed.

Lemma sameList_eq {A} (eqb : A -> A -> bool) (a b : list A) :
  (forall x y, eqb x y = true -> x = y) ->
  sameList eqb a b = true -> a = b.
Proof.
  intros E. revert b. induction a as [|x a IH]; intros [|y b]; simpl;
    try discriminate; [reflexivity|].
  intros H. apply andb_prop in H as [H1 H2].
  now rewrite (E _ _ H1), (IH _ H2).
Qed.

(** Every selection of canonical days, written in canonical form, is left
    as it is by the expansion, and is read back as the same days by the
    matcher and by the selector. *)
Lemma selections_checked :
  forallb
    (fun m =>
       let sub := pick m RegistrationDashboard.fullDaysOfWeek in
       let v := join ", " sub in
       String.eqb (DataTable.normaliseDaysForSelector v) v
       && sameList value_eqb (RegistrationDashboard.scheduledDaysOf v)
                   (map VString sub)
       && sameList value_eqb (DaysOfWeekSelector.selectedDays v)
                   (map VString sub))
    (masks 7) = true.
Proof. vm_compute. reflexivity. Qed.

Lemma canonical_facts (selected : string -> bool) :
  let v := canonical selected in
  let sub := filter selected RegistrationDashboard.fullDaysOfWeek in
  DataTable.normaliseDaysForSelector v = v
  /\ RegistrationDashboard.scheduledDaysOf v = map VString sub
  /\ DaysOfWeekSelector.selectedDays v = map VString sub.
Proof.
  intros v sub. unfold v, canonical. fold sub. unfold sub.
  rewrite filter_pick.
  pose proof (proj1 (forallb_forall _ _) selections_checked
                (map selected RegistrationDashboard.fullDaysOfWeek)
                (In_masks _)) as C.
  cbv zeta in C. apply andb_prop in C as [C C3]. apply andb_prop in C as [C1 C2].
  apply String.eqb_eq in C1.
  apply (sameList_eq _ _ _ value_eqb_eq) in C2.
  apply (sameList_eq _ _ _ value_eqb_eq) in C3.
  auto.
Qed.

Lemma has_strings (l : list string) (name : string) :
  has (map VString l) (VString name) = existsb (String.eqb name) l.
Proof.
  unfold has. induction l as [|x l IH]; simpl; [reflexivity|]. now rewrite IH.
Qed.

Lemma existsb_eqb_In (l : list string) (name : string) :
  existsb (String.eqb name) l = true <-> In name l.
Proof.
  rewrite existsb_exists. split.
  - intros (x & I & E). apply String.eqb_eq in E. now subst.
  - intros I. exists name. split; [exact I|apply String.eqb_refl].
Qed.

Lemma has_selection (selected : string -> bool) (name : string) :
  has (map VString (filter selected RegistrationDashboard.fullDaysOfWeek))
      (VString name)
  = selected name && existsb (String.eqb name) RegistrationDashboard.fullDaysOfWeek.
Proof.
  rewrite has_strings. apply eq_true_iff_eq.
  rewrite andb_true_iff, !existsb_eqb_In, filter_In. tauto.
Qed.

Lemma canonical_ext (f g : string -> bool) :
  (forall d, In d RegistrationDashboard.fullDaysOfWeek -> f d = g d) ->
  canonical f = canonical g.
Proof. intros H. unfold canonical. f_equal. now apply filter_ext_in. Qed.

(** ** The expansion of the data table and the matcher *)

Lemma scheduledDaysOf_trim (d : string) :
  RegistrationDashboard.scheduledDaysOf (trim d)
  = RegistrationDashboard.scheduledDaysOf d.
Proof.
  change (fold_left RegistrationDashboard.addPart (tokens (trim d)) []
          = fold_left RegistrationDashboard.addPart (tokens d) []).
  now rewrite tokens_trim.
Qed.

Lemma trim_empty_truthy (s : string) : trim s = "" -> truthy (trim s) = false.
Proof. now intros ->. Qed.

Lemma normalise_cases (raw : string) :
  DataTable.normaliseDaysForSelector raw
  = if negb (truthy (trim raw)) then ""
    else if negb (DataTable.looksCompressed (trim raw)) then trim raw
    else canonical
           (fun day => has (RegistrationDashboard.scheduledDaysOf raw)
                           (VString day)).
Proof.
  unfold DataTable.normaliseDaysForSelector.
  destruct raw as [|c r]; [reflexivity|]. cbn [truthy negb].
  destruct (negb (truthy (trim (String c r)))); [reflexivity|].
  destruct (negb (DataTable.looksCompressed (trim (String c r))));
    [reflexivity|].
  cbv zeta.
  change (fold_left DataTable.addPart
            (filter truthy (map trim (split "," (trim (String c r))))) [])
    with (RegistrationDashboard.scheduledDaysOf (trim (String c r))).
  now rewrite scheduledDaysOf_trim.
Qed.

(** X1.  Whatever the descriptor, the day names [isShowOnAir] schedules are
    among the seven canonical full names, and [undefined] (the weekday of an
    invalid date) is never scheduled. *)
Theorem X1_scheduled_days_are_canonical (descriptor : string) :
  (forall name,
     has (RegistrationDashboard.scheduledDaysOf descriptor) (VString name) = true ->
     In name RegistrationDashboard.fullDaysOfWeek)
  /\ has (RegistrationDashboard.scheduledDaysOf descriptor) VUndefined = false.
Proof.
  split; [intros name; apply scheduled_names_canonical|].
  apply scheduled_no_undefined.
Qed.

Lemma X1_scheduled_days_are_canonical_witness :
  In "Tuesday" RegistrationDashboard.fullDaysOfWeek.
Proof.
  apply (proj1 (X1_scheduled_days_are_canonical "Mon-Wed, holiday, toString")).
  reflexivity.
Defined.

(** X2.  The order of the tokens of a day descriptor and their repetition
    do not matter: two shows with the same times whose descriptors have the
    same tokens are on air at the same points. *)
Theorem X2_token_order_is_irrelevant (show show' : RadioShow) :
  (forall t, In t (tokens (RegistrationDashboard.formattedDayString show'))
             <-> In t (tokens (RegistrationDashboard.formattedDayString show))) ->
  Start show' = Start show -> End' show' = End' show ->
  forall date,
    RegistrationDashboard.isShowOnAir show' date
    = RegistrationDashboard.isShowOnAir show date.
Proof.
  intros Ht Hs He. apply isShowOnAir_same_days; try assumption.
  intros name. now apply scheduled_tokens_only.
Qed.

Lemma X2_token_order_is_irrelevant_witness :
  RegistrationDashboard.isShowOnAir
    {| Day_s_of_Week := None; Day := Some "Sat,Fri , Sat"; Show := "Night Shift";
       Start := Some "22:00"; End' := Some "02:00" |} (LocalTime 6 1 30)
  = RegistrationDashboard.isShowOnAir
      {| Day_s_of_Week := None; Day := Some "Fri, Sat"; Show := "Night Shift";
         Start := Some "22:00"; End' := Some "02:00" |} (LocalTime 6 1 30).
Proof.
  apply X2_token_order_is_irrelevant; try reflexivity.
  intros t. simpl. tauto.
Defined.

Lemma normalise_twice (raw : string) :
  DataTable.normaliseDaysForSelector (DataTable.normaliseDaysForSelector raw)
  = DataTable.normaliseDaysForSelector raw.
Proof.
  rewrite (normalise_cases raw).
  destruct (truthy (trim raw)) eqn:T; cbn [negb]; [|reflexivity].
  destruct (DataTable.looksCompressed (trim raw)) eqn:C; cbn [negb].
  - apply canonical_facts.
  - rewrite normalise_cases, trim_idem, T, C. reflexivity.
Qed.

(** X3.  [normaliseDaysForSelector] is idempotent: expanding an expanded
    value changes nothing. *)
Theorem X3_normalise_idempotent (raw : string) :
  DataTable.normaliseDaysForSelector (DataTable.normaliseDaysForSelector raw)
  = DataTable.normaliseDaysForSelector raw.
Proof. apply normalise_twice. Qed.

Lemma normalise_outcome (raw : string) :
  DataTable.normaliseDaysForSelector raw
  = canonical (fun day => has (RegistrationDashboard.scheduledDaysOf raw)
                              (VString day))
  \/ (DataTable.normaliseDaysForSelector raw = trim raw
      /\ forall name,
           has (RegistrationDashboard.scheduledDaysOf raw) (VString name) = false).
Proof.
  rewrite (normalise_cases raw).
  destruct (truthy (trim raw)) eqn:T; cbn [negb].
  - destruct (DataTable.looksCompressed (trim raw)) eqn:C; cbn [negb];
      [now left|].
    right. split; [reflexivity|]. intros name.
    rewrite <- scheduledDaysOf_trim. now apply not_compressed_schedules_nothing.
  - right. destruct (trim raw) eqn:E; [|discriminate]. split; [reflexivity|].
    intros name. rewrite <- scheduledDaysOf_trim, E. reflexivity.
Qed.

(** X4.  [normaliseDaysForSelector] returns the canonical names of exactly
    the days the matcher schedules for the same text, in the order Monday to
    Sunday; it returns the (trimmed) text itself only when the matcher
    schedules no day for it. *)
Theorem X4_normalise_lists_the_scheduled_days (raw : string) :
  DataTable.normaliseDaysForSelector raw
  = canonical (fun day => has (RegistrationDashboard.scheduledDaysOf raw)
                              (VString day))
  \/ (DataTable.normaliseDaysForSelector raw = trim raw
      /\ forall name,
           has (RegistrationDashboard.scheduledDaysOf raw) (VString name) = false).
Proof. apply normalise_outcome. Qed.

Lemma In_existsb_full (name : string) :
  In name RegistrationDashboard.fullDaysOfWeek ->
  existsb (String.eqb name) RegistrationDashboard.fullDaysOfWeek = true.
Proof. apply existsb_eqb_In. Qed.

(** The days a canonical selection schedules are the selected ones. *)
Lemma canonical_scheduled (selected : string -> bool) (name : string) :
  has (RegistrationDashboard.scheduledDaysOf (canonical selected)) (VString name)
  = selected name
    && existsb (String.eqb name) RegistrationDashboard.fullDaysOfWeek.
Proof.
  rewrite (proj1 (proj2 (canonical_facts selected))). apply has_selection.
Qed.

Lemma normalise_same_days (raw name : string) :
  has (RegistrationDashboard.scheduledDaysOf
         (DataTable.normaliseDaysForSelector raw)) (VString name)
  = has (RegistrationDashboard.scheduledDaysOf raw) (VString name).
Proof.
  destruct (normalise_outcome raw) as [E | [E N]]; rewrite E.
  - rewrite canonical_scheduled.
    destruct (has (RegistrationDashboard.scheduledDaysOf raw) (VString name))
      eqn:H; [|reflexivity].
    apply scheduled_names_canonical in H. now rewrite In_existsb_full.
  - now rewrite scheduledDaysOf_trim.
Qed.

(** X5.  Replacing the day descriptor of a show by its expansion never
    changes when the show is on air. *)
Theorem X5_normalise_preserves_on_air (show : RadioShow) (d : string) (date : Date) :
  Day show = Some d ->
  RegistrationDashboard.isShowOnAir
    {| Day_s_of_Week := Day_s_of_Week show;
       Day := Some (DataTable.normaliseDaysForSelector d);
       Show := Show show; Start := Start show; End' := End' show |} date
  = RegistrationDashboard.isShowOnAir show date.
Proof.
  intros Hd. apply isShowOnAir_same_days; try reflexivity.
  intros name. unfold RegistrationDashboard.formattedDayString.
  cbn [Day Day_s_of_Week nullish String_]. rewrite Hd. cbn [nullish String_].
  apply normalise_same_days.
Qed.

Lemma X5_normalise_preserves_on_air_witness :
  RegistrationDashboard.isShowOnAir
    {| Day_s_of_Week := None; Day := Some "Friday, Saturday";
       Show := "Night Shift"; Start := Some "22:00"; End' := Some "02:00" |}
    (LocalTime 6 1 30)
  = RegistrationDashboard.isShowOnAir
      {| Day_s_of_Week := None; Day := Some " Fri-Sat,Sat ";
         Show := "Night Shift"; Start := Some "22:00"; End' := Some "02:00" |}
      (LocalTime 6 1 30).
Proof.
  apply (X5_normalise_preserves_on_air
           {| Day_s_of_Week := None; Day := Some " Fri-Sat,Sat ";
              Show := "Night Shift"; Start := Some "22:00";
              End' := Some "02:00" |} " Fri-Sat,Sat ").
  reflexivity.
Defined.

(** ** Saving a row of the TimeSlots sheet *)

Lemma savePayload_same_days (currentRow : RadioShow) (name : string) :
  has (RegistrationDashboard.scheduledDaysOf
         (RegistrationDashboard.formattedDayString
            (ShowEditor.savePayload "TimeSlots" currentRow))) (VString name)
  = has (RegistrationDashboard.scheduledDaysOf
           (RegistrationDashboard.formattedDayString currentRow)) (VString name).
Proof.
  unfold ShowEditor.savePayload, RegistrationDashboard.formattedDayString.
  cbn [String.eqb Ascii.eqb Bool.eqb Day Day_s_of_Week].
  set (rawDay := String_ (nullish (Day currentRow)
                            (nullish (Day_s_of_Week currentRow) (Some "")))).
  destruct (truthy rawDay) eqn:T.
  - cbn [nullish String_]. apply normalise_same_days.
  - destruct rawDay eqn:R; [|discriminate].
    unfold rawDay in R. destruct (Day currentRow); cbn [nullish String_] in *;
      [now rewrite R|reflexivity].
Qed.

(** X6.  The payload [handleSave] builds for a TimeSlots row no longer has
    the compact day field, the show it describes is on air at exactly the
    points the edited row is, and building the payload of a payload changes
    nothing. *)
Theorem X6_saved_row_keeps_its_schedule (currentRow : RadioShow) :
  let payload := ShowEditor.savePayload "TimeSlots" currentRow in
  Day_s_of_Week payload = None
  /\ (forall date,
        RegistrationDashboard.isShowOnAir payload date
        = RegistrationDashboard.isShowOnAir currentRow date)
  /\ ShowEditor.savePayload "TimeSlots" payload = payload.
Proof.
  intros payload. split; [reflexivity|]. split.
  - intros date. apply isShowOnAir_same_days; try reflexivity.
    intros name. apply savePayload_same_days.
  - unfold payload, ShowEditor.savePayload.
    cbn [String.eqb Ascii.eqb Bool.eqb Day Day_s_of_Week Show Start End'].
    set (rawDay := String_ (nullish (Day currentRow)
                              (nullish (Day_s_of_Week currentRow) (Some "")))).
    destruct (truthy rawDay) eqn:T.
    + cbn [nullish String_]. rewrite normalise_twice.
      now destruct (truthy (DataTable.normaliseDaysForSelector rawDay)).
    + destruct rawDay eqn:R; [|discriminate]. unfold rawDay in R.
      destruct (Day currentRow) as [d|]; cbn [nullish String_] in *.
      * subst d. reflexivity.
      * reflexivity.
Qed.

(** ** Shows that follow one another *)

Lemma ge_strictEq_r a b z : strictEq a b = true -> ge z a = ge z b.
Proof.
  unfold strictEq, SFeqb, ge, SFleb. intros H.
  destruct (SFcompare a b) as [[]|] eqn:E; try discriminate.
  now rewrite (SFcompare_Eq_l _ _ z E).
Qed.

(** X7.  Two same-day shows of which one ends at the minute the other
    starts are never on air at the same point, whatever their days. *)
Theorem X7_back_to_back_shows_are_disjoint
    (first next : RadioShow) (s1 e1 s2 e2 : number) (date : Date) :
  RegistrationDashboard.minutesOf (Start first) = Some s1 ->
  RegistrationDashboard.minutesOf (End' first) = Some e1 ->
  RegistrationDashboard.minutesOf (Start next) = Some s2 ->
  RegistrationDashboard.minutesOf (End' next) = Some e2 ->
  lt s1 e1 = true -> lt s2 e2 = true ->
  strictEq e1 s2 = true ->
  RegistrationDashboard.isShowOnAir first date
  && RegistrationDashboard.isShowOnAir next date = false.
Proof.
  intros Hs1 He1 Hs2 He2 L1 L2 E.
  rewrite (isShowOnAir_parsed first date _ _ Hs1 He1).
  rewrite (isShowOnAir_parsed next date _ _ Hs2 He2). cbv zeta.
  rewrite (lt_asym _ _ L1), (lt_asym _ _ L2).
  rewrite <- (ge_strictEq_r _ _ _ E).
  destruct (ge (RegistrationDashboard.currentTime date) e1) eqn:G.
  - rewrite (ge_not_lt _ _ G). now rewrite !andb_false_r.
  - now rewrite !andb_false_r.
Qed.

Lemma X7_back_to_back_shows_are_disjoint_witness :
  RegistrationDashboard.isShowOnAir mondayMorning (LocalTime 1 12 0)
  && RegistrationDashboard.isShowOnAir
       {| Day_s_of_Week := Some "Mon-Fri"; Day := None; Show := "Lunch";
          Start := Some "12:00"; End' := Some "14:00" |} (LocalTime 1 12 0)
  = false.
Proof.
  apply (X7_back_to_back_shows_are_disjoint _ _
           (ofZ 540) (ofZ 720) (ofZ 720) (ofZ 840)); reflexivity.
Defined.

(** ** Rows that cannot match *)

Lemma isShowOnAir_no_descriptor (show : RadioShow) (date : Date) :
  RegistrationDashboard.formattedDayString show = "" ->
  RegistrationDashboard.isShowOnAir show date = false.
Proof. intros H. unfold RegistrationDashboard.isShowOnAir. now rewrite H. Qed.

Lemma find_skip {A} (p : A -> bool) (l1 l2 : list A) (x : A) :
  p x = false -> find p (l1 ++ x :: l2) = find p (l1 ++ l2).
Proof.
  intros H. induction l1 as [|y l1 IH]; simpl; [now rewrite H|].
  now rewrite IH.
Qed.

(** X8.  A schedule row without a day descriptor, or with a start or end
    time that is missing or does not parse, is never the matched show, and
    its presence does not change which show a record is counted for. *)
Theorem X8_unusable_rows_do_not_change_the_match
    (before after : list RadioShow) (row : RadioShow) (date : Date) :
  RegistrationDashboard.formattedDayString row = ""
  \/ RegistrationDashboard.minutesOf (Start row) = None
  \/ RegistrationDashboard.minutesOf (End' row) = None ->
  RegistrationMemo.matchedShow (before ++ row :: after) date
  = RegistrationMemo.matchedShow (before ++ after) date
  /\ RequestMemo.matchedShow (before ++ row :: after) date
     = RequestMemo.matchedShow (before ++ after) date.
Proof.
  intros H.
  assert (F : RegistrationDashboard.isShowOnAir row date = false).
  { destruct H as [H | H]; [now apply isShowOnAir_no_descriptor|].
    now apply isShowOnAir_unparsed. }
  split; apply find_skip; exact F.
Qed.

Lemma X8_unusable_rows_do_not_change_the_match_witness :
  RegistrationMemo.matchedShow
    [ {| Day_s_of_Week := Some "Mon-Sun"; Day := None; Show := "Broken";
         Start := Some "soon"; End' := Some "23:00" |}; mondayMorning ]
    (LocalTime 1 9 30)
  = RegistrationMemo.matchedShow [mondayMorning] (LocalTime 1 9 30).
Proof.
  apply (X8_unusable_rows_do_not_change_the_match [] [mondayMorning]).
  right. left. reflexivity.
Defined.

(** ** The day selector *)

Lemma value_eqb_refl (v : value) : value_eqb v v = true.
Proof. destruct v; simpl; auto using String.eqb_refl. Qed.

Lemma has_fold_setAdd (l s : list value) (v : value) :
  has (fold_left setAdd l s) v = has s v || has l v.
Proof.
  revert s. induction l as [|x l IH]; intros s; simpl.
  - now rewrite orb_false_r.
  - rewrite IH, has_setAdd. now rewrite orb_assoc.
Qed.

Lemma has_setOf (l : list value) (v : value) : has (setOf l) v = has l v.
Proof. unfold setOf. now rewrite has_fold_setAdd. Qed.

Lemma has_setDelete (s : list value) (x v : value) :
  has (setDelete s x) v = has s v && negb (value_eqb x v).
Proof.
  unfold setDelete, has. induction s as [|y s IH]; simpl; [reflexivity|].
  destruct (value_eqb v y) eqn:E.
  - apply value_eqb_eq in E. subst y.
    destruct (value_eqb x v) eqn:F; simpl.
    + rewrite IH. now rewrite andb_false_r.
    + now rewrite value_eqb_refl.
  - destruct (value_eqb x y); simpl; [exact IH|]. now rewrite E.
Qed.

Lemma checked_tokens (value day : string) :
  DaysOfWeekSelector.checked value day
  = existsb (String.eqb day) (tokens value).
Proof.
  unfold DaysOfWeekSelector.checked, DaysOfWeekSelector.selectedDays.
  rewrite has_setOf, has_strings. destruct value; reflexivity.
Qed.

Lemma checked_canonical (selected : string -> bool) (day : string) :
  DaysOfWeekSelector.checked (canonical selected) day
  = selected day
    && existsb (String.eqb day) RegistrationDashboard.fullDaysOfWeek.
Proof.
  unfold DaysOfWeekSelector.checked.
  rewrite (proj2 (proj2 (canonical_facts selected))). apply has_selection.
Qed.


Lemma handleDayChange_canonical (value day : string) :
  DaysOfWeekSelector.handleDayChange value day = canonical (toggled value day).
Proof.
  unfold DaysOfWeekSelector.handleDayChange, canonical. cbv zeta.
  change DaysOfWeekSelector.daysOfWeek with RegistrationDashboard.fullDaysOfWeek.
  f_equal. apply filter_ext. intros d. unfold toggled.
  rewrite has_setOf. fold (DaysOfWeekSelector.checked value day).
  destruct (DaysOfWeekSelector.checked value day) eqn:C.
  - rewrite has_setDelete, has_setOf. fold (DaysOfWeekSelector.checked value d).
    cbn [value_eqb]. rewrite (String.eqb_sym day d).
    destruct (String.eqb_spec d day) as [-> | N]; cbn [negb].
    + now rewrite andb_false_r.
    + now rewrite andb_true_r.
  - rewrite has_setAdd, has_setOf. fold (DaysOfWeekSelector.checked value d).
    cbn [value_eqb].
    destruct (String.eqb_spec d day) as [-> | N]; cbn [negb].
    + now rewrite orb_true_r.
    + now rewrite orb_false_r.
Qed.

Lemma checked_after_click (value day d : string) :
  In d DaysOfWeekSelector.daysOfWeek ->
  DaysOfWeekSelector.checked (DaysOfWeekSelector.handleDayChange value day) d
  = toggled value day d.
Proof.
  intros H. rewrite handleDayChange_canonical, checked_canonical.
  rewrite (In_existsb_full d H). apply andb_true_r.
Qed.

(** X9.  A click on a day in the selector flips that day and leaves the
    other canonical days as they were: in the value handed to [onChange],
    the clicked day is ticked exactly when it was not, and any other
    canonical day exactly when it was. *)
Theorem X9_click_flips_one_day (value day d : string) :
  In d DaysOfWeekSelector.daysOfWeek ->
  DaysOfWeekSelector.checked (DaysOfWeekSelector.handleDayChange value day) d
  = if String.eqb d day then negb (DaysOfWeekSelector.checked value day)
    else DaysOfWeekSelector.checked value d.
Proof. apply checked_after_click. Qed.

Lemma X9_click_flips_one_day_witness :
  DaysOfWeekSelector.checked
    (DaysOfWeekSelector.handleDayChange "Monday, Friday" "Friday") "Friday"
  = false.
Proof.
  rewrite (X9_click_flips_one_day "Monday, Friday" "Friday" "Friday");
    [reflexivity|simpl; tauto].
Defined.

Lemma click_twice (value day : string) :
  DaysOfWeekSelector.handleDayChange
    (DaysOfWeekSelector.handleDayChange value day) day
  = canonical (DaysOfWeekSelector.checked value).
Proof.
  rewrite (handleDayChange_canonical (DaysOfWeekSelector.handleDayChange _ _)).
  apply canonical_ext. intros d Hd. unfold toggled at 1.
  destruct (String.eqb_spec d day) as [<- | N].
  - rewrite (checked_after_click value d d Hd). unfold toggled.
    rewrite String.eqb_refl. apply negb_involutive.
  - rewrite (checked_after_click value day d Hd). unfold toggled.
    destruct (String.eqb_spec d day); [contradiction|reflexivity].
Qed.

(** X10.  Clicking the same day twice gives the canonical form of the
    value the selector started from (its canonical days, in the order Monday
    to Sunday); a value that is already in canonical form comes back
    unchanged. *)
Theorem X10_click_twice_restores (value day : string) :
  DaysOfWeekSelector.handleDayChange
    (DaysOfWeekSelector.handleDayChange value day) day
  = canonical (DaysOfWeekSelector.checked value)
  /\ forall selected,
       DaysOfWeekSelector.handleDayChange
         (DaysOfWeekSelector.handleDayChange (canonical selected) day) day
       = canonical selected.
Proof.
  split; [apply click_twice|]. intros selected. rewrite click_twice.
  apply canonical_ext. intros d Hd. rewrite checked_canonical.
  rewrite (In_existsb_full d Hd). apply andb_true_r.
Qed.

(** ** The selector inside the editor *)

Lemma full_name_schedules_itself (d : string) :
  In d RegistrationDashboard.fullDaysOfWeek ->
  has (RegistrationDashboard.addPart [] d) (VString d) = true.
Proof.
  intros H. assert (D : includes "-" d = false).
  { simpl in H. repeat (destruct H as [<- | H]; [reflexivity|]). contradiction. }
  apply (has_addPart_single d d D). right. now split.
Qed.

Lemma selector_reads_schedule (raw d : string) :
  In d DaysOfWeekSelector.daysOfWeek ->
  DaysOfWeekSelector.checked (DataTable.normaliseDaysForSelector raw) d
  = has (RegistrationDashboard.scheduledDaysOf raw) (VString d).
Proof.
  intros Hd. destruct (normalise_outcome raw) as [E | [E N]]; rewrite E.
  - rewrite checked_canonical, (In_existsb_full d Hd). apply andb_true_r.
  - rewrite N, checked_tokens, tokens_trim.
    apply not_true_is_false. intros H. apply existsb_eqb_In in H.
    specialize (N d). rewrite has_scheduledDaysOf in N.
    assert (T : existsb
                  (fun part => has (RegistrationDashboard.addPart [] part)
                                   (VString d)) (tokens raw) = true).
    { apply existsb_exists. exists d. split; [exact H|].
      now apply full_name_schedules_itself. }
    congruence.
Qed.

(** X11.  The value the selector hands to [onChange] is a fixed point of
    [normaliseDaysForSelector]: the editor shows it again as it is, and the
    payload saved for a TimeSlots row carries it unchanged. *)
Theorem X11_selector_value_is_stable (value day : string) (currentRow : RadioShow) :
  let chosen := DaysOfWeekSelector.handleDayChange value day in
  let edited := ShowEditor.handleModalInputChange chosen currentRow in
  DataTable.normaliseDaysForSelector chosen = chosen
  /\ ShowEditor.selectorValue edited = chosen
  /\ Day (ShowEditor.savePayload "TimeSlots" edited) = Some chosen.
Proof.
  intros chosen edited.
  assert (N : DataTable.normaliseDaysForSelector chosen = chosen).
  { unfold chosen. rewrite handleDayChange_canonical. apply canonical_facts. }
  split; [exact N|]. split.
  - unfold ShowEditor.selectorValue, edited, ShowEditor.handleModalInputChange.
    cbn [Day Day_s_of_Week nullish String_]. exact N.
  - unfold ShowEditor.savePayload, edited, ShowEditor.handleModalInputChange.
    cbn [String.eqb Ascii.eqb Bool.eqb Day Day_s_of_Week nullish String_].
    rewrite N. now destruct (truthy chosen).
Qed.

(** X12.  The editor ticks exactly the days on which the matcher schedules
    the show: for each of the seven days, the checkbox of a row is checked
    if and only if [isShowOnAir] has that day in the scheduled days of the
    row. *)
Theorem X12_selector_shows_the_schedule (currentRow : RadioShow) (d : string) :
  In d DaysOfWeekSelector.daysOfWeek ->
  DaysOfWeekSelector.checked (ShowEditor.selectorValue currentRow) d
  = has (RegistrationDashboard.scheduledDaysOf
           (RegistrationDashboard.formattedDayString currentRow)) (VString d).
Proof. intros H. now apply selector_reads_schedule. Qed.

Lemma X12_selector_shows_the_schedule_witness :
  DaysOfWeekSelector.checked (ShowEditor.selectorValue fridayNight) "Saturday"
  = true.
Proof.
  rewrite (X12_selector_shows_the_schedule fridayNight "Saturday");
    [reflexivity|simpl; tauto].
Defined.

(** X13.  Clicking a day in the editor of a TimeSlots row and saving gives
    a row that schedules the clicked day exactly when the original row did
    not, and every other day exactly when the original row did. *)
Theorem X13_edit_and_save_flips_one_day (currentRow : RadioShow) (day d : string) :
  In d DaysOfWeekSelector.daysOfWeek ->
  let chosen :=
    DaysOfWeekSelector.handleDayChange (ShowEditor.selectorValue currentRow) day in
  let saved :=
    ShowEditor.savePayload "TimeSlots"
      (ShowEditor.handleModalInputChange chosen currentRow) in
  let before :=
    RegistrationDashboard.scheduledDaysOf
      (RegistrationDashboard.formattedDayString currentRow) in
  has (RegistrationDashboard.scheduledDaysOf
         (RegistrationDashboard.formattedDayString saved)) (VString d)
  = if String.eqb d day then negb (has before (VString d))
    else has before (VString d).
Proof.
  intros Hd chosen saved before.
  assert (F : RegistrationDashboard.formattedDayString saved = chosen).
  { unfold saved, RegistrationDashboard.formattedDayString,
      ShowEditor.savePayload, ShowEditor.handleModalInputChange.
    cbn [String.eqb Ascii.eqb Bool.eqb Day Day_s_of_Week nullish String_].
    assert (N : DataTable.normaliseDaysForSelector chosen = chosen)
      by (unfold chosen; rewrite handleDayChange_canonical;
          apply canonical_facts).
    rewrite N. now destruct (truthy chosen). }
  rewrite F. unfold chosen. rewrite handleDayChange_canonical.
  rewrite canonical_scheduled, (In_existsb_full d Hd), andb_true_r.
  unfold toggled, before.
  destruct (String.eqb_spec d day) as [<- | N].
  - f_equal. now apply selector_reads_schedule.
  - now apply selector_reads_schedule.
Qed.

Lemma X13_edit_and_save_flips_one_day_witness :
  has (RegistrationDashboard.scheduledDaysOf
         (RegistrationDashboard.formattedDayString
            (ShowEditor.savePayload "TimeSlots"
               (ShowEditor.handleModalInputChange
                  (DaysOfWeekSelector.handleDayChange
                     (ShowEditor.selectorValue fridayNight) "Sunday")
                  fridayNight)))) (VString "Sunday")
  = true.
Proof.
  rewrite (X13_edit_and_save_flips_one_day fridayNight "Sunday" "Sunday");
    [reflexivity|simpl; tauto].
Defined.

(** ** The row filters of the data table *)

Import DataTableFilter.

Lemma passes_idle (row : Row) (key value : string) :
  value = "" \/ value = "all" -> passes row (key, value) = true.
Proof. intros [-> | ->]; reflexivity. Qed.

Lemma forallb_passes_idle (row : Row) (filterValues : FilterValues) :
  (forall key value, In (key, value) filterValues -> value = "" \/ value = "all") ->
  forallb (passes row) filterValues = true.
Proof.
  intros H. apply forallb_forall. intros [key value] I.
  apply passes_idle. now apply (H key).
Qed.

Lemma filter_all {A} (p : A -> bool) (l : list A) :
  (forall x, p x = true) -> filter p l = l.
Proof.
  intros H. induction l as [|x l IH]; simpl; [reflexivity|].
  now rewrite H, IH.
Qed.

(** X14.  Filters that are empty or set to "all" exclude no row: the table
    shows all the data. *)
Theorem X14_idle_filters_show_everything
    (data : list Row) (filterValues : FilterValues) :
  (forall key value, In (key, value) filterValues -> value = "" \/ value = "all") ->
  filteredData data filterValues = data.
Proof.
  intros H. unfold filteredData.
  destruct (negb (existsb truthy (map snd filterValues))); [reflexivity|].
  apply filter_all. intros row. now apply forallb_passes_idle.
Qed.

Lemma X14_idle_filters_show_everything_witness :
  filteredData [fun _ => Nullish; fun _ => Text "Paarl"]
               [("Area", ""); ("Email", "all")]
  = [fun _ => Nullish; fun _ => Text "Paarl"].
Proof.
  apply X14_idle_filters_show_everything.
  intros key value [H | [H | []]]; injection H as _ <-; auto.
Defined.

Lemma filter_length_split {A} (p q : A -> bool) (l : list A) :
  (forall x, p x = negb (q x)) ->
  (List.length (filter p l) + List.length (filter q l) = List.length l)%nat.
Proof.
  intros H. induction l as [|x l IH]; simpl; [reflexivity|].
  rewrite H. destruct (q x); simpl; lia.
Qed.

(** X15.  The filters "has_value" and "no_value" of a column split the
    rows in two: every row passes exactly one of them, so the two filtered
    tables together have as many rows as the data. *)
Theorem X15_has_value_and_no_value_split_the_rows
    (data : list Row) (column : string) :
  (forall row,
     passes row (column, "has_value") = negb (passes row (column, "no_value")))
  /\ (List.length (filteredData data [(column, "has_value")])
      + List.length (filteredData data [(column, "no_value")])
      = List.length data)%nat.
Proof.
  assert (P : forall row,
             passes row (column, "has_value")
             = negb (passes row (column, "no_value"))).
  { intros row. cbn. destruct (row column); [reflexivity|].
    now rewrite negb_involutive || reflexivity. }
  split; [exact P|].
  unfold filteredData. cbn [map snd existsb truthy orb negb forallb].
  apply filter_length_split. intros row. rewrite !andb_true_r. apply P.
Qed.

Lemma forallb_app' {A} (p : A -> bool) (l1 l2 : list A) :
  forallb p (l1 ++ l2) = forallb p l1 && forallb p l2.
Proof. induction l1; simpl; [reflexivity|]. now rewrite IHl1, andb_assoc. Qed.

Lemma filter_filter {A} (p q : A -> bool) (l : list A) :
  filter q (filter p l) = filter (fun x => p x && q x) l.
Proof.
  induction l as [|x l IH]; simpl; [reflexivity|].
  destruct (p x); simpl; [|exact IH]. destruct (q x); now rewrite IH.
Qed.

Lemma inactive_passes (row : Row) (filterValues : FilterValues) :
  existsb truthy (map snd filterValues) = false ->
  forallb (passes row) filterValues = true.
Proof.
  intros H. apply forallb_forall. intros [key value] I.
  assert (T : truthy value = false).
  { apply not_true_is_false. intros T.
    assert (E : existsb truthy (map snd filterValues) = true).
    { apply existsb_exists. exists value. split; [|exact T].
      apply in_map_iff. now exists (key, value). }
    congruence. }
  cbn. now rewrite T.
Qed.

(** X16.  Filters combine: filtering by two sets of filter values at once
    is filtering by the first and then by the second. *)
Theorem X16_filters_compose (data : list Row) (first second : FilterValues) :
  filteredData data (first ++ second)%list
  = filteredData (filteredData data first) second.
Proof.
  unfold filteredData. rewrite map_app, existsb_app.
  destruct (existsb truthy (map snd first)) eqn:A;
    destruct (existsb truthy (map snd second)) eqn:B; cbn [orb negb].
  - rewrite filter_filter. apply filter_ext. intros row. apply forallb_app'.
  - apply filter_ext. intros row.
    now rewrite forallb_app', (inactive_passes row second B), andb_true_r.
  - apply filter_ext. intros row.
    now rewrite forallb_app', (inactive_passes row first A).
  - reflexivity.
Qed.

(** ** The timestamp of a record *)

Lemma includes_app (c : ascii) (a b : string) :
  includes c (a ++ b) = includes c a || includes c b.
Proof.
  induction a as [|x a IH]; simpl; [reflexivity|]. now rewrite IH, orb_assoc.
Qed.

Lemma includes_hit (c : ascii) (a b : string) :
  includes c (a ++ String c b) = true.
Proof.
  rewrite includes_app. simpl. rewrite Ascii.eqb_refl. apply orb_true_r.
Qed.

(** Before its first separator a string is split as its prefix. *)
Lemma split_prefix (c : ascii) (t z : string) :
  includes c t = false ->
  split c (t ++ z)
  = match split c z with
    | h :: r => (t ++ h) :: r
    | [] => [t]
    end.
Proof.
  intros H. induction t as [|x t IH]; simpl.
  - now destruct (split_inv c z) as (h & r & ->).
  - simpl in H. apply orb_false_elim in H as [Hx Ht].
    rewrite Hx, (IH Ht). now destruct (split c z).
Qed.

Lemma slice0_app (t z : string) :
  slice0 (String.length t) (t ++ z) = t.
Proof. induction t as [|x t IH]; simpl; [now destruct z|]. now rewrite IH. Qed.

Lemma slice0_short (n : nat) (t : string) :
  (String.length t <= n)%nat -> slice0 n t = t.
Proof.
  revert n. induction t as [|x t IH]; intros [|n] H; simpl in *;
    try reflexivity; try lia.
  rewrite IH; [reflexivity|lia].
Qed.

Lemma truthy_app_hit (a b : string) (c : ascii) : truthy (a ++ String c b) = true.
Proof. now destruct a. Qed.

(** The date part: a plain date is kept, an ISO value loses its time. *)
Lemma datePart_plain (d : string) :
  includes "T" d = false ->
  (if includes "T" d
   then match split "T" d with h :: _ => h | [] => "undefined" end
   else d) = d.
Proof. now intros ->. Qed.

Lemma datePart_iso (d x : string) :
  includes "T" d = false ->
  (if includes "T" (d ++ String "T" x)
   then match split "T" (d ++ String "T" x) with
        | h :: _ => h
        | [] => "undefined"
        end
   else d ++ String "T" x) = d.
Proof. intros H. now rewrite includes_hit, (split_app _ _ _ H). Qed.

(** The time read after the first [T] of a time value. *)
Lemma timePart_after_T (y w : string) :
  includes "T" y = false ->
  option_map (slice0 8) (nth_error (split "T" (y ++ String "T" w)) 1)
  = Some (slice0 8 (match split "T" w with h :: _ => h | [] => "" end)).
Proof.
  intros H. rewrite (split_app _ _ _ H). simpl.
  now destruct (split_inv "T" w) as (h & r & ->).
Qed.

(** X17.  The request analytics build the same timestamp from plain and
    from ISO-like cells: for a date [d] and a time [t] of eight characters
    the timestamp is [d], a [T] and [t], both when the cells hold [d] and
    [t] themselves and when the date cell holds [d] followed by a [T] and
    more, and the time cell holds [t] after its first [T], followed by a
    fraction or a zone. *)
Theorem X17_request_timestamp_plain_and_iso
    (plain iso : SongRequest.t) (d t x y z : string) :
  truthy d = true -> includes "T" d = false ->
  String.length t = 8%nat -> includes "T" t = false -> includes " " t = false ->
  includes "T" y = false ->
  SongRequest.Date plain = Some d -> SongRequest.Time plain = Some t ->
  SongRequest.Date iso = Some (d ++ "T" ++ x) ->
  SongRequest.Time iso = Some (y ++ "T" ++ t ++ z) ->
  RequestTimestamp.reqDateString plain = Some (d ++ "T" ++ t)
  /\ RequestTimestamp.reqDateString iso = Some (d ++ "T" ++ t).
Proof.
  intros Td Hd Lt Ht Hs Hy Dp Tp Di Ti.
  unfold RequestTimestamp.reqDateString. split.
  - rewrite Dp, Tp. cbn [truthyField String_]. rewrite Td.
    assert (Tt : truthy t = true) by (destruct t; [discriminate|reflexivity]).
    rewrite Tt. cbn [negb orb]. rewrite Hd, Ht.
    rewrite (split_absent _ _ Hs). cbn [option_map].
    rewrite (slice0_short 8 t); [reflexivity|lia].
  - rewrite Di, Ti. cbn [truthyField String_].
    change (d ++ "T" ++ x) with (d ++ String "T" x).
    change (y ++ "T" ++ t ++ z) with (y ++ String "T" (t ++ z)).
    rewrite !truthy_app_hit. cbn [negb orb].
    rewrite (datePart_iso d x Hd), includes_hit, (timePart_after_T _ _ Hy).
    rewrite (split_prefix _ t z Ht).
    destruct (split_inv "T" z) as (h & r & ->). cbn [option_map].
    rewrite <- Lt at 1. now rewrite slice0_app.
Qed.

Lemma X17_request_timestamp_plain_and_iso_witness :
  RequestTimestamp.reqDateString
    {| SongRequest.Date := Some "2025-11-16T00:00:00.000Z";
       SongRequest.Time := Some "1970-01-01T14:30:00.000Z";
       SongRequest.Song_requested := None; SongRequest.Dedication_to := None;
       SongRequest.Occasion := None |}
  = Some "2025-11-16T14:30:00".
Proof.
  apply (X17_request_timestamp_plain_and_iso
           {| SongRequest.Date := Some "2025-11-16";
              SongRequest.Time := Some "14:30:00";
              SongRequest.Song_requested := None;
              SongRequest.Dedication_to := None;
              SongRequest.Occasion := None |}
           _ "2025-11-16" "14:30:00" "00:00:00.000Z" "1970-01-01" ".000Z");
    reflexivity.
Defined.

Lemma regDateString_parts (reg : Registration.t) (d : string) :
  truthy d = true -> includes "T" d = false ->
  forall x,
    Registration.Registration_Date reg = Some d
    \/ Registration.Registration_Date reg = Some (d ++ "T" ++ x) ->
    RegistrationTimestamp.regDateString reg
    = Some (d ++ "T" ++
            if truthyField (Registration.Registration_Time reg)
            then slice0 8
                   (match split " " (String_ (Registration.Registration_Time reg))
                    with h :: _ => h | [] => "" end)
            else "00:00:00").
Proof.
  intros Td Hd x [E | E]; unfold RegistrationTimestamp.regDateString;
    rewrite E; cbn [truthyField String_].
  - now rewrite Td, Hd.
  - change (d ++ "T" ++ x) with (d ++ String "T" x).
    now rewrite truthy_app_hit, (datePart_iso d x Hd).
Qed.

(** X18.  The registration analytics timestamp a registration at midnight
    when its time cell is missing or empty, and otherwise with the time cell
    up to its first space, cut to eight characters; the date cell may be
    plain or ISO-like. *)
Theorem X18_registration_timestamp
    (reg : Registration.t) (d x t rest : string) :
  truthy d = true -> includes "T" d = false ->
  Registration.Registration_Date reg = Some d
  \/ Registration.Registration_Date reg = Some (d ++ "T" ++ x) ->
  (Registration.Registration_Time reg = None
   \/ Registration.Registration_Time reg = Some "" ->
   RegistrationTimestamp.regDateString reg = Some (d ++ "T00:00:00"))
  /\ (truthy t = true -> includes " " t = false -> (String.length t <= 8)%nat ->
      Registration.Registration_Time reg = Some t
      \/ Registration.Registration_Time reg = Some (t ++ " " ++ rest) ->
      RegistrationTimestamp.regDateString reg = Some (d ++ "T" ++ t)).
Proof.
  intros Td Hd E. rewrite (regDateString_parts reg d Td Hd x E). split.
  - intros [-> | ->]; reflexivity.
  - intros Tt Hs Lt [-> | ->]; cbn [truthyField String_].
    + rewrite Tt, (split_absent _ _ Hs). now rewrite (slice0_short 8 t Lt).
    + change (t ++ " " ++ rest) with (t ++ String " " rest).
      rewrite truthy_app_hit, (split_app _ _ _ Hs).
      now rewrite (slice0_short 8 t Lt).
Qed.

Lemma X18_registration_timestamp_witness :
  RegistrationTimestamp.regDateString
    {| Registration.Registration_Date := Some "2025-11-16T00:00:00.000Z";
       Registration.Registration_Time := Some "14:30:00 GMT+2";
       Registration.Area := None; Registration.ReferredByCode := None |}
  = Some "2025-11-16T14:30:00".
Proof.
  apply (X18_registration_timestamp _ "2025-11-16" "00:00:00.000Z"
           "14:30:00" "GMT+2"); try reflexivity; try (simpl; lia);
    right; reflexivity.
Defined.

(** X19.  The request analytics read the time of a request after the first
    [T] of the time cell, also when that [T] belongs to a zone name: a cell
    such as "14:30:00 GMT+2" is timestamped with "+2", the text after
    "GMT", and not with its time.  The registration analytics timestamp the
    same cell with the time. *)
Theorem X19_zone_names_hide_the_time
    (req : SongRequest.t) (reg : Registration.t) (d t zone : string) :
  truthy d = true -> includes "T" d = false ->
  truthy t = true -> includes "T" t = false -> includes " " t = false ->
  (String.length t <= 8)%nat ->
  includes "T" zone = false ->
  SongRequest.Date req = Some d ->
  SongRequest.Time req = Some (t ++ " GMT" ++ zone) ->
  Registration.Registration_Date reg = Some d ->
  Registration.Registration_Time reg = Some (t ++ " GMT" ++ zone) ->
  RequestTimestamp.reqDateString req = Some (d ++ "T" ++ slice0 8 zone)
  /\ RegistrationTimestamp.regDateString reg = Some (d ++ "T" ++ t).
Proof.
  intros Td Hd Tt Ht Hs Lt Hz Dq Tq Dr Tr. split.
  - assert (Y : includes "T" (t ++ " GM") = false)
      by (rewrite includes_app, Ht; reflexivity).
    assert (E : t ++ " GMT" ++ zone = (t ++ " GM") ++ String "T" zone).
    { clear. induction t as [|c t IH]; [reflexivity|].
      change (String c (t ++ " GMT" ++ zone)
              = String c ((t ++ " GM") ++ String "T" zone)).
      now rewrite IH. }
    rewrite E in Tq.
    unfold RequestTimestamp.reqDateString. rewrite Dq, Tq.
    cbn [truthyField String_].
    rewrite Td, truthy_app_hit, includes_hit, Hd. cbn [negb orb].
    rewrite (timePart_after_T _ _ Y), (split_absent _ _ Hz). reflexivity.
  - rewrite (regDateString_parts reg d Td Hd "" (or_introl Dr)), Tr.
    cbn [truthyField String_].
    change (t ++ " GMT" ++ zone) with (t ++ String " " ("GMT" ++ zone)).
    rewrite truthy_app_hit, (split_app _ _ _ Hs).
    now rewrite (slice0_short 8 t Lt).
Qed.

Lemma X19_zone_names_hide_the_time_witness :
  RequestTimestamp.reqDateString
    {| SongRequest.Date := Some "2025-11-16";
       SongRequest.Time := Some "14:30:00 GMT+2";
       SongRequest.Song_requested := None; SongRequest.Dedication_to := None;
       SongRequest.Occasion := None |}
  = Some "2025-11-16T+2".
Proof.
  apply (X19_zone_names_hide_the_time _
           {| Registration.Registration_Date := Some "2025-11-16";
              Registration.Registration_Time := Some "14:30:00 GMT+2";
              Registration.Area := None; Registration.ReferredByCode := None |}
           "2025-11-16" "14:30:00" "+2"); try reflexivity; simpl; lia.
Defined.

(** X20.  The two analytics build the same timestamp for the same date and
    time cells whenever both cells are filled and the time cell has no
    [T]. *)
Theorem X20_timestamps_agree_without_T
    (req : SongRequest.t) (reg : Registration.t) (date time : string) :
  truthy date = true -> truthy time = true -> includes "T" time = false ->
  SongRequest.Date req = Some date -> SongRequest.Time req = Some time ->
  Registration.Registration_Date reg = Some date ->
  Registration.Registration_Time reg = Some time ->
  RequestTimestamp.reqDateString req = RegistrationTimestamp.regDateString reg.
Proof.
  intros Td Tt Ht Dq Tq Dr Tr.
  unfold RequestTimestamp.reqDateString, RegistrationTimestamp.regDateString.
  rewrite Dq, Tq, Dr, Tr. cbn [truthyField String_].
  rewrite Td, Tt, Ht. reflexivity.
Qed.

Lemma X20_timestamps_agree_without_T_witness :
  RequestTimestamp.reqDateString
    {| SongRequest.Date := Some "2025-11-16T00:00:00.000Z";
       SongRequest.Time := Some "09:05:00 AM";
       SongRequest.Song_requested := None; SongRequest.Dedication_to := None;
       SongRequest.Occasion := None |}
  = RegistrationTimestamp.regDateString
      {| Registration.Registration_Date := Some "2025-11-16T00:00:00.000Z";
         Registration.Registration_Time := Some "09:05:00 AM";
         Registration.Area := None; Registration.ReferredByCode := None |}.
Proof.
  apply (X20_timestamps_agree_without_T _ _ "2025-11-16T00:00:00.000Z"
           "09:05:00 AM"); reflexivity.
Defined.

(** ** Request priorities *)

Lemma count_by_priority (req : SongRequest.t) (acc : Priorities) :
  RequestPriorities.count acc req
  = {| high := high acc + countWith High [req];
       medium := medium acc + countWith Medium [req];
       low := low acc + countWith Low [req] |}.
Proof.
  unfold RequestPriorities.count, countWith, RequestsView.getPriority.
  cbv zeta. cbn [filter].
  destruct (includesStr "birthday" _ || includesStr "anniversary" _).
  - cbn. now rewrite !Z.add_0_r.
  - destruct (trimmedTruthy _); cbn; now rewrite !Z.add_0_r.
Qed.

Lemma countWith_cons (p : Priority) (req : SongRequest.t)
    (requests : list SongRequest.t) :
  countWith p (req :: requests) = countWith p [req] + countWith p requests.
Proof.
  unfold countWith. cbn [filter].
  destruct (isPriority _ p); cbn [List.length]; lia.
Qed.

Lemma priorities_from (requests : list SongRequest.t) (acc : Priorities) :
  fold_left RequestPriorities.count requests acc
  = {| high := high acc + countWith High requests;
       medium := medium acc + countWith Medium requests;
       low := low acc + countWith Low requests |}.
Proof.
  revert acc. induction requests as [|req requests IH]; intros acc.
  - destruct acc. cbn. now rewrite !Z.add_0_r.
  - cbn [fold_left]. rewrite IH, count_by_priority. cbn [high medium low].
    rewrite (countWith_cons High req requests),
      (countWith_cons Medium req requests), (countWith_cons Low req requests).
    f_equal; lia.
Qed.

Lemma countWith_total (requests : list SongRequest.t) :
  countWith High requests + countWith Medium requests + countWith Low requests
  = RequestPriorities.total requests.
Proof.
  unfold RequestPriorities.total.
  induction requests as [|req requests IH]; [reflexivity|].
  rewrite (countWith_cons High req requests),
    (countWith_cons Medium req requests), (countWith_cons Low req requests).
  cbn [List.length]. rewrite Nat2Z.inj_succ.
  assert (countWith High [req] + countWith Medium [req] + countWith Low [req] = 1).
  { unfold countWith. cbn [filter].
    destruct (RequestsView.getPriority req); reflexivity. }
  lia.
Qed.

(** X21.  Every request is counted once: the high, medium and low counters
    of the request analytics add up to the total number of requests. *)
Theorem X21_priorities_add_up (requests : list SongRequest.t) :
  let p := RequestPriorities.priorities requests in
  high p + medium p + low p = RequestPriorities.total requests.
Proof.
  intros p. unfold p, RequestPriorities.priorities.
  rewrite priorities_from. cbn [high medium low]. rewrite <- countWith_total. lia.
Qed.

(** X22.  The three places that rank requests agree: the counters of the
    request analytics and of the overview are the numbers of requests that
    [getPriority] of the requests view ranks High, Medium and Low. *)
Theorem X22_priority_counts_agree (requests : list SongRequest.t) :
  RequestPriorities.priorities requests
  = {| high := countWith High requests; medium := countWith Medium requests;
       low := countWith Low requests |}
  /\ Overview.priorities requests = RequestPriorities.priorities requests.
Proof.
  split; [|reflexivity].
  unfold RequestPriorities.priorities. now rewrite priorities_from.
Qed.

(** ** Letter case *)

Lemma In_allChars (c : ascii) : In c allChars.
Proof.
  unfold allChars. apply in_map_iff. exists (nat_of_ascii c).
  split; [apply ascii_nat_embedding|].
  apply in_seq. pose proof (nat_ascii_bounded c). lia.
Qed.

(** A letter a-z equals the lower case of a character exactly when the two
    are the same letter up to case. *)
Lemma lowerChar_checked :
  forallb
    (fun a =>
       forallb
         (fun b =>
            implb ((97 <=? code a) && (code a <=? 122))
                  (Bool.eqb (Ascii.eqb a (lowerChar b))
                            (Ascii.eqb (lower a) (lower b))))
         allChars)
    allChars = true.
Proof. vm_compute. reflexivity. Qed.

Lemma lowerChar_letter (a b : ascii) :
  (97 <=? code a) && (code a <=? 122) = true ->
  Ascii.eqb a (lowerChar b) = Ascii.eqb (lower a) (lower b).
Proof.
  intros H.
  pose proof (proj1 (forallb_forall _ _) lowerChar_checked a (In_allChars a)) as C.
  pose proof (proj1 (forallb_forall _ _) C b (In_allChars b)) as D.
  cbv beta in D. rewrite H in D. now apply Bool.eqb_prop in D.
Qed.

Lemma startsWith_lower (p s : string) :
  lowerLetters p = true -> startsWith p (toLowerCase s) = prefixCI p s.
Proof.
  revert s. induction p as [|a p IH]; intros s H; [now destruct s|].
  cbn [lowerLetters] in H. apply andb_prop in H as [Ha Hp].
  destruct s as [|b s]; [reflexivity|].
  cbn [toLowerCase startsWith prefixCI].
  now rewrite (lowerChar_letter a b Ha), (IH s Hp).
Qed.

Lemma includesStr_lower (p s : string) :
  lowerLetters p = true -> includesStr p (toLowerCase s) = testCI p s.
Proof.
  intros H. induction s as [|b s IH].
  - pose proof (startsWith_lower p "" H) as E.
    cbn [toLowerCase includesStr testCI] in *. now rewrite E.
  - pose proof (startsWith_lower p (String b s) H) as E.
    cbn [toLowerCase includesStr testCI] in *. now rewrite IH, E.
Qed.

(** X23.  A request is ranked High exactly when its occasion mentions
    "birthday" or "anniversary", in any letter case and whatever the
    dedication; a missing occasion is never High. *)
Theorem X23_high_priority_ignores_case (req : SongRequest.t) :
  RequestsView.getPriority req = High
  <-> exists occasion,
        SongRequest.Occasion req = Some occasion
        /\ (testCI "birthday" occasion = true
            \/ testCI "anniversary" occasion = true).
Proof.
  unfold RequestsView.getPriority. cbv zeta.
  destruct (SongRequest.Occasion req) as [o|]; cbn [lowerOrEmpty].
  - rewrite !includesStr_lower by reflexivity.
    destruct (testCI "birthday" o) eqn:B; cbn [orb].
    + split; [eauto|reflexivity].
    + destruct (testCI "anniversary" o) eqn:A.
      * split; [eauto|reflexivity].
      * split.
        -- destruct (trimmedTruthy _); discriminate.
        -- intros (o' & E & [F | F]); injection E as <-; congruence.
  - cbn. split.
    + destruct (trimmedTruthy _); discriminate.
    + intros (o & E & _). discriminate.
Qed.

Lemma X23_high_priority_ignores_case_witness :
  RequestsView.getPriority
    {| SongRequest.Date := None; SongRequest.Time := None;
       SongRequest.Song_requested := None; SongRequest.Dedication_to := None;
       SongRequest.Occasion := Some "Her 60th BIRTHDAY" |}
  = High.
Proof.
  apply X23_high_priority_ignores_case.
  exists "Her 60th BIRTHDAY". split; [reflexivity|]. left. reflexivity.
Defined.

(** ** Maps *)

Lemma mapGet_notin {V} (m : list (string * V)) k : ~ In k (map fst m) -> mapGet m k = None.
Proof.
  induction m as [|[k' v'] m IH]; simpl; [reflexivity|]. intros H.
  destruct (String.eqb_spec k' k); [tauto|]. apply IH. tauto.
Qed.

Lemma mapGet_mapSet_same {V} (m : list (string * V)) k v : mapGet (mapSet m k v) k = Some v.
Proof.
  induction m as [|[k' v'] m IH]; simpl.
  - now rewrite String.eqb_refl.
  - destruct (String.eqb_spec k' k) as [-> | N]; simpl.
    + now rewrite String.eqb_refl.
    + destruct (String.eqb_spec k' k); [contradiction|exact IH].
Qed.

Lemma mapGet_mapSet_other {V} (m : list (string * V)) k k' v :
  k' <> k -> mapGet (mapSet m k v) k' = mapGet m k'.
Proof.
  intros N. induction m as [|[k0 v0] m IH]; simpl.
  - destruct (String.eqb_spec k k'); [congruence|reflexivity].
  - destruct (String.eqb_spec k0 k) as [-> | N0]; simpl.
    + destruct (String.eqb_spec k k'); [congruence|reflexivity].
    + now rewrite IH.
Qed.

Lemma keys_mapSet {V} (m : list (string * V)) k v :
  forall x, In x (map fst (mapSet m k v)) <-> x = k \/ In x (map fst m).
Proof.
  induction m as [|[k0 v0] m IH]; intros x; simpl; [intuition|].
  destruct (String.eqb_spec k0 k) as [-> | N]; simpl; [intuition|].
  rewrite IH. intuition.
Qed.

Lemma NoDup_mapSet {V} (m : list (string * V)) k v : NoDup (map fst m) -> NoDup (map fst (mapSet m k v)).
Proof.
  induction m as [|[k0 v0] m IH]; simpl; intros H.
  - constructor; [intros []|constructor].
  - inversion H as [|? ? Hn Hm]; subst.
    destruct (String.eqb_spec k0 k) as [-> | N]; simpl.
    + now constructor.
    + constructor; [|now apply IH]. rewrite keys_mapSet. intros [E | I]; auto.
Qed.

Lemma keys_mapDelete {V} (m : list (string * V)) k :
  forall x, In x (map fst (mapDelete m k)) -> In x (map fst m).
Proof.
  induction m as [|[k0 v0] m IH]; intros x; simpl; [tauto|].
  destruct (String.eqb_spec k0 k); simpl; [tauto|]. intros [E | I]; auto.
Qed.

Lemma NoDup_mapDelete {V} (m : list (string * V)) k : NoDup (map fst m) -> NoDup (map fst (mapDelete m k)).
Proof.
  induction m as [|[k0 v0] m IH]; simpl; intros H; [constructor|].
  inversion H as [|? ? Hn Hm]; subst.
  destruct (String.eqb_spec k0 k); simpl; [exact Hm|].
  constructor; [|now apply IH]. intros I. apply Hn. now apply keys_mapDelete in I.
Qed.

Lemma mapGet_mapDelete_same {V} (m : list (string * V)) k :
  NoDup (map fst m) -> mapGet (mapDelete m k) k = None.
Proof.
  induction m as [|[k0 v0] m IH]; simpl; intros H; [reflexivity|].
  inversion H as [|? ? Hn Hm]; subst.
  destruct (String.eqb_spec k0 k) as [-> | N]; simpl.
  - now apply mapGet_notin.
  - destruct (String.eqb_spec k0 k); [contradiction|now apply IH].
Qed.

Lemma mapGet_mapDelete_other {V} (m : list (string * V)) k k' :
  k' <> k -> mapGet (mapDelete m k) k' = mapGet m k'.
Proof.
  intros N. induction m as [|[k0 v0] m IH]; simpl; [reflexivity|].
  destruct (String.eqb_spec k0 k) as [-> | N0]; simpl.
  - destruct (String.eqb_spec k k'); [congruence|reflexivity].
  - now rewrite IH.
Qed.

Lemma mapDelete_middle {V} (a b : list (string * V)) k (v : V) :
  ~ In k (map fst a) -> mapDelete (a ++ (k, v) :: b) k = (a ++ b)%list.
Proof.
  induction a as [|[k0 v0] a IH]; simpl; intros H.
  - now rewrite String.eqb_refl.
  - destruct (String.eqb_spec k0 k); [tauto|]. rewrite IH; tauto.
Qed.

Lemma mapGet_filter {V} (p : string * V -> bool) (m : list (string * V)) k :
  NoDup (map fst m) ->
  mapGet (filter p m) k
  = match mapGet m k with
    | Some v => if p (k, v) then Some v else None
    | None => None
    end.
Proof.
  induction m as [|[k0 v0] m IH]; simpl; intros H; [reflexivity|].
  inversion H as [|? ? Hn Hm]; subst.
  destruct (String.eqb_spec k0 k) as [-> | N].
  - destruct (p (k, v0)) eqn:P; simpl.
    + now rewrite String.eqb_refl.
    + apply mapGet_notin. intros I. apply Hn.
      apply in_map_iff in I as (e & E & I). apply filter_In in I as [I _].
      apply in_map_iff. now exists e.
  - destruct (p (k0, v0)); simpl; [|now apply IH].
    destruct (String.eqb_spec k0 k); [contradiction|now apply IH].
Qed.


(** ** Sessions *)

Import WhatsAppAgent.

Lemma cleanup_loop now (rest a : SessionMemory) (c : bool) :
  NoDup (map fst (a ++ rest)) ->
  fold_left
    (fun (state : SessionMemory * bool) (entry : string * AgentSession) =>
       let '(newMemory, changed) := state in
       let '(userId, session) := entry in
       if now - lastActive session >? SESSION_TIMEOUT_MS
       then (mapDelete newMemory userId, true)
       else (newMemory, changed))
    rest ((a ++ rest)%list, c)
  = ((a ++ filter (fun entry => negb (expired now (snd entry))) rest)%list,
     c || existsb (fun entry => expired now (snd entry)) rest).
Proof.
  revert a c. induction rest as [|[k s] rest IH]; intros a c N.
  - simpl. now rewrite orb_false_r.
  - cbn [fold_left filter existsb snd].
    change (now - lastActive s >? SESSION_TIMEOUT_MS) with (expired now s).
    destruct (expired now s) eqn:E; cbn [negb].
    + rewrite mapDelete_middle.
      * rewrite IH.
        -- cbn [orb]. now destruct c.
        -- rewrite map_app in *. cbn [map fst] in N.
           now apply NoDup_remove_1 in N.
      * rewrite map_app in N. cbn [map fst] in N.
        apply NoDup_remove_2 in N. intros I. apply N. apply in_or_app. now left.
    + replace (a ++ (k, s) :: rest)%list with ((a ++ [(k, s)]) ++ rest)%list
        by now rewrite <- app_assoc.
      rewrite IH.
      * rewrite <- app_assoc. cbn [orb app]. reflexivity.
      * now rewrite <- app_assoc.
Qed.

Lemma filter_none {A} (q : A -> bool) (l : list A) :
  existsb q l = false -> filter (fun x => negb (q x)) l = l.
Proof.
  induction l as [|x l IH]; simpl; [reflexivity|].
  destruct (q x); simpl; [discriminate|]. intros H. now rewrite IH.
Qed.

Lemma cleanup_filter now (prev : SessionMemory) :
  NoDup (map fst prev) ->
  cleanup now prev = filter (fun entry => negb (expired now (snd entry))) prev.
Proof.
  intros N. unfold cleanup.
  set (F := fold_left _ _ _).
  assert (L : F = (filter (fun entry => negb (expired now (snd entry))) prev,
                   existsb (fun entry => expired now (snd entry)) prev))
    by exact (cleanup_loop now prev [] false N).
  rewrite L.
  destruct (existsb _ prev) eqn:E; [reflexivity|].
  symmetry. now apply (filter_none (fun entry => expired now (snd entry))).
Qed.

Lemma NoDup_filter_keys {V} (p : string * V -> bool) (m : list (string * V)) :
  NoDup (map fst m) -> NoDup (map fst (filter p m)).
Proof.
  induction m as [|e m IH]; simpl; intros N; [constructor|].
  inversion N as [|? ? Hn Hm]; subst.
  destruct (p e); simpl; [|now apply IH].
  constructor; [|now apply IH]. intros I. apply Hn.
  apply in_map_iff in I as (x & E & I). apply filter_In in I as [I _].
  apply in_map_iff. now exists x.
Qed.

Lemma cleanup_lookup now (prev : SessionMemory) userId :
  NoDup (map fst prev) ->
  mapGet (cleanup now prev) userId
  = match mapGet prev userId with
    | Some session =>
        if now - lastActive session >? SESSION_TIMEOUT_MS then None
        else Some session
    | None => None
    end.
Proof.
  intros N. rewrite cleanup_filter by exact N.
  rewrite mapGet_filter by exact N.
  destruct (mapGet prev userId) as [s|]; [|reflexivity].
  cbn [snd]. unfold expired. now destruct (_ >? _).
Qed.

Lemma cleanup_later now later (prev : SessionMemory) :
  NoDup (map fst prev) -> now <= later ->
  cleanup later (cleanup now prev) = cleanup later prev.
Proof.
  intros N L.
  rewrite (cleanup_filter now) by exact N.
  rewrite !cleanup_filter by (try apply NoDup_filter_keys; exact N).
  clear N. induction prev as [|[k s] prev IH]; [reflexivity|].
  cbn [filter snd].
  destruct (expired now s) eqn:A; cbn [negb].
  - assert (expired later s = true) as ->.
    { unfold expired in *. apply Z.gtb_lt. apply Z.gtb_lt in A. lia. }
    exact IH.
  - cbn [filter snd].
    destruct (expired later s); cbn [negb]; now rewrite IH.
Qed.

(** X24.  The cleanup timer removes exactly the sessions that have been
    idle for more than fifteen minutes: after it has run at time [now], a
    user's session is gone when [now - lastActive] exceeds the timeout, and
    is otherwise what it was; the sessions that remain keep their order; and
    when no session is that old the memory is returned as it is. *)
Theorem X24_cleanup_removes_the_idle_sessions :
  forall now (prev : SessionMemory), NoDup (map fst prev) ->
    (forall userId,
       mapGet (cleanup now prev) userId
       = match mapGet prev userId with
         | Some session =>
             if now - lastActive session >? SESSION_TIMEOUT_MS then None
             else Some session
         | None => None
         end)
    /\ cleanup now prev
       = filter (fun entry => negb (expired now (snd entry))) prev
    /\ (forallb (fun entry => negb (expired now (snd entry))) prev = true ->
        cleanup now prev = prev).
Proof.
  intros now prev N. split; [|split].
  - intros userId. now apply cleanup_lookup.
  - now apply cleanup_filter.
  - intros A. rewrite cleanup_filter by exact N.
    apply (filter_none (fun entry => expired now (snd entry))).
    clear N. induction prev as [|e prev IH]; [reflexivity|].
    cbn [existsb forallb] in *. apply andb_true_iff in A as [A B].
    apply negb_true_iff in A. rewrite A. now apply IH.
Qed.

Lemma X24_cleanup_removes_the_idle_sessions_witness :
  mapGet (cleanup 1000000 twoSessions) "user-123" = None
  /\ mapGet (cleanup 1000000 twoSessions) "user-456"
     = Some {| history := []; lastActive := 600000 |}.
Proof.
  assert (N : NoDup (map fst twoSessions)).
  { repeat constructor; simpl; intuition discriminate. }
  split.
  - exact (proj1 (X24_cleanup_removes_the_idle_sessions 1000000 twoSessions N)
             "user-123").
  - exact (proj1 (X24_cleanup_removes_the_idle_sessions 1000000 twoSessions N)
             "user-456").
Defined.

(** X25.  Running the cleanup timer twice is the same as running it once at
    the later time: a run at [later] after a run at [now <= later] leaves
    what a single run at [later] leaves; in particular a second run at the
    same time changes nothing. *)
Theorem X25_cleanup_runs_accumulate :
  forall now later (prev : SessionMemory),
    NoDup (map fst prev) -> now <= later ->
    cleanup later (cleanup now prev) = cleanup later prev.
Proof.
  intros now later prev N L. now apply cleanup_later.
Qed.

Lemma X25_cleanup_runs_accumulate_witness :
  cleanup 1600000 (cleanup 1000000 twoSessions) = cleanup 1600000 twoSessions.
Proof.
  apply X25_cleanup_runs_accumulate.
  - repeat constructor; simpl; intuition discriminate.
  - lia.
Defined.

Lemma updatedHistory_suffix (sessionMemory : SessionMemory) id input :
  let old := match mapGet sessionMemory id with
             | Some session => history session
             | None => []
             end in
  let sent := updatedHistory sessionMemory id input in
  exists dropped,
    (old ++ [{| role := user; text := input |}] = dropped ++ sent)%list
    /\ List.length dropped
       = (List.length old + 1 - MAX_HISTORY_TURNS)%nat.
Proof.
  cbv zeta. unfold updatedHistory.
  set (old := match mapGet sessionMemory id with
              | Some session => history session | None => [] end).
  assert (E : history
                match mapGet sessionMemory id with
                | Some s => s
                | None => {| history := []; lastActive := 0 |}
                end = old) by (subst old; now destruct (mapGet sessionMemory id)).
  rewrite E. set (all := (old ++ _)%list).
  assert (L : List.length all = (List.length old + 1)%nat)
    by (subst all; now rewrite length_app).
  destruct (Nat.ltb_spec MAX_HISTORY_TURNS (List.length all)) as [G | G].
  - exists (firstn (List.length all - MAX_HISTORY_TURNS) all). split.
    + now rewrite firstn_skipn.
    + rewrite length_firstn. lia.
  - exists []. split; [reflexivity|]. simpl. lia.
Qed.

Lemma updatedHistory_length (sessionMemory : SessionMemory) id input :
  (1 <= List.length (updatedHistory sessionMemory id input)
   <= MAX_HISTORY_TURNS)%nat.
Proof.
  unfold updatedHistory. set (all := (_ ++ _)%list).
  assert (L : (1 <= List.length all)%nat)
    by (subst all; rewrite length_app; simpl; lia).
  destruct (Nat.ltb_spec MAX_HISTORY_TURNS (List.length all)) as [G | G].
  - rewrite length_skipn. unfold MAX_HISTORY_TURNS in *. lia.
  - lia.
Qed.

Lemma last_skipn {A} (l : list A) (n : nat) (d : A) :
  (n < List.length l)%nat -> last (skipn n l) d = last l d.
Proof.
  revert n. induction l as [|x l IH]; intros n H; [simpl in H; lia|].
  destruct n as [|n]; [reflexivity|].
  cbn [skipn]. rewrite IH by (simpl in H; lia).
  destruct l; [simpl in H; lia|reflexivity].
Qed.

Lemma updatedHistory_last (sessionMemory : SessionMemory) id input d :
  last (updatedHistory sessionMemory id input) d
  = {| role := user; text := input |}.
Proof.
  unfold updatedHistory. set (all := (_ ++ _)%list).
  assert (E : last all d = {| role := user; text := input |})
    by (subst all; apply last_last).
  destruct (Nat.ltb_spec MAX_HISTORY_TURNS (List.length all)) as [G | G];
    [|exact E].
  rewrite last_skipn; [exact E|]. unfold MAX_HISTORY_TURNS in *. lia.
Qed.

(** X26.  The history sent to the agent is the tail of the stored history
    followed by the new user message: it never has more than ten turns, it
    always ends with the message just typed, and what is left out is only
    the oldest turns, as many as the total exceeds ten. *)
Theorem X26_sent_history_is_the_last_ten_turns :
  forall (sessionMemory : SessionMemory) (id input : string),
    let old := match mapGet sessionMemory id with
               | Some session => history session
               | None => []
               end in
    let sent := updatedHistory sessionMemory id input in
    (1 <= List.length sent <= 10)%nat
    /\ (forall d, last sent d = {| role := user; text := input |})
    /\ exists dropped,
         (old ++ [{| role := user; text := input |}] = dropped ++ sent)%list
         /\ List.length dropped = (List.length old + 1 - 10)%nat.
Proof.
  intros sessionMemory id input. cbv zeta. split; [|split].
  - apply updatedHistory_length.
  - intros d. apply updatedHistory_last.
  - apply updatedHistory_suffix.
Qed.

Lemma send_then_reply (sessionMemory prev : SessionMemory)
    id input reply sentAt repliedAt sent update :
  handleSendMessage sessionMemory false id input sentAt = Some (sent, update) ->
  let after := storeModelTurn id reply repliedAt (update prev) in
  mapGet after id
  = Some {| history := (sent ++ [{| role := model; text := reply |}])%list;
            lastActive := repliedAt |}
  /\ (forall other, other <> id -> mapGet after other = mapGet prev other)
  /\ (NoDup (map fst prev) -> NoDup (map fst after)).
Proof.
  unfold handleSendMessage.
  destruct (negb (truthy (trim input)) || false); [discriminate|].
  intros H. injection H as <- <-. cbv zeta. unfold storeModelTurn.
  rewrite mapGet_mapSet_same. cbn [history]. split; [|split].
  - apply mapGet_mapSet_same.
  - intros other N. now rewrite !mapGet_mapSet_other.
  - intros N. now apply NoDup_mapSet, NoDup_mapSet.
Qed.

(** X27.  One exchange in the tester: when a message is accepted, then after
    the agent's reply has been stored the user's session holds the history
    that was sent followed by the reply and carries the time of the reply,
    and no other user's session is touched.  The stored history therefore
    can hold eleven turns: the bound of ten applies to what is sent. *)
Theorem X27_exchange_updates_one_session :
  forall (sessionMemory prev : SessionMemory)
         (id input reply : string) (sentAt repliedAt : Z) sent update,
    handleSendMessage sessionMemory false id input sentAt
    = Some (sent, update) ->
    let after := storeModelTurn id reply repliedAt (update prev) in
    mapGet after id
    = Some {| history := (sent ++ [{| role := model; text := reply |}])%list;
              lastActive := repliedAt |}
    /\ (forall other, other <> id -> mapGet after other = mapGet prev other).
Proof.
  intros sessionMemory prev id input reply sentAt repliedAt sent update H.
  cbv zeta.
  destruct (send_then_reply sessionMemory prev id input reply sentAt repliedAt
              sent update H) as (A & B & _).
  now split.
Qed.

Lemma X27_exchange_updates_one_session_witness :
  let sent := updatedHistory twoSessions "user-123" "Play Toto" in
  let after :=
    storeModelTurn "user-123" "Sure" 2000
      (mapSet twoSessions "user-123" {| history := sent; lastActive := 1500 |})
  in
  mapGet after "user-123"
  = Some {| history := (sent ++ [{| role := model; text := "Sure" |}])%list;
            lastActive := 2000 |}
  /\ (forall other, other <> "user-123" ->
      mapGet after other = mapGet twoSessions other).
Proof.
  exact (X27_exchange_updates_one_session twoSessions twoSessions
           "user-123" "Play Toto" "Sure" 1500 2000 _ _ eq_refl).
Defined.

Lemma reply_after_expiry (prev : SessionMemory) id reply now :
  NoDup (map fst prev) ->
  storeModelTurn id reply now (handleExpireSession id prev)
  = handleExpireSession id prev.
Proof.
  intros N. unfold storeModelTurn, handleExpireSession.
  now rewrite mapGet_mapDelete_same.
Qed.

Lemma reply_after_cleanup (prev : SessionMemory) id reply now at_ session :
  NoDup (map fst prev) ->
  mapGet prev id = Some session ->
  at_ - lastActive session > SESSION_TIMEOUT_MS ->
  storeModelTurn id reply now (cleanup at_ prev) = cleanup at_ prev.
Proof.
  intros N G E. unfold storeModelTurn.
  rewrite cleanup_lookup by exact N. rewrite G.
  apply Z.gt_lt, Z.gtb_lt in E. now rewrite E.
Qed.

(** X28.  A reply that arrives after the session is gone does not bring it
    back: when the session was reset with [handleExpireSession], or was
    removed by the cleanup timer, storing the agent's reply leaves the
    memory as it is, and the user still has no session. *)
Theorem X28_late_reply_does_not_revive_a_session :
  forall (prev : SessionMemory) (id reply : string) (now : Z),
    NoDup (map fst prev) ->
    storeModelTurn id reply now (handleExpireSession id prev)
    = handleExpireSession id prev
    /\ mapGet (storeModelTurn id reply now (handleExpireSession id prev)) id
       = None
    /\ (forall at_ session,
          mapGet prev id = Some session ->
          at_ - lastActive session > SESSION_TIMEOUT_MS ->
          storeModelTurn id reply now (cleanup at_ prev) = cleanup at_ prev).
Proof.
  intros prev id reply now N. split; [|split].
  - now apply reply_after_expiry.
  - rewrite reply_after_expiry by exact N. now apply mapGet_mapDelete_same.
  - intros at_ session G E. now apply (reply_after_cleanup prev id reply now at_ session).
Qed.

Lemma X28_late_reply_does_not_revive_a_session_witness :
  storeModelTurn "user-123" "Sure" 2000
    (handleExpireSession "user-123" twoSessions)
  = handleExpireSession "user-123" twoSessions.
Proof.
  apply (proj1 (X28_late_reply_does_not_revive_a_session twoSessions
                  "user-123" "Sure" 2000
                  ltac:(repeat constructor; simpl; intuition discriminate))).
Defined.

Lemma expire_lookup (prev : SessionMemory) userId other :
  NoDup (map fst prev) ->
  mapGet (handleExpireSession userId prev) other
  = if String.eqb other userId then None else mapGet prev other.
Proof.
  intros N. unfold handleExpireSession.
  destruct (String.eqb_spec other userId) as [-> | D].
  - now apply mapGet_mapDelete_same.
  - now apply mapGet_mapDelete_other.
Qed.

(** X29.  Resetting a session removes that user's session and no other: a
    lookup of the user gives nothing afterwards, every other user's session
    is what it was, and resetting twice is resetting once. *)
Theorem X29_reset_removes_one_session :
  forall (prev : SessionMemory) (userId : string),
    NoDup (map fst prev) ->
    (forall other,
       mapGet (handleExpireSession userId prev) other
       = if String.eqb other userId then None else mapGet prev other)
    /\ handleExpireSession userId (handleExpireSession userId prev)
       = handleExpireSession userId prev.
Proof.
  intros prev userId N. split.
  - intros other. now apply expire_lookup.
  - unfold handleExpireSession.
    assert (M : forall m : SessionMemory,
               ~ In userId (map fst m) -> mapDelete m userId = m).
    { induction m as [|[k s] m IH]; simpl; [reflexivity|]. intros H.
      destruct (String.eqb_spec k userId); [tauto|]. rewrite IH; tauto. }
    apply M. clear M. induction prev as [|[k s] prev IH]; simpl; [tauto|].
    inversion N as [|? ? Hn Hm]; subst.
    destruct (String.eqb_spec k userId) as [-> | D]; simpl; [exact Hn|].
    intros [E | I]; [contradiction|]. now apply IH.
Qed.

Lemma X29_reset_removes_one_session_witness :
  mapGet (handleExpireSession "user-123" twoSessions) "user-123" = None.
Proof.
  apply (proj1 (X29_reset_removes_one_session twoSessions "user-123"
                  ltac:(repeat constructor; simpl; intuition discriminate))
           "user-123").
Defined.
